(** * Sprite-Editor mask engine: a shallow embedding and its properties

    The development follows the Python sources of the repository:
    - [roi.py]            : the [FrameROI] entity and its mask-edit history;
    - [mask_processor.py] : [MaskProcessor.gen_mask], [MaskProcessor.extract_rois],
                            [render_filename], [sort_rois], [filter_rois];
    - [widgets.py]        : the history, mode and watershed parts of
                            [MaskEditWidget].

    Conventions of the embedding.
    - Python [int] is [Z]; list lengths and list positions that the code keeps
      non-negative by a guard (the history pointers) are [nat].
    - Python [float] values (contour areas, aspect ratios, range endpoints)
      are exact rationals [Q]; NaN and rounding are outside the model.
    - A [str] is a Rocq [string] holding the UTF-8 bytes of the text.  Every
      character the code inspects is ASCII, and the bytes of a non-ASCII
      character are all above 127, so byte-wise scanning agrees with
      code-point-wise scanning.
    - A numpy array of rank two is a shape and an indexing function
      ([ndarray]); [copy()] is the identity, since the arrays of the model are
      values.
    - A raised exception is the [Raise] outcome of [result].
    - OpenCV and the Python built-ins the code calls are either modelled from
      their documentation ([Cv], [Py]) or, where they are true black boxes
      (contour tracing, [cv2.watershed], [cv2.resize], [format], [str] of a
      float), taken as section variables. *)

From Stdlib Require Import String Ascii DecimalString.
From Stdlib Require Import List ZArith QArith Bool Arith Lia.
From Stdlib Require Import Permutation Sorted.
Import ListNotations.

Set Implicit Arguments.
Close Scope Q_scope.
Open Scope nat_scope.

(* ===================================================================== *)
(** * Python runtime                                                      *)
(* ===================================================================== *)

Module Py.

(** The exception classes that the modelled code can raise. *)
Inductive exn : Type :=
| IndexError
| ValueError
| AttributeError
| TypeError
| CvError.

Inductive result (A : Type) : Type :=
| Ok (a : A)
| Raise (e : exn).
Arguments Ok {A} a.
Arguments Raise {A} e.

Definition bind {A B : Type} (m : result A) (k : A -> result B) : result B :=
  match m with
  | Ok a => k a
  | Raise e => Raise e
  end.

(** [l[:k]] on a list: a negative [k] counts from the end. *)
Definition slice_to {A : Type} (l : list A) (k : Z) : list A :=
  if (k <? 0)%Z
  then firstn (Z.to_nat (Z.of_nat (length l) + k)) l
  else firstn (Z.to_nat k) l.

(** [l[-k:]] for a positive [k]: the last [k] elements. *)
Definition slice_last {A : Type} (k : nat) (l : list A) : list A :=
  skipn (length l - k) l.

(** One insertion step of a stable sort: [a] goes in front of the first
    element it is allowed to precede. *)
Fixpoint insert_sorted {A : Type} (le : A -> A -> bool) (a : A) (l : list A)
  : list A :=
  match l with
  | [] => [a]
  | b :: t => if le a b then a :: b :: t else b :: insert_sorted le a t
  end.

(** [sorted(l, key=key, reverse=reverse)], for keys ordered by [leb].
    Python's sort is stable, also under [reverse=True]: elements with equal
    keys keep their input order in both directions. *)
Definition sorted {A K : Type} (leb : K -> K -> bool) (key : A -> K)
           (reverse : bool) (l : list A) : list A :=
  let le := fun a b =>
              if reverse then leb (key b) (key a) else leb (key a) (key b) in
  fold_right (insert_sorted le) [] l.

(** [a < b] on floats. *)
Definition Qlt_bool (a b : Q) : bool := negb (Qle_bool b a).

End Py.

Notation "x <- m ;; k" := (Py.bind m (fun x => k))
(at level 61, m at next level, right associativity).

(* ===================================================================== *)
(** * numpy arrays of rank two                                            *)
(* ===================================================================== *)

Module Np.

Record ndarray (A : Type) : Type := mk_ndarray {
  shape0 : nat;               (* rows,    [a.shape[0]] *)
  shape1 : nat;               (* columns, [a.shape[1]] *)
  cell : nat -> nat -> A      (* [a[i, j]] for [i < shape0], [j < shape1] *)
}.

(** Integer indexing along an axis of length [n]: indices [-n .. n-1] are
    valid, anything else raises [IndexError]. *)
Definition index (n : nat) (i : Z) : Py.result nat :=
  if ((0 <=? i) && (i <? Z.of_nat n))%Z then Py.Ok (Z.to_nat i)
  else if ((- Z.of_nat n <=? i) && (i <? 0))%Z
       then Py.Ok (Z.to_nat (i + Z.of_nat n))
       else Py.Raise Py.IndexError.

Definition get {A : Type} (a : ndarray A) (i j : Z) : Py.result A :=
  r <- index (shape0 a) i ;;
  c <- index (shape1 a) j ;;
  Py.Ok (cell a r c).

(** A slice bound clamped the way Python does along an axis of length [n]. *)
Definition clamp (n : nat) (i : Z) : nat :=
  if (i <? 0)%Z then Z.to_nat (Z.max 0 (i + Z.of_nat n))
  else Nat.min (Z.to_nat i) n.

(** [a[r0:r1, c0:c1]] *)
Definition slice {A : Type} (a : ndarray A) (r0 r1 c0 c1 : Z) : ndarray A :=
  let rs := clamp (shape0 a) r0 in
  let re := clamp (shape0 a) r1 in
  let cs := clamp (shape1 a) c0 in
  let ce := clamp (shape1 a) c1 in
  {| shape0 := re - rs;
     shape1 := ce - cs;
     cell := fun i j => cell a (rs + i) (cs + j) |}.

Definition same_shape {A B : Type} (a : ndarray A) (b : ndarray B) : bool :=
  (shape0 a =? shape0 b) && (shape1 a =? shape1 b).

Definition map {A B : Type} (f : A -> B) (a : ndarray A) : ndarray B :=
  {| shape0 := shape0 a; shape1 := shape1 a;
     cell := fun i j => f (cell a i j) |}.

(** [np.zeros(shape)] and friends: a constant array. *)
Definition full {A : Type} (h w : nat) (v : A) : ndarray A :=
  {| shape0 := h; shape1 := w; cell := fun _ _ => v |}.

(** The positions of the array, row by row. *)
Definition positions {A : Type} (a : ndarray A) : list (nat * nat) :=
  list_prod (seq 0 (shape0 a)) (seq 0 (shape1 a)).

(** [v in np.unique(a)] *)
Definition contains (a : ndarray Z) (v : Z) : bool :=
  existsb (fun p => (cell a (fst p) (snd p) =? v)%Z) (positions a).

(** Every stored element satisfies [P]. *)
Definition all_cells {A : Type} (P : A -> Prop) (a : ndarray A) : Prop :=
  forall i j, i < shape0 a -> j < shape1 a -> P (cell a i j).

(** [np.zeros((h, w, ...))]: a negative dimension raises [ValueError]. *)
Definition zeros {A : Type} (h w : Z) (zero : A) : Py.result (ndarray A) :=
  if ((h <? 0) || (w <? 0))%Z then Py.Raise Py.ValueError
  else Py.Ok (full (Z.to_nat h) (Z.to_nat w) zero).

(** Whether a source of shape [(sh, sw)] broadcasts to a target of shape
    [(th, tw)]: along each axis the lengths agree or the source has length 1. *)
Definition broadcasts (sh sw th tw : nat) : bool :=
  ((sh =? th) || (sh =? 1)) && ((sw =? tw) || (sw =? 1)).

(** The element of [src] that lands on position [(i, j)] of the target. *)
Definition broadcast_cell {A : Type} (src : ndarray A) (i j : nat) : A :=
  cell src (if shape0 src =? 1 then 0 else i) (if shape1 src =? 1 then 0 else j).

(** [a[r0:r1, c0:c1] = src], with [f old new] storing [new] into [old]
    (the whole element, or one channel of it).  A source that does not
    broadcast to the sliced region raises [ValueError]. *)
Definition assign_slice {A B : Type} (f : A -> B -> A) (a : ndarray A)
           (r0 r1 c0 c1 : Z) (src : ndarray B) : Py.result (ndarray A) :=
  let rs := clamp (shape0 a) r0 in
  let re := clamp (shape0 a) r1 in
  let cs := clamp (shape1 a) c0 in
  let ce := clamp (shape1 a) c1 in
  if broadcasts (shape0 src) (shape1 src) (re - rs) (ce - cs) then
    Py.Ok {| shape0 := shape0 a;
             shape1 := shape1 a;
             cell := fun i j =>
               if (rs <=? i) && (i <? re) && (cs <=? j) && (j <? ce)
               then f (cell a i j) (broadcast_cell src (i - rs) (j - cs))
               else cell a i j |}
  else Py.Raise Py.ValueError.

End Np.

(** A pixel of an RGBA image, each channel an 8-bit value. *)
Record RGBA : Type := mk_rgba { red : Z; green : Z; blue : Z; alpha : Z }.

Definition Image : Type := Np.ndarray RGBA.
Definition Mask : Type := Np.ndarray Z.       (* uint8, 0 or 255 when binary *)
Definition Markers : Type := Np.ndarray Z.    (* int32 label map *)

(* ===================================================================== *)
(** * roi.py: [FrameROI]                                                  *)
(* ===================================================================== *)

Module FrameROI.

Record t : Type := mk {
  img : Image;
  mask : Mask;
  x : Z;
  y : Z;
  w : Z;
  h : Z;
  area : Q;
  idx : Z;
  aspect_ratio : Q;
  selected : bool;
  tag : string;
  note : string;
  mask_edit_history : list Mask;
  mask_edit_idx : nat
}.

(** [FrameROI.__init__] *)
Definition init (img : Image) (mask : Mask) (x y w h : Z) (area : Q)
           (idx : Z) (tag note : string) : t :=
  {| img := img;
     mask := mask;
     x := x; y := y; w := w; h := h;
     area := area;
     idx := idx;
     aspect_ratio := if (h >? 0)%Z then (inject_Z w / inject_Z h)%Q else 0%Q;
     selected := false;
     tag := tag;
     note := note;
     mask_edit_history := [mask];
     mask_edit_idx := 0 |}.

Definition set_history (r : t) (hist : list Mask) (p : nat) : t :=
  {| img := img r; mask := mask r; x := x r; y := y r; w := w r; h := h r;
     area := area r; idx := idx r; aspect_ratio := aspect_ratio r;
     selected := selected r; tag := tag r; note := note r;
     mask_edit_history := hist; mask_edit_idx := p |}.

Definition set_mask_ptr (r : t) (m : Mask) (p : nat) : t :=
  {| img := img r; mask := m; x := x r; y := y r; w := w r; h := h r;
     area := area r; idx := idx r; aspect_ratio := aspect_ratio r;
     selected := selected r; tag := tag r; note := note r;
     mask_edit_history := mask_edit_history r; mask_edit_idx := p |}.

(** [add_mask_to_history]: drop the redo tail, append, point at the end.
    There is no bound on the length here. *)
Definition add_mask_to_history (r : t) (m : Mask) : t :=
  let hist :=
    if mask_edit_idx r <? length (mask_edit_history r) - 1
    then firstn (mask_edit_idx r + 1) (mask_edit_history r)
    else mask_edit_history r in
  let hist := hist ++ [m] in
  set_history r hist (length hist - 1).

(** [undo_mask]: returns the flag and the updated object.  The list access
    is in range whenever the pointer is a position of the list; otherwise
    Python raises [IndexError]. *)
Definition undo_mask (r : t) : Py.result (bool * t) :=
  if 0 <? mask_edit_idx r then
    let p := mask_edit_idx r - 1 in
    match nth_error (mask_edit_history r) p with
    | Some m => Py.Ok (true, set_mask_ptr r m p)
    | None => Py.Raise Py.IndexError
    end
  else Py.Ok (false, r).

(** [redo_mask] *)
Definition redo_mask (r : t) : Py.result (bool * t) :=
  if mask_edit_idx r <? length (mask_edit_history r) - 1 then
    let p := mask_edit_idx r + 1 in
    match nth_error (mask_edit_history r) p with
    | Some m => Py.Ok (true, set_mask_ptr r m p)
    | None => Py.Raise Py.IndexError
    end
  else Py.Ok (false, r).

(** The commits of [ms], one after the other. *)
Definition commits (r : t) (ms : list Mask) : t :=
  fold_left add_mask_to_history ms r.

End FrameROI.

(* ===================================================================== *)
(** * OpenCV functions, modelled from the library documentation          *)
(* ===================================================================== *)

Module Cv.

(** A contour as [cv2.findContours] returns it: its vertices, in order. *)
Definition Contour : Type := list (Z * Z).

(** [cv2.contourArea]: half the absolute value of the shoelace sum, each
    vertex paired with its predecessor, the first with the last. *)
Fixpoint shoelace (prev : Z * Z) (pts : list (Z * Z)) : Z :=
  match pts with
  | [] => 0%Z
  | p :: rest =>
      (fst prev * snd p - snd prev * fst p + shoelace p rest)%Z
  end.

Definition contourArea (c : Contour) : Q :=
  match c with
  | [] => 0%Q
  | p :: _ => (inject_Z (Z.abs (shoelace (last c p) c)) / 2)%Q
  end.

(** [cv2.boundingRect] of a point set: [(x, y, w, h)], the empty rectangle
    for no points. *)
Definition boundingRect (c : Contour) : Z * Z * Z * Z :=
  match c with
  | [] => (0, 0, 0, 0)%Z
  | p :: rest =>
      let xmin := fold_right (fun q m => Z.min (fst q) m) (fst p) rest in
      let xmax := fold_right (fun q m => Z.max (fst q) m) (fst p) rest in
      let ymin := fold_right (fun q m => Z.min (snd q) m) (snd p) rest in
      let ymax := fold_right (fun q m => Z.max (snd q) m) (snd p) rest in
      (xmin, ymin, xmax - xmin + 1, ymax - ymin + 1)%Z
  end.

Inductive morph_op : Type := MORPH_CLOSE | MORPH_OPEN.

(** The offsets, relative to the anchor [k / 2], that a [k] by [k] kernel of
    ones covers. *)
Definition window (k : nat) : list (Z * Z) :=
  let a := Z.of_nat (k / 2) in
  List.map (fun p => (Z.of_nat (fst p) - a, Z.of_nat (snd p) - a)%Z)
           (list_prod (seq 0 k) (seq 0 k)).

(** The pixels of [src] under the window placed at [(i, j)]; positions
    outside the image are left out, which is what the default border of the
    morphological filters amounts to. *)
Definition neighbours (k : nat) (src : Mask) (i j : nat) : list Z :=
  flat_map
    (fun d =>
       let r := (Z.of_nat i + fst d)%Z in
       let c := (Z.of_nat j + snd d)%Z in
       if ((0 <=? r) && (r <? Z.of_nat (Np.shape0 src)) &&
           (0 <=? c) && (c <? Z.of_nat (Np.shape1 src)))%Z
       then [Np.cell src (Z.to_nat r) (Z.to_nat c)]
       else [])
    (window k).

(** One pass of [cv2.erode] / [cv2.dilate] on an 8-bit image: the minimum,
    respectively the maximum, under the window. *)
Definition erode1 (k : nat) (src : Mask) : Mask :=
  {| Np.shape0 := Np.shape0 src;
     Np.shape1 := Np.shape1 src;
     Np.cell := fun i j => fold_right Z.min 255%Z (neighbours k src i j) |}.

Definition dilate1 (k : nat) (src : Mask) : Mask :=
  {| Np.shape0 := Np.shape0 src;
     Np.shape1 := Np.shape1 src;
     Np.cell := fun i j => fold_right Z.max 0%Z (neighbours k src i j) |}.

(** [cv2.morphologyEx(src, op, np.ones((k, k)), iterations=n)].  No pass is
    made for [n <= 0] or a 1 by 1 kernel; an empty kernel stands for the
    default 3 by 3 one.  Closing dilates [n] times and then erodes [n] times,
    opening erodes and then dilates. *)
Definition morphologyEx (src : Mask) (op : morph_op) (k : nat) (iterations : Z)
  : Mask :=
  let n := Z.to_nat iterations in
  let k' := if k =? 0 then 3 else k in
  if (n =? 0) || (k =? 1) then src
  else
    match op with
    | MORPH_CLOSE => Nat.iter n (erode1 k') (Nat.iter n (dilate1 k') src)
    | MORPH_OPEN => Nat.iter n (dilate1 k') (Nat.iter n (erode1 k') src)
    end.

End Cv.

(* ===================================================================== *)
(** * mask_processor.py                                                   *)
(* ===================================================================== *)

Module MaskProcessor.

(** The attributes of a [MaskProcessor]. *)
Record t : Type := mk {
  color_thresh : Z;
  pad : Z;
  kernel_size : Z;
  max_extract : Z;
  min_area : Z;
  max_area : Z;
  close_iter : Z;
  open_iter : Z;
  out_width : Z;
  out_height : Z
}.

(** [MaskProcessor.__init__] with its default arguments. *)
Definition default : t :=
  {| color_thresh := 40; pad := 4; kernel_size := 5; max_extract := 12;
     min_area := 500; max_area := 1000000; close_iter := 2; open_iter := 1;
     out_width := 128; out_height := 128 |}.

(** The colour channels [[:3]] of a pixel. *)
Definition rgb (p : RGBA) : Z * Z * Z := (red p, green p, blue p).

(** [get_bg_samples]: seven probes, read in the order the list literal
    evaluates them; the first index that is out of range raises. *)
Definition get_bg_samples (img_np : Image) : Py.result (list (Z * Z * Z)) :=
  let h := Z.of_nat (Np.shape0 img_np) in
  let w := Z.of_nat (Np.shape1 img_np) in
  s1 <- Np.get img_np 0 0 ;;
  s2 <- Np.get img_np 0 (-1) ;;
  s3 <- Np.get img_np (-1) 0 ;;
  s4 <- Np.get img_np (-1) (-1) ;;
  s5 <- Np.get img_np (h / 2) 0 ;;
  s6 <- Np.get img_np 0 (w / 2) ;;
  s7 <- Np.get img_np (h / 2) (w / 2) ;;
  Py.Ok (List.map rgb [s1; s2; s3; s4; s5; s6; s7]).

(** Subtraction of two [uint8] values, which wraps around. *)
Definition sub_u8 (a b : Z) : Z := ((a - b) mod 256)%Z.

(** The square of [np.linalg.norm] of the [uint8] difference of two colours.
    The subtraction is done on [uint8] arrays, the squares and their sum on
    floats, where they are exact. *)
Definition norm2 (p s : Z * Z * Z) : Z :=
  let '(pr, pg, pb) := p in
  let '(sr, sg, sb) := s in
  (sub_u8 pr sr * sub_u8 pr sr + sub_u8 pg sg * sub_u8 pg sg
   + sub_u8 pb sb * sub_u8 pb sb)%Z.

(** [np.min(..., axis=1)] over the seven samples, on the squared norms. *)
Definition min_norm2 (p : Z * Z * Z) (samples : list (Z * Z * Z)) : Z :=
  match samples with
  | [] => 0%Z
  | s :: rest => fold_right (fun s' m => Z.min (norm2 p s') m) (norm2 p s) rest
  end.

(** [dist > color_thresh] for [dist] the square root of [d2]: the square
    root is monotone and exact on squares, so the test is made on squares. *)
Definition exceeds (d2 thresh : Z) : bool :=
  ((thresh <? 0) || (thresh * thresh <? d2))%Z.

(** [np.ones((k, k), np.uint8)]: only its size matters; a negative size
    raises [ValueError]. *)
Definition ones_kernel (k : Z) : Py.result nat :=
  if (k <? 0)%Z then Py.Raise Py.ValueError else Py.Ok (Z.to_nat k).

(** [gen_mask] *)
Definition gen_mask (self : t) (img_np : Image) : Py.result Mask :=
  bg_samples <- get_bg_samples img_np ;;
  let mask_fg : Mask :=
    Np.map (fun p => if exceeds (min_norm2 (rgb p) bg_samples)
                                (color_thresh self)
                     then (1 * 255)%Z else (0 * 255)%Z) img_np in
  kernel <- ones_kernel (kernel_size self) ;;
  let mask_fg := Cv.morphologyEx mask_fg Cv.MORPH_CLOSE kernel (close_iter self) in
  let mask_fg := Cv.morphologyEx mask_fg Cv.MORPH_OPEN kernel (open_iter self) in
  Py.Ok mask_fg.

Section Extraction.

(** [cv2.findContours(mask, cv2.RETR_EXTERNAL, cv2.CHAIN_APPROX_SIMPLE)]:
    the border-following algorithm is left abstract. *)
Variable findContours : Mask -> list Cv.Contour.

(** [roi_img_with_alpha[..., 3] = roi_mask] *)
Definition set_alpha (p : RGBA) (a : Z) : RGBA :=
  {| red := red p; green := green p; blue := blue p; alpha := a |}.

Definition transparent : RGBA :=
  {| red := 0; green := 0; blue := 0; alpha := 0 |}.

(** The body of the loop of [extract_rois] for one contour that passed the
    area test. *)
Definition make_roi (self : t) (img_np : Image) (mask_fg : Mask)
           (cnt : Cv.Contour) (area : Q) (idx : Z) : Py.result FrameROI.t :=
  let '(x, y, w2, h2) := Cv.boundingRect cnt in
  let pad := pad self in
  let x := Z.max 0 (x - pad) in
  let y := Z.max 0 (y - pad) in
  let w2 := Z.min (Z.of_nat (Np.shape1 img_np) - x) (w2 + 2 * pad) in
  let h2 := Z.min (Z.of_nat (Np.shape0 img_np) - y) (h2 + 2 * pad) in
  let roi_img := Np.slice img_np y (y + h2) x (x + w2) in
  let roi_mask := Np.slice mask_fg y (y + h2) x (x + w2) in
  roi_img_with_alpha <-
    Np.assign_slice set_alpha roi_img
      0 (Z.of_nat (Np.shape0 roi_img)) 0 (Z.of_nat (Np.shape1 roi_img))
      roi_mask ;;
  let out_h := out_height self in
  let out_w := out_width self in
  canvas <- Np.zeros out_h out_w transparent ;;
  let ry := Z.of_nat (Np.shape0 roi_img_with_alpha) in
  let rx := Z.of_nat (Np.shape1 roi_img_with_alpha) in
  let sy := Z.max ((out_h - ry) / 2) 0 in
  let sx := Z.max ((out_w - rx) / 2) 0 in
  let cy := Z.min ry (out_h - sy) in
  let cx := Z.min rx (out_w - sx) in
  canvas <-
    Np.assign_slice (fun _ new => new) canvas sy (sy + cy) sx (sx + cx)
      (Np.slice roi_img_with_alpha 0 cy 0 cx) ;;
  Py.Ok (FrameROI.init canvas roi_mask x y w2 h2 area idx EmptyString EmptyString).

(** The [for] loop of [extract_rois], with the running value of [idx]. *)
Fixpoint extract_loop (self : t) (img_np : Image) (mask_fg : Mask)
         (contours : list Cv.Contour) (idx : Z) : Py.result (list FrameROI.t) :=
  match contours with
  | [] => Py.Ok []
  | cnt :: rest =>
      let area := Cv.contourArea cnt in
      if Py.Qlt_bool area (inject_Z (min_area self))
         || Py.Qlt_bool (inject_Z (max_area self)) area
      then extract_loop self img_np mask_fg rest idx
      else
        roi <- make_roi self img_np mask_fg cnt area idx ;;
        rois <- extract_loop self img_np mask_fg rest (idx + 1) ;;
        Py.Ok (roi :: rois)
  end.

(** [extract_rois] *)
Definition extract_rois (self : t) (img_np : Image) (mask_fg : Mask)
  : Py.result (list FrameROI.t) :=
  let contours := findContours mask_fg in
  let contours := Py.sorted Qle_bool Cv.contourArea true contours in
  extract_loop self img_np mask_fg
               (Py.slice_to contours (max_extract self)) 1.

End Extraction.

(** ** Attribute access on a [FrameROI] *)

(** The Python values that the attributes of a [FrameROI] hold. *)
Inductive value : Type :=
| VInt (z : Z)
| VFloat (q : Q)
| VBool (b : bool)
| VStr (s : string)
| VObject.                      (* arrays and lists *)

(** [getattr(roi, name)]; [None] when [hasattr(roi, name)] is false.  The
    aspect ratio is the float [w / h], or the integer [0] when [h <= 0]. *)
Definition getattr (r : FrameROI.t) (name : string) : option value :=
  if (name =? "img")%string then Some VObject
  else if (name =? "mask")%string then Some VObject
  else if (name =? "x")%string then Some (VInt (FrameROI.x r))
  else if (name =? "y")%string then Some (VInt (FrameROI.y r))
  else if (name =? "w")%string then Some (VInt (FrameROI.w r))
  else if (name =? "h")%string then Some (VInt (FrameROI.h r))
  else if (name =? "area")%string then Some (VFloat (FrameROI.area r))
  else if (name =? "idx")%string then Some (VInt (FrameROI.idx r))
  else if (name =? "aspect_ratio")%string then
    Some (if (FrameROI.h r >? 0)%Z then VFloat (FrameROI.aspect_ratio r)
          else VInt 0)
  else if (name =? "selected")%string then Some (VBool (FrameROI.selected r))
  else if (name =? "tag")%string then Some (VStr (FrameROI.tag r))
  else if (name =? "note")%string then Some (VStr (FrameROI.note r))
  else if (name =? "mask_edit_history")%string then Some VObject
  else if (name =? "mask_edit_idx")%string then
    Some (VInt (Z.of_nat (FrameROI.mask_edit_idx r)))
  else None.

(** The number a numeric attribute compares as. *)
Definition num_key (v : option value) : Q :=
  match v with
  | Some (VInt z) => inject_Z z
  | Some (VFloat q) => q
  | Some (VBool b) => if b then 1%Q else 0%Q
  | _ => 0%Q
  end.

Definition str_key (v : option value) : string :=
  match v with
  | Some (VStr s) => s
  | _ => EmptyString
  end.

(** ** [sort_rois]

    [sorted(rois, key=lambda r: getattr(r, by), reverse=reverse)], with
    [reverse] forced to [False] for [by == "idx"].  Every [FrameROI] has the
    same attributes and an attribute has the same kind of value on each, so
    the first element decides how the keys compare: numbers by value, strings
    lexicographically; a missing attribute raises [AttributeError] as soon as
    a key is computed, and array-valued keys raise once two of them are
    compared. *)
Definition sort_rois (rois : list FrameROI.t) (by_ : string) (reverse : bool)
  : Py.result (list FrameROI.t) :=
  let reverse := if (by_ =? "idx")%string then false else reverse in
  match rois with
  | [] => Py.Ok []
  | r0 :: _ =>
      match getattr r0 by_ with
      | None => Py.Raise Py.AttributeError
      | Some (VStr _) =>
          Py.Ok (Py.sorted String.leb (fun r => str_key (getattr r by_))
                           reverse rois)
      | Some VObject =>
          if length rois <=? 1 then Py.Ok rois else Py.Raise Py.ValueError
      | Some _ =>
          Py.Ok (Py.sorted Qle_bool (fun r => num_key (getattr r by_))
                           reverse rois)
      end
  end.

(** ** [filter_rois] *)

(** A range argument: [None], or a pair [(lo, hi)]. *)
Definition range : Type := option (Q * Q).

(** [rng and not (rng[0] <= v <= rng[1])] *)
Definition rejects (rng : range) (v : Q) : bool :=
  match rng with
  | Some (lo, hi) => negb (Qle_bool lo v && Qle_bool v hi)
  | None => false
  end.

Fixpoint filter_rois (rois : list FrameROI.t)
         (area_range aspect_range x_range y_range : range)
  : list FrameROI.t :=
  match rois with
  | [] => []
  | r :: rest =>
      let result := filter_rois rest area_range aspect_range x_range y_range in
      if rejects area_range (FrameROI.area r) then result
      else if rejects aspect_range (FrameROI.aspect_ratio r) then result
      else if rejects x_range (inject_Z (FrameROI.x r)) then result
      else if rejects y_range (inject_Z (FrameROI.y r)) then result
      else r :: result
  end.

(** ** [render_filename] *)

(** [PLACEHOLDER_MAP] *)
Definition PLACEHOLDER_MAP : list (string * string) :=
  [ ("[索引]", "idx");
    ("[X]", "x");
    ("[Y]", "y");
    ("[宽]", "w");
    ("[高]", "h");
    ("[面积]", "area");
    ("[长宽比]", "aspect_ratio");
    ("[标签]", "tag");
    ("[备注]", "note") ]%string.

(** [dict.get] *)
Fixpoint dict_get (d : list (string * string)) (k : string) : option string :=
  match d with
  | [] => None
  | (k', v) :: rest => if (k' =? k)%string then Some v else dict_get rest k
  end.

(** One match of the placeholder pattern: [group(0)], [group(1)], [group(2)]. *)
Record rmatch : Type := mk_match {
  group0 : string;
  group1 : string;
  group2 : option string
}.

(** The longest prefix of characters satisfying [p], and what follows it. *)
Fixpoint span (p : ascii -> bool) (s : string) : string * string :=
  match s with
  | EmptyString => (EmptyString, EmptyString)
  | String c s' =>
      if p c then let (a, b) := span p s' in (String c a, b)
      else (EmptyString, s)
  end.

Definition is_char (c d : ascii) : bool := Ascii.eqb c d.

(** The pattern [\[([^\]:]+)(?::([^\]]+))?\]] tried at the start of [s].
    Both character classes are greedy and exclude the character that has to
    follow them, so only their longest run can lead to a match. *)
Definition match_here (s : string) : option rmatch :=
  match s with
  | EmptyString => None
  | String c s1 =>
      if negb (is_char c "[") then None
      else
        let (name, r1) :=
          span (fun a => negb (is_char a "]") && negb (is_char a ":")) s1 in
        match name, r1 with
        | EmptyString, _ => None
        | _, EmptyString => None
        | _, String d r2 =>
            if is_char d "]" then
              Some (mk_match ("[" ++ name ++ "]") name None)
            else
              (* [d] is the colon *)
              let (spec, r3) := span (fun a => negb (is_char a "]")) r2 in
              match spec, r3 with
              | EmptyString, _ => None
              | _, EmptyString => None
              | _, String _ _ =>
                  Some (mk_match ("[" ++ name ++ ":" ++ spec ++ "]")
                                 name (Some spec))
              end
        end
  end%string.

(** [pattern.finditer]: the matches from left to right, none overlapping;
    [skip] characters of the last match are still to be passed over. *)
Fixpoint finditer_from (skip : nat) (s : string) : list rmatch :=
  match s with
  | EmptyString => []
  | String _ s' =>
      match skip with
      | S k => finditer_from k s'
      | O =>
          match match_here s with
          | Some m => m :: finditer_from (String.length (group0 m) - 1) s'
          | None => finditer_from 0 s'
          end
      end
  end.

Definition finditer (s : string) : list rmatch := finditer_from 0 s.

(** [s.replace(old, new)] for a non-empty [old]: every occurrence, found
    from left to right without overlap. *)
Fixpoint replace_from (old new : string) (skip : nat) (s : string) : string :=
  match s with
  | EmptyString => EmptyString
  | String c s' =>
      match skip with
      | S k => replace_from old new k s'
      | O =>
          if String.prefix old s
          then (new ++ replace_from old new (String.length old - 1) s')%string
          else String c (replace_from old new 0 s')
      end
  end.

(** [s.replace(old, new)]; an empty [old] matches between all characters. *)
Fixpoint intersperse (new : string) (s : string) : string :=
  match s with
  | EmptyString => new
  | String c s' => (new ++ String c (intersperse new s'))%string
  end.

Definition replace (s old new : string) : string :=
  match old with
  | EmptyString => intersperse new s
  | _ => replace_from old new 0 s
  end.

(** The characters of [invalid_chars]: backslash, slash, colon, asterisk,
    question mark, double quote, less-than, greater-than and bar. *)
Definition invalid_chars : list ascii :=
  List.map ascii_of_nat [92; 47; 58; 42; 63; 34; 60; 62; 124].

Definition is_invalid (c : ascii) : bool :=
  existsb (Ascii.eqb c) invalid_chars.

(** [re.sub(invalid_chars, '_', s)] *)
Fixpoint sanitize (s : string) : string :=
  match s with
  | EmptyString => EmptyString
  | String c s' => String (if is_invalid c then "_"%char else c) (sanitize s')
  end.

(** [s.rfind('.')] *)
Fixpoint rfind_dot (s : string) : option nat :=
  match s with
  | EmptyString => None
  | String c s' =>
      match rfind_dot s' with
      | Some i => Some (S i)
      | None => if is_char c "." then Some 0 else None
      end
  end.

(** Whether the first [n] characters of [s] are all dots. *)
Fixpoint all_dots (n : nat) (s : string) : bool :=
  match n, s with
  | O, _ => true
  | S _, EmptyString => true
  | S k, String c s' => is_char c "." && all_dots k s'
  end.

(** [os.path.splitext] on a name without path separators, which is what it
    is applied to after [sanitize]: the extension starts at the last dot,
    unless only dots precede it. *)
Definition splitext (s : string) : string * string :=
  match rfind_dot s with
  | Some d =>
      if all_dots d s then (s, EmptyString)
      else (String.substring 0 d s, String.substring d (String.length s - d) s)
  | None => (s, EmptyString)
  end.

(** ['.' in s] *)
Fixpoint has_dot (s : string) : bool :=
  match s with
  | EmptyString => false
  | String c s' => is_char c "." || has_dot s'
  end.

(** [str.lower] on the ASCII letters; the suffix test below only looks at
    ASCII characters, and no other character lowers to one of them. *)
Definition lower_char (c : ascii) : ascii :=
  let n := nat_of_ascii c in
  if (65 <=? n) && (n <=? 90) then ascii_of_nat (n + 32) else c.

Fixpoint lower (s : string) : string :=
  match s with
  | EmptyString => EmptyString
  | String c s' => String (lower_char c) (lower s')
  end.

(** [s.endswith(t)] *)
Fixpoint endswith (s t : string) : bool :=
  (s =? t)%string ||
  match s with
  | EmptyString => false
  | String _ s' => endswith s' t
  end.

(** The records written with [logging.warning]. *)
Inductive log_record : Type :=
| FormatWarning (placeholder : string)
| UnknownPlaceholderWarning (placeholder : string).

Section Rendering.

(** The built-ins [str(value)] and [format(value, spec)]; the latter raises
    [ValueError] or [TypeError] on a specifier the value does not accept. *)
Variable py_str : value -> string.
Variable py_format : value -> string -> Py.result string.

(** The [try] block of the loop body: the formatted value is substituted for
    all occurrences of the placeholder. *)
Definition substitute (rendered_name : string) (m : rmatch) (v : value)
  : Py.result string :=
  formatted_value <-
    match group2 m with
    | Some format_spec => py_format v format_spec
    | None => Py.Ok (py_str v)
    end ;;
  Py.Ok (replace rendered_name (group0 m) formatted_value).

(** The loop body for one match, on the name rendered so far and the log. *)
Definition render_step (roi : FrameROI.t) (st : string * list log_record)
           (m : rmatch) : Py.result (string * list log_record) :=
  let (rendered_name, log) := st in
  let attr_name := dict_get PLACEHOLDER_MAP ("[" ++ group1 m ++ "]")%string in
  match attr_name with
  | Some a =>
      match getattr roi a with
      | Some v =>
          match substitute rendered_name m v with
          | Py.Ok rendered_name' => Py.Ok (rendered_name', log)
          | Py.Raise _ =>
              (* [except (ValueError, TypeError, Exception)] *)
              Py.Ok (replace rendered_name (group0 m) (py_str v),
                     log ++ [FormatWarning (group0 m)])
          end
      | None => Py.Ok (rendered_name, log ++ [UnknownPlaceholderWarning (group0 m)])
      end
  | None => Py.Ok (rendered_name, log ++ [UnknownPlaceholderWarning (group0 m)])
  end.

(** The [for] loop over the matches. *)
Fixpoint render_loop (roi : FrameROI.t) (st : string * list log_record)
         (ms : list rmatch) : Py.result (string * list log_record) :=
  match ms with
  | [] => Py.Ok st
  | m :: rest =>
      st' <- render_step roi st m ;;
      render_loop roi st' rest
  end.

(** The tail of [render_filename]: sanitising and the [.png] suffix. *)
Definition finish_name (rendered_name : string) : string :=
  let rendered_name := sanitize rendered_name in
  if negb (has_dot (snd (splitext rendered_name)))
  then (rendered_name ++ ".png")%string
  else if negb (endswith (lower rendered_name) ".png")
       then (fst (splitext rendered_name) ++ ".png")%string
       else rendered_name.

(** [render_filename]: the file name and the warnings logged. *)
Definition render_filename (template : string) (roi : FrameROI.t)
  : Py.result (string * list log_record) :=
  st <- render_loop roi (template, []) (finditer template) ;;
  Py.Ok (finish_name (fst st), snd st).

End Rendering.

End MaskProcessor.

(* ===================================================================== *)
(** * widgets.py: [MaskEditWidget]                                        *)
(* ===================================================================== *)

Module MaskEditWidget.

(** The values of [self.mode]. *)
Inductive mode_t : Type :=
| draw
| erase
| grabcut_rect
| grabcut_refine
| watershed_mark.

Definition mode_eqb (a b : mode_t) : bool :=
  match a, b with
  | draw, draw | erase, erase | grabcut_rect, grabcut_rect
  | grabcut_refine, grabcut_refine | watershed_mark, watershed_mark => true
  | _, _ => false
  end.

Inductive marker_t : Type := fg | bg.

(** What the widget sends out: its two signals, the calls to the parent
    dialog and the message boxes. *)
Inductive event : Type :=
| mask_edited (m : option Mask)
| grabcut_mode_changed (shown : bool)
| show_watershed_buttons (shown : bool)
| warning_box
| critical_box (e : Py.exn).

(** The attributes of the widget that the modelled methods read or write,
    and the trace of events sent so far.  The cached pixmap, the cursor and
    the zoom state only serve the display and are left out; repainting
    ([update_pix], [update]) therefore has no effect on this state. *)
Record t : Type := mk {
  mask : option Mask;
  base_img : option Image;
  drawing : bool;
  mode : mode_t;
  refine_mode : marker_t;
  drawing_rect : bool;
  gc_mask : option Markers;
  gc_bgd_model : option (list Q);
  gc_fgd_model : option (list Q);
  gc_initialized : bool;
  watershed_markers : option Markers;
  panning : bool;
  history : list Mask;
  history_idx : nat;
  events : list event
}.

Definition with_mask (self : t) (v : option Mask) : t :=
  mk v (base_img self) (drawing self) (mode self) (refine_mode self)
     (drawing_rect self) (gc_mask self) (gc_bgd_model self) (gc_fgd_model self)
     (gc_initialized self) (watershed_markers self) (panning self)
     (history self) (history_idx self) (events self).

Definition with_mode (self : t) (v : mode_t) : t :=
  mk (mask self) (base_img self) (drawing self) v (refine_mode self)
     (drawing_rect self) (gc_mask self) (gc_bgd_model self) (gc_fgd_model self)
     (gc_initialized self) (watershed_markers self) (panning self)
     (history self) (history_idx self) (events self).

(** [drawing], [drawing_rect] and [panning] set to [False] together. *)
Definition with_flags_off (self : t) : t :=
  mk (mask self) (base_img self) false (mode self) (refine_mode self)
     false (gc_mask self) (gc_bgd_model self) (gc_fgd_model self)
     (gc_initialized self) (watershed_markers self) false
     (history self) (history_idx self) (events self).

Definition with_refine_mode (self : t) (v : marker_t) : t :=
  mk (mask self) (base_img self) (drawing self) (mode self) v
     (drawing_rect self) (gc_mask self) (gc_bgd_model self) (gc_fgd_model self)
     (gc_initialized self) (watershed_markers self) (panning self)
     (history self) (history_idx self) (events self).

(** [gc_initialized = False; gc_mask = None] *)
Definition with_gc_off (self : t) : t :=
  mk (mask self) (base_img self) (drawing self) (mode self) (refine_mode self)
     (drawing_rect self) None (gc_bgd_model self) (gc_fgd_model self)
     false (watershed_markers self) (panning self)
     (history self) (history_idx self) (events self).

(** [gc_bgd_model = None; gc_fgd_model = None] *)
Definition with_gc_models_off (self : t) : t :=
  mk (mask self) (base_img self) (drawing self) (mode self) (refine_mode self)
     (drawing_rect self) (gc_mask self) None None
     (gc_initialized self) (watershed_markers self) (panning self)
     (history self) (history_idx self) (events self).

Definition with_watershed_markers (self : t) (v : option Markers) : t :=
  mk (mask self) (base_img self) (drawing self) (mode self) (refine_mode self)
     (drawing_rect self) (gc_mask self) (gc_bgd_model self) (gc_fgd_model self)
     (gc_initialized self) v (panning self)
     (history self) (history_idx self) (events self).

Definition with_history (self : t) (hist : list Mask) (p : nat) : t :=
  mk (mask self) (base_img self) (drawing self) (mode self) (refine_mode self)
     (drawing_rect self) (gc_mask self) (gc_bgd_model self) (gc_fgd_model self)
     (gc_initialized self) (watershed_markers self) (panning self)
     hist p (events self).

Definition with_history_idx (self : t) (p : nat) : t :=
  with_history self (history self) p.

Definition emit (self : t) (e : event) : t :=
  mk (mask self) (base_img self) (drawing self) (mode self) (refine_mode self)
     (drawing_rect self) (gc_mask self) (gc_bgd_model self) (gc_fgd_model self)
     (gc_initialized self) (watershed_markers self) (panning self)
     (history self) (history_idx self) (events self ++ [e]).

(** The attributes [MaskEditWidget.__init__] assigns once it has settled
    which mask to store. *)
Definition fresh (base_img : Image) (mask : Mask) : t :=
  {| mask := Some mask; base_img := Some base_img; drawing := false;
     mode := draw; refine_mode := fg; drawing_rect := false;
     gc_mask := None; gc_bgd_model := None; gc_fgd_model := None;
     gc_initialized := false; watershed_markers := None; panning := false;
     history := [mask]; history_idx := 0; events := [] |}.

(** [MaskEditWidget.__init__]: a mask whose shape differs from that of the
    image is first resized to it with
    [cv2.resize(mask, (w, h), interpolation=cv2.INTER_NEAREST)], which
    raises [cv2.error] on an input it rejects; a mask of the shape of the
    image is stored as it is. *)
Definition init (cv2_resize : Mask -> nat -> nat -> Py.result Mask)
           (base_img : Image) (mask : Mask) : Py.result t :=
  mask <-
    (if negb (Np.same_shape base_img mask)
     then cv2_resize mask (Np.shape1 base_img) (Np.shape0 base_img)
     else Py.Ok mask) ;;
  Py.Ok (fresh base_img mask).

(** [set_mode] *)
Definition set_mode (self : t) (new_mode : mode_t) : t :=
  if mode_eqb new_mode (mode self) then self
  else
    let self := with_flags_off (with_mode self new_mode) in
    match new_mode with
    | grabcut_refine =>
        with_refine_mode (emit self (grabcut_mode_changed true)) fg
    | grabcut_rect =>
        emit self (grabcut_mode_changed false)
    | watershed_mark =>
        let self := emit self (grabcut_mode_changed false) in
        let self := emit self (show_watershed_buttons true) in
        let self := with_gc_off self in
        match mask self with
        | Some m =>
            with_watershed_markers self
              (Some (Np.full (Np.shape0 m) (Np.shape1 m) 0%Z))
        | None => with_watershed_markers self None
        end
    | _ =>
        let self := emit self (grabcut_mode_changed false) in
        let self := with_gc_off self in
        let self := emit self (show_watershed_buttons false) in
        with_watershed_markers self None
    end.

Definition MAX_HISTORY_SIZE : nat := 32.

(** [push_history] *)
Definition push_history (self : t) : t :=
  match mask self with
  | None => self
  | Some m =>
      let hist :=
        if history_idx self <? length (history self) - 1
        then firstn (history_idx self + 1) (history self)
        else history self in
      let hist := hist ++ [m] in
      let p := history_idx self + 1 in
      if MAX_HISTORY_SIZE <? length hist then
        let hist := Py.slice_last MAX_HISTORY_SIZE hist in
        with_history self hist (length hist - 1)
      else with_history self hist p
  end.

(** A commit as the callers make it: [self.mask = m; self.push_history()]. *)
Definition commit (self : t) (m : Mask) : t :=
  push_history (with_mask self (Some m)).

(** What [undo] and [redo] do once the pointer has moved. *)
Definition after_move (self : t) (p : nat) : Py.result (bool * t) :=
  match nth_error (history self) p with
  | None => Py.Raise Py.IndexError
  | Some m =>
      let self := with_history_idx self p in
      let self := with_mask self (Some m) in
      let self := with_gc_off self in
      let self :=
        if mode_eqb (mode self) grabcut_refine then set_mode self draw
        else self in
      let self := emit self (mask_edited (mask self)) in
      Py.Ok (true, self)
  end.

(** [undo] *)
Definition undo (self : t) : Py.result (bool * t) :=
  if 0 <? history_idx self then after_move self (history_idx self - 1)
  else Py.Ok (false, self).

(** [redo] *)
Definition redo (self : t) : Py.result (bool * t) :=
  if history_idx self <? length (history self) - 1
  then after_move self (history_idx self + 1)
  else Py.Ok (false, self).

(** [n] calls of [undo] in a row, as a caller holding the undo key makes
    them; the flags returned on the way are dropped. *)
Fixpoint undo_times (n : nat) (self : t) : Py.result t :=
  match n with
  | O => Py.Ok self
  | S k => r <- undo self ;; undo_times k (snd r)
  end.

(** The commits of [ms], one after the other. *)
Definition commits (self : t) (ms : list Mask) : t :=
  fold_left commit ms self.

Section External.

(** [cv2.resize(mask, (w, h), interpolation=cv2.INTER_NEAREST)] and
    [cv2.watershed(img, markers)], the latter returning the label map it
    wrote; both raise [cv2.error] on inputs they reject. *)
Variable cv2_resize : Mask -> nat -> nat -> Py.result Mask.
Variable cv2_watershed : Image -> Markers -> Py.result Markers.

(** [set_mask]: the state left behind, and whether an exception escaped. *)
Definition set_mask (self : t) (new_mask : Mask) : t * Py.result unit :=
  let self := with_gc_models_off (with_gc_off self) in
  let self :=
    if mode_eqb (mode self) grabcut_refine then set_mode self draw else self in
  let resized :=
    match base_img self with
    | Some b =>
        if negb (Np.same_shape b new_mask)
        then cv2_resize new_mask (Np.shape1 b) (Np.shape0 b)
        else Py.Ok new_mask
    | None => Py.Ok new_mask
    end in
  match resized with
  | Py.Raise e => (self, Py.Raise e)
  | Py.Ok m =>
      let self := with_mask self (Some m) in
      let self := push_history self in
      let self := emit self (mask_edited (mask self)) in
      (self, Py.Ok tt)
  end.

(** The [try] block of [run_watershed_segmentation]. *)
Definition watershed_try (self : t) (base : Image) (markers : Markers)
  : t * Py.result unit :=
  match cv2_watershed base markers with
  | Py.Raise e => (self, Py.Raise e)
  | Py.Ok markers_copy =>
      match mask self with
      | None => (self, Py.Raise Py.IndexError)
      | Some m =>
          (* [output_mask[markers_copy == 1] = 255] needs equal shapes *)
          if Np.same_shape m markers_copy then
            let output_mask : Mask :=
              {| Np.shape0 := Np.shape0 m;
                 Np.shape1 := Np.shape1 m;
                 Np.cell := fun i j =>
                   if (Np.cell markers_copy i j =? 1)%Z then 255%Z else 0%Z |} in
            set_mask self output_mask
          else (self, Py.Raise Py.IndexError)
      end
  end.

(** [run_watershed_segmentation] *)
Definition run_watershed_segmentation (self : t) : t :=
  match watershed_markers self, base_img self with
  | Some markers, Some base =>
      if negb (Np.contains markers 1) || negb (Np.contains markers 2)
      then emit self warning_box
      else
        let self :=
          match watershed_try self base markers with
          | (self', Py.Ok _) => self'
          | (self', Py.Raise e) => emit self' (critical_box e)
          end in
        (* finally *)
        let self := set_mode self draw in
        with_watershed_markers self None
  | _, _ => self
  end.

End External.

End MaskEditWidget.

(* ===================================================================== *)
(** * Vocabulary of the statements                                        *)
(* ===================================================================== *)

Module Spec.

(** A value lies within a supplied range, bounds included; an absent range
    admits every value. *)
Definition in_range (rng : MaskProcessor.range) (v : Q) : Prop :=
  match rng with
  | Some (lo, hi) => (lo <= v)%Q /\ (v <= hi)%Q
  | None => True
  end.

(** The test [filter_rois] is specified by, as a boolean. *)
Definition keeps (area_range aspect_range x_range y_range : MaskProcessor.range)
           (r : FrameROI.t) : bool :=
  negb (MaskProcessor.rejects area_range (FrameROI.area r))
  && negb (MaskProcessor.rejects aspect_range (FrameROI.aspect_ratio r))
  && negb (MaskProcessor.rejects x_range (inject_Z (FrameROI.x r)))
  && negb (MaskProcessor.rejects y_range (inject_Z (FrameROI.y r))).

(** An area lies in [[min_area, max_area]]. *)
Definition area_in_bounds (self : MaskProcessor.t) (a : Q) : Prop :=
  (inject_Z (MaskProcessor.min_area self) <= a)%Q
  /\ (a <= inject_Z (MaskProcessor.max_area self))%Q.

Definition area_in_boundsb (self : MaskProcessor.t) (a : Q) : bool :=
  Qle_bool (inject_Z (MaskProcessor.min_area self)) a
  && Qle_bool a (inject_Z (MaskProcessor.max_area self)).

(** A mask value is one of the two binary levels. *)
Definition binary (v : Z) : Prop := v = 0%Z \/ v = 255%Z.

End Spec.

Module SpecText.

(** Some character of the name is one of [invalid_chars]. *)
Fixpoint has_invalid (s : string) : bool :=
  match s with
  | EmptyString => false
  | String c s' => MaskProcessor.is_invalid c || has_invalid s'
  end.

(** A failure that is not a check made by the code but the indexing error
    that numpy raises by itself. *)
Definition uncontrolled (e : Py.exn) : Prop := e = Py.IndexError.

(** The call is refused with an error condition of the code's own. *)
Definition rejected_as_invalid_input {A : Type} (r : Py.result A) : Prop :=
  exists e, r = Py.Raise e /\ ~ uncontrolled e.

End SpecText.

Module SpecName.

Import MaskProcessor.

Section Rendering.

Variable py_str : value -> string.
Variable py_format : value -> string -> Py.result string.

(** The value a placeholder stands for: the attribute of the frame that
    [PLACEHOLDER_MAP] gives for its name; none for a placeholder that is
    not recognised. *)
Definition field (roi : FrameROI.t) (m : rmatch) : option value :=
  match dict_get PLACEHOLDER_MAP ("[" ++ group1 m ++ "]")%string with
  | Some a => getattr roi a
  | None => None
  end.

(** Whether [format] refuses the specifier of the placeholder. *)
Definition refused (v : value) (m : rmatch) : bool :=
  match group2 m with
  | Some spec =>
      match py_format v spec with
      | Py.Ok _ => false
      | Py.Raise _ => true
      end
  | None => false
  end.

(** What is written in the place of a recognised placeholder: the value
    formatted by its specifier, or the unformatted string of the value when
    there is no specifier or [format] refuses it. *)
Definition written (v : value) (m : rmatch) : string :=
  match group2 m with
  | Some spec =>
      match py_format v spec with
      | Py.Ok s => s
      | Py.Raise _ => py_str v
      end
  | None => py_str v
  end.

(** One placeholder dealt with: a recognised one is replaced wherever its
    text occurs, any other is skipped. *)
Definition substitute_one (roi : FrameROI.t) (text : string) (m : rmatch)
  : string :=
  match field roi m with
  | Some v => replace text (group0 m) (written v m)
  | None => text
  end.

(** The template with its placeholders dealt with from left to right. *)
Definition substituted (roi : FrameROI.t) (template : string) : string :=
  fold_left (substitute_one roi) (finditer template) template.

(** What is logged for a placeholder: nothing when it is replaced by the
    formatted value. *)
Definition warning (roi : FrameROI.t) (m : rmatch) : list log_record :=
  match field roi m with
  | Some v => if refused v m then [FormatWarning (group0 m)] else []
  | None => [UnknownPlaceholderWarning (group0 m)]
  end.

Definition warnings (roi : FrameROI.t) (template : string)
  : list log_record :=
  flat_map (warning roi) (finditer template).

End Rendering.

(** [s] is [text] with every character that is illegal in a file name
    replaced by an underscore. *)
Definition underscored (text s : string) : Prop :=
  String.length s = String.length text
  /\ forall i c, String.get i text = Some c ->
                 String.get i s
                 = Some (if is_invalid c then "_"%char else c).

Definition no_dot (s : string) : Prop :=
  forall i, String.get i s <> Some "."%char.

Definition only_dots (s : string) : Prop :=
  forall i c, String.get i s = Some c -> c = "."%char.

(** [s] splits into [base] and the extension [ext]: the extension starts at
    the last dot of [s], and is empty when [s] has no dot or nothing but
    dots in front of its last dot. *)
Definition split_ext (s base ext : string) : Prop :=
  s = (base ++ ext)%string
  /\ ((ext = EmptyString
       /\ (no_dot s
           \/ exists stem e, s = (stem ++ String "." e)%string
                             /\ no_dot e /\ only_dots stem))
      \/ (exists e, ext = String "." e /\ no_dot e /\ ~ only_dots base)).

(** [s] ends in [.png], whatever the case of the three letters. *)
Definition ends_in_png (s : string) : Prop :=
  exists stem e, s = (stem ++ e)%string /\ lower e = ".png"%string.

(** The suffix rule: [.png] is added to a name without extension, a name
    that ends in [.png] in any case is kept, and any other extension is
    replaced by [.png]. *)
Definition suffixed (s name : string) : Prop :=
  exists base ext,
    split_ext s base ext
    /\ ((ext = EmptyString /\ name = (s ++ ".png")%string)
        \/ (ext <> EmptyString /\ ends_in_png s /\ name = s)
        \/ (ext <> EmptyString /\ ~ ends_in_png s
            /\ name = (base ++ ".png")%string)).

End SpecName.

(* ===================================================================== *)
(** * Concrete inputs used by the examples                                *)
(* ===================================================================== *)

Module Sample.

Definition mask0 : Mask := Np.full 2 2 0%Z.
Definition mask_n (n : nat) : Mask := Np.full 2 2 (Z.of_nat n).
Definition image0 : Image := Np.full 2 2 (mk_rgba 255 255 255 255).

(** A freshly extracted frame, and the editor [MaskEditWidget.__init__]
    builds for [image0] and [mask0], which have the same shape. *)
Definition roi0 : FrameROI.t :=
  FrameROI.init image0 mask0 0 0 2 2 4%Q 1 EmptyString EmptyString.
Definition widget0 : MaskEditWidget.t := MaskEditWidget.fresh image0 mask0.

(** Forty masks, all different. *)
Definition masks40 : list Mask := List.map mask_n (seq 1 40).

End Sample.


Module SampleSheet.

(** A 4 by 4 sheet, its mask, and the contours a tracer could report for
    it: a 1 by 1 square, the whole sheet, and a single point. *)
Definition image : Image := Np.full 4 4 (mk_rgba 10 20 30 255).
Definition mask : Mask := Np.full 4 4 255%Z.
Definition contours : list Cv.Contour :=
  [ [(1, 1); (1, 2); (2, 2); (2, 1)];
    [(0, 0); (0, 3); (3, 3); (3, 0)];
    [(0, 0)] ]%Z.
Definition findContours (_ : Mask) : list Cv.Contour := contours.

Definition processor : MaskProcessor.t :=
  {| MaskProcessor.color_thresh := 40; MaskProcessor.pad := 1;
     MaskProcessor.kernel_size := 3; MaskProcessor.max_extract := 2;
     MaskProcessor.min_area := 1; MaskProcessor.max_area := 100;
     MaskProcessor.close_iter := 2; MaskProcessor.open_iter := 1;
     MaskProcessor.out_width := 8; MaskProcessor.out_height := 8 |}.

(** What [extract_rois] returns on them. *)
Definition rois : list FrameROI.t :=
  match MaskProcessor.extract_rois findContours processor image mask with
  | Py.Ok l => l
  | Py.Raise _ => []
  end.

End SampleSheet.

Module SampleText.

(** Stand-ins for the built-ins [str] and [format] on the values the
    examples use: integers print in decimal, strings as they are; the only
    format specifier accepted is [03d] on an integer. *)
Definition py_str (v : MaskProcessor.value) : string :=
  match v with
  | MaskProcessor.VInt z => NilZero.string_of_int (Z.to_int z)
  | MaskProcessor.VStr s => s
  | MaskProcessor.VBool true => "True"
  | MaskProcessor.VBool false => "False"
  | MaskProcessor.VFloat q =>
      (NilZero.string_of_int (Z.to_int (Qnum q)) ++ "/"
       ++ NilZero.string_of_int (Z.to_int (Zpos (Qden q))))%string
  | MaskProcessor.VObject => "<object>"
  end.

Definition pad3 (s : string) : string :=
  match String.length s with
  | 1 => ("00" ++ s)%string
  | 2 => ("0" ++ s)%string
  | _ => s
  end.

Definition py_format (v : MaskProcessor.value) (spec : string)
  : Py.result string :=
  match v with
  | MaskProcessor.VInt z =>
      if ((spec =? "03d")%string && (0 <=? z)%Z)%bool
      then Py.Ok (pad3 (py_str v))
      else Py.Raise Py.ValueError
  | _ => Py.Raise Py.ValueError
  end.

(** A frame with index 7 and a tag. *)
Definition roi7 : FrameROI.t :=
  FrameROI.init (Np.full 2 2 (mk_rgba 0 0 0 0)) (Np.full 2 2 0%Z)
                3 4 2 2 4%Q 7 "hero" EmptyString.

(** Matches of the placeholder pattern: an unknown name, and the index with
    a specifier that [format] refuses. *)
Definition unknown_match : MaskProcessor.rmatch :=
  MaskProcessor.mk_match "[foo]" "foo" None.
Definition bad_spec_match : MaskProcessor.rmatch :=
  MaskProcessor.mk_match "[索引:zz]" "索引" (Some "zz"%string).

End SampleText.

Module SampleEditor.

(** Stand-ins for the two OpenCV calls: a resize that repeats the top-left
    pixel, and a segmentation that leaves the markers as they are. *)
Definition cv2_resize (m : Mask) (w h : nat) : Py.result Mask :=
  if (Np.shape0 m =? 0) || (Np.shape1 m =? 0) then Py.Raise Py.CvError
  else Py.Ok (Np.full h w (Np.cell m 0 0)).
Definition cv2_watershed (_ : Image) (markers : Markers) : Py.result Markers :=
  Py.Ok markers.

(** The fresh editor switched to marker mode: no seed is painted yet. *)
Definition marking : MaskEditWidget.t :=
  MaskEditWidget.set_mode Sample.widget0 MaskEditWidget.watershed_mark.

(** The same with a foreground seed at (0, 0) and a background seed at
    (1, 1). *)
Definition seeded : MaskEditWidget.t :=
  MaskEditWidget.with_watershed_markers marking
    (Some {| Np.shape0 := 2; Np.shape1 := 2;
             Np.cell := fun i j =>
               if (i =? 0) && (j =? 0) then 1%Z
               else if (i =? 1) && (j =? 1) then 2%Z else 0%Z |}).

End SampleEditor.

(* ===================================================================== *)
(** * roi.py: reading and resetting the mask-edit history                 *)
(* ===================================================================== *)

Module Roi.

(** [get_current_mask]: a copy of the snapshot under the pointer. *)
Definition get_current_mask (r : FrameROI.t) : Py.result Mask :=
  match nth_error (FrameROI.mask_edit_history r) (FrameROI.mask_edit_idx r) with
  | Some m => Py.Ok m
  | None => Py.Raise Py.IndexError
  end.

(** [reset_mask]: back to the first snapshot; an empty list is left alone. *)
Definition reset_mask (r : FrameROI.t) : bool * FrameROI.t :=
  match FrameROI.mask_edit_history r with
  | m :: _ => (true, FrameROI.set_mask_ptr r m 0)
  | [] => (false, r)
  end.

(** The pointer is a position of the snapshot list. *)
Definition pointer_in_range (r : FrameROI.t) : Prop :=
  FrameROI.mask_edit_idx r < length (FrameROI.mask_edit_history r).

End Roi.

(* ===================================================================== *)
(** * main_window.py: what the window does with the frames                *)
(* ===================================================================== *)

Module MainWindow.

Definition set_img (r : FrameROI.t) (v : Image) : FrameROI.t :=
  {| FrameROI.img := v; FrameROI.mask := FrameROI.mask r;
     FrameROI.x := FrameROI.x r; FrameROI.y := FrameROI.y r;
     FrameROI.w := FrameROI.w r; FrameROI.h := FrameROI.h r;
     FrameROI.area := FrameROI.area r; FrameROI.idx := FrameROI.idx r;
     FrameROI.aspect_ratio := FrameROI.aspect_ratio r;
     FrameROI.selected := FrameROI.selected r;
     FrameROI.tag := FrameROI.tag r; FrameROI.note := FrameROI.note r;
     FrameROI.mask_edit_history := FrameROI.mask_edit_history r;
     FrameROI.mask_edit_idx := FrameROI.mask_edit_idx r |}.

Section Editing.

Variable cv2_resize : Mask -> nat -> nat -> Py.result Mask.

(** [on_edit_mask], once the dialog was accepted with [edited_mask]: the
    mask is stored and committed, then written into the alpha channel of
    the frame image; a failure of that last step is logged and swallowed. *)
Definition on_edit_mask_accepted (roi : FrameROI.t) (edited_mask : Mask)
  : FrameROI.t :=
  let roi := FrameROI.set_mask_ptr roi edited_mask (FrameROI.mask_edit_idx roi) in
  let roi := FrameROI.add_mask_to_history roi edited_mask in
  let attempt :=
    alpha_mask <-
      (if negb (Np.same_shape edited_mask (FrameROI.img roi))
       then cv2_resize edited_mask (Np.shape1 (FrameROI.img roi))
                       (Np.shape0 (FrameROI.img roi))
       else Py.Ok edited_mask) ;;
    Np.assign_slice MaskProcessor.set_alpha (FrameROI.img roi)
      0 (Z.of_nat (Np.shape0 (FrameROI.img roi)))
      0 (Z.of_nat (Np.shape1 (FrameROI.img roi))) alpha_mask in
  match attempt with
  | Py.Ok img' => set_img roi img'
  | Py.Raise _ => roi
  end.

End Editing.

(** The sort keys of the combo box ([on_sort_change], [load_preset]). *)
Definition sort_keys : list string :=
  ["idx"; "area"; "x"; "y"; "w"; "h"; "aspect_ratio"]%string.

(** The list shown after a refresh ([_extract_and_update_rois],
    [refresh_sort_filter]): the extracted frames, filtered by the two ranges
    of the window and then sorted. *)
Definition displayed_rois (all_rois : list FrameROI.t)
           (area_range aspect_range : Q * Q)
           (sort_by : string) (sort_reverse : bool)
  : Py.result (list FrameROI.t) :=
  let filtered_rois :=
    MaskProcessor.filter_rois all_rois (Some area_range) (Some aspect_range)
                              None None in
  MaskProcessor.sort_rois filtered_rois sort_by sort_reverse.

End MainWindow.

Module SpecSort.

(** The number a frame is sorted by under the key [by_]. *)
Definition sort_key (by_ : string) (r : FrameROI.t) : Q :=
  MaskProcessor.num_key (MaskProcessor.getattr r by_).

(** The direction [sort_rois] sorts in: ascending for the extraction index,
    otherwise as asked for. *)
Definition descending (by_ : string) (reverse : bool) : bool :=
  if (by_ =? "idx")%string then false else reverse.

(** [a] may stand in front of [b] in a list sorted in that direction. *)
Definition in_order (by_ : string) (reverse : bool) (a b : FrameROI.t) : Prop :=
  if descending by_ reverse
  then (sort_key by_ b <= sort_key by_ a)%Q
  else (sort_key by_ a <= sort_key by_ b)%Q.

(** The frames of [l] whose key is [k], in the order they have in [l]. *)
Definition with_key (by_ : string) (k : Q) (l : list FrameROI.t)
  : list FrameROI.t :=
  List.filter (fun r => Qeq_bool (sort_key by_ r) k) l.

End SpecSort.

Module SpecFrame.

(** A contour of an image: at least one vertex, each a pixel position
    [(x, y)] of the image. *)
Definition contour_inside (img : Image) (c : Cv.Contour) : Prop :=
  c <> []
  /\ Forall (fun p => (0 <= fst p < Z.of_nat (Np.shape1 img))%Z
                      /\ (0 <= snd p < Z.of_nat (Np.shape0 img))%Z) c.

(** The box [(x, y, w, h)] of a frame is not empty and lies in the image. *)
Definition box_in_image (img : Image) (r : FrameROI.t) : Prop :=
  (0 <= FrameROI.x r)%Z /\ (0 <= FrameROI.y r)%Z
  /\ (0 < FrameROI.w r)%Z /\ (0 < FrameROI.h r)%Z
  /\ (FrameROI.x r + FrameROI.w r <= Z.of_nat (Np.shape1 img))%Z
  /\ (FrameROI.y r + FrameROI.h r <= Z.of_nat (Np.shape0 img))%Z.

(** Every vertex of the contour lies in the box of the frame. *)
Definition box_covers (r : FrameROI.t) (c : Cv.Contour) : Prop :=
  Forall (fun p => (FrameROI.x r <= fst p < FrameROI.x r + FrameROI.w r)%Z
                   /\ (FrameROI.y r <= snd p < FrameROI.y r + FrameROI.h r)%Z)
         c.

(** The mask of the frame is the part of the sheet mask under its box. *)
Definition mask_is_crop (mask_fg : Mask) (r : FrameROI.t) : Prop :=
  Z.of_nat (Np.shape0 (FrameROI.mask r)) = FrameROI.h r
  /\ Z.of_nat (Np.shape1 (FrameROI.mask r)) = FrameROI.w r
  /\ forall i j,
      i < Np.shape0 (FrameROI.mask r) -> j < Np.shape1 (FrameROI.mask r) ->
      Np.cell (FrameROI.mask r) i j
      = Np.cell mask_fg (Z.to_nat (FrameROI.y r) + i)
                        (Z.to_nat (FrameROI.x r) + j).

(** Where a patch of [size] rows (or columns) starts on a canvas of [out]
    rows, and how many of its rows fit from there. *)
Definition paste_start (out size : Z) : Z := Z.max ((out - size) / 2) 0.
Definition paste_count (out size : Z) : Z :=
  Z.min size (out - paste_start out size).

(** The image of the frame is a canvas of the output size that is
    transparent except for the patch pasted at [paste_start]: there it shows
    the pixels of the sheet under the box of the frame, from the top-left
    corner of the box on, with the mask as their alpha channel. *)
Definition image_is_pasted_crop (self : MaskProcessor.t) (img_np : Image)
           (mask_fg : Mask) (r : FrameROI.t) : Prop :=
  Z.of_nat (Np.shape0 (FrameROI.img r)) = MaskProcessor.out_height self
  /\ Z.of_nat (Np.shape1 (FrameROI.img r)) = MaskProcessor.out_width self
  /\ forall i j,
      i < Np.shape0 (FrameROI.img r) -> j < Np.shape1 (FrameROI.img r) ->
      let sy := paste_start (MaskProcessor.out_height self) (FrameROI.h r) in
      let sx := paste_start (MaskProcessor.out_width self) (FrameROI.w r) in
      let cy := paste_count (MaskProcessor.out_height self) (FrameROI.h r) in
      let cx := paste_count (MaskProcessor.out_width self) (FrameROI.w r) in
      Np.cell (FrameROI.img r) i j
      = if ((sy <=? Z.of_nat i) && (Z.of_nat i <? sy + cy)
            && (sx <=? Z.of_nat j) && (Z.of_nat j <? sx + cx))%Z
        then
          let row := Z.to_nat (FrameROI.y r + (Z.of_nat i - sy)) in
          let col := Z.to_nat (FrameROI.x r + (Z.of_nat j - sx)) in
          MaskProcessor.set_alpha (Np.cell img_np row col)
                                  (Np.cell mask_fg row col)
        else MaskProcessor.transparent.

End SpecFrame.

Module Exporting.

Section Naming.

Variable py_str : MaskProcessor.value -> string.
Variable py_format : MaskProcessor.value -> string -> Py.result string.

(** The file name [_export_rois] saves a frame under: the rendered
    template, or [frame_NN.png] when rendering raised, with [.png] appended
    unless the name ends in it already. *)
Definition export_name (naming_template : string) (roi : FrameROI.t)
  : Py.result string :=
  name <-
    match MaskProcessor.render_filename py_str py_format naming_template roi
    with
    | Py.Ok (name, _) => Py.Ok name
    | Py.Raise _ =>
        nn <- py_format (MaskProcessor.VInt (FrameROI.idx roi)) "02d" ;;
        Py.Ok ("frame_" ++ nn ++ ".png")%string
    end ;;
  Py.Ok (if negb (MaskProcessor.endswith (MaskProcessor.lower name) ".png")
         then (name ++ ".png")%string else name).

End Naming.

(** Some character of [s] is [c]. *)
Fixpoint mentions (c : ascii) (s : string) : bool :=
  match s with
  | EmptyString => false
  | String d s' => Ascii.eqb d c || mentions c s'
  end.

End Exporting.

(* ===================================================================== *)
(** * widgets.py: further methods of [MaskEditWidget]                     *)
(* ===================================================================== *)

Module MaskEditMore.

Import MaskEditWidget.

(** [clear_mask]: the mask is zeroed in place and committed. *)
Definition clear_mask (self : t) : t :=
  match mask self with
  | None => self
  | Some m =>
      let self :=
        with_mask self (Some (Np.full (Np.shape0 m) (Np.shape1 m) 0%Z)) in
      let self := push_history self in
      let self := with_gc_off self in
      let self :=
        if mode_eqb (mode self) grabcut_refine then set_mode self draw
        else self in
      emit self (mask_edited (mask self))
  end.

Section External.

Variable cv2_resize : Mask -> nat -> nat -> Py.result Mask.

(** [auto_fix_morph]: an opening and then a closing of the mask, each only
    for a positive kernel size and iteration count, and the result handed to
    [set_mask]; an exception is logged and swallowed. *)
Definition auto_fix_morph (self : t) (open_k open_iter close_k close_iter : Z)
  : t :=
  match mask self with
  | None => self
  | Some m =>
      let current_mask := m in
      let current_mask :=
        if ((open_iter >? 0) && (open_k >? 0))%Z
        then Cv.morphologyEx current_mask Cv.MORPH_OPEN (Z.to_nat open_k)
                             open_iter
        else current_mask in
      let current_mask :=
        if ((close_iter >? 0) && (close_k >? 0))%Z
        then Cv.morphologyEx current_mask Cv.MORPH_CLOSE (Z.to_nat close_k)
                             close_iter
        else current_mask in
      fst (set_mask cv2_resize self current_mask)
  end.

End External.

(** The editor holds a mask of the shape of its image, its history is a
    list of one to [MAX_HISTORY_SIZE] snapshots of that shape with the
    pointer on one of them, and in marker mode it holds a label map of that
    shape.  The last part is what [update_pix] needs to come back in marker
    mode: without such a label map [update_pix_for_watershed] hands back to
    [update_pix], which calls it again. *)
Definition consistent (self : t) : Prop :=
  exists b m,
    base_img self = Some b /\ mask self = Some m
    /\ Np.same_shape b m = true
    /\ Forall (fun s => Np.same_shape b s = true) (history self)
    /\ history_idx self < length (history self)
    /\ length (history self) <= MAX_HISTORY_SIZE
    /\ (mode self = watershed_mark ->
        exists k, watershed_markers self = Some k
                  /\ Np.same_shape b k = true).

End MaskEditMore.

(* ===================================================================== *)
(** * widgets.py: the view of [MaskEditWidget] (zoom, pan, brush)         *)
(* ===================================================================== *)

Module MaskEditView.

(** [QPoint], and [QRect] as Qt stores it: the left, top, right and bottom
    coordinates, all four inclusive. *)
Record QPoint : Type := mk_point { px : Z; py : Z }.
Record QRect : Type := mk_rect { x1 : Z; y1 : Z; x2 : Z; y2 : Z }.

Definition topLeft (r : QRect) : QPoint := mk_point (x1 r) (y1 r).
Definition bottomRight (r : QRect) : QPoint := mk_point (x2 r) (y2 r).

(** The attributes of the widget that concern the display, besides those of
    [MaskEditWidget.t]: the brush, the zoom and pan state, whether a pixmap
    is cached ([_pixmap is not None]), and the size Qt reports for the
    widget ([width()], [height()]). *)
Record t : Type := mk {
  brush_size : Z;
  zoom_factor : Q;
  pan_offset : QPoint;
  has_pixmap : bool;
  width : Z;
  height : Z
}.

(** [constants.DEFAULT_BRUSH_SIZE] *)
Definition DEFAULT_BRUSH_SIZE : Z := 12.

(** The display attributes after [MaskEditWidget.__init__], for a widget of
    the given size; [rendered] tells whether [update_pix] could build the
    pixmap. *)
Definition init (width height : Z) (rendered : bool) : t :=
  {| brush_size := DEFAULT_BRUSH_SIZE; zoom_factor := 1;
     pan_offset := mk_point 0 0; has_pixmap := rendered;
     width := width; height := height |}.

Definition with_brush_size (v : t) (b : Z) : t :=
  mk b (zoom_factor v) (pan_offset v) (has_pixmap v) (width v) (height v).

Definition with_zoom_pan (v : t) (z : Q) (p : QPoint) : t :=
  mk (brush_size v) z p (has_pixmap v) (width v) (height v).

(** What a call of [update_pix] does to the display: it caches the pixmap
    it rendered, it drops the cached one because rendering failed, or it
    raises.  It raises when [cv2.resize] or [cv2.addWeighted] does, and with
    a [RecursionError] when [update_pix_for_grabcut] or
    [update_pix_for_watershed] finds no label map of the shape of the image
    and hands back to [update_pix], which calls it again. *)
Inductive rendering : Type :=
| Rendered
| Cleared
| Raises.

(** What a handler returns: the view it leaves behind, and the exception
    that escaped if one did. *)
Inductive error : Type :=
| ZeroDivisionError
| RenderingError.

Inductive outcome : Type :=
| Done (v : t)
| Raised (e : error) (v : t).

Definition state_of (o : outcome) : t :=
  match o with
  | Done v => v
  | Raised _ v => v
  end.

Definition with_pixmap (v : t) (p : bool) : t :=
  mk (brush_size v) (zoom_factor v) (pan_offset v) p (width v) (height v).

(** [update_pix] *)
Definition update_pix (v : t) (r : rendering) : outcome :=
  match r with
  | Rendered => Done (with_pixmap v true)
  | Cleared => Done (with_pixmap v false)
  | Raises => Raised RenderingError v
  end.

(** [increase_brush_size], [decrease_brush_size] *)
Definition increase_brush_size (v : t) : t :=
  with_brush_size v (Z.min 100 (brush_size v + 5)).
Definition decrease_brush_size (v : t) : t :=
  with_brush_size v (Z.max 1 (brush_size v - 5)).

(** [reset_view] and [reset_zoom] *)
Definition reset_view (v : t) (r : rendering) : outcome :=
  update_pix (with_zoom_pan v 1 (mk_point 0 0)) r.
Definition reset_zoom (v : t) (r : rendering) : outcome :=
  update_pix (with_zoom_pan v 1 (mk_point 0 0)) r.

(** The built-ins [min] and [max] of two numbers, which return the first
    argument unless the second is strictly smaller, respectively larger, and
    [int] of a float, which truncates towards zero. *)
Definition py_min (a b : Q) : Q := if Py.Qlt_bool b a then b else a.
Definition py_max (a b : Q) : Q := if Py.Qlt_bool a b then b else a.
Definition py_int (q : Q) : Z := Z.quot (Qnum q) (Zpos (Qden q)).

(** [wheelEvent] for a wheel event at position [(pos_x, pos_y)] with the
    vertical angle delta [angle_delta_y]. *)
Definition wheelEvent (v : t) (pos_x pos_y : Q) (angle_delta_y : Z)
           (r : rendering) : outcome :=
  if ((width v =? 0) || (height v =? 0))%Z then Raised ZeroDivisionError v
  else
    let rel_x := (pos_x / inject_Z (width v))%Q in
    let rel_y := (pos_y / inject_Z (height v))%Q in
    let degrees := (inject_Z angle_delta_y / 8)%Q in
    let steps := (degrees / 15)%Q in
    let zoom_delta := ((15 # 100) * steps)%Q in
    let old_zoom := zoom_factor v in
    let new_zoom := py_max (1 # 10) (py_min 10 (old_zoom + zoom_delta)%Q) in
    let v := with_zoom_pan v new_zoom (pan_offset v) in
    if negb (Qeq_bool old_zoom new_zoom) then
      if Qeq_bool old_zoom 0 then Raised ZeroDivisionError v
      else
        let zoom_ratio := (new_zoom / old_zoom)%Q in
        let center_x := (inject_Z (width v) * rel_x)%Q in
        let center_y := (inject_Z (height v) * rel_y)%Q in
        let pan_x :=
          py_int ((inject_Z (px (pan_offset v)) - center_x) * zoom_ratio
                  + center_x)%Q in
        let v := with_zoom_pan v new_zoom (mk_point pan_x (py (pan_offset v))) in
        let pan_y :=
          py_int ((inject_Z (py (pan_offset v)) - center_y) * zoom_ratio
                  + center_y)%Q in
        let v := with_zoom_pan v new_zoom (mk_point (px (pan_offset v)) pan_y) in
        update_pix v r
    else Done v.

(** [widget_to_image_coords]: [None], or the pixel of the image under the
    widget position [p]. *)
Definition widget_to_image_coords (core : MaskEditWidget.t) (v : t)
           (p : QPoint) : Py.result (option (Z * Z)) :=
  match has_pixmap v, MaskEditWidget.mask core with
  | true, Some m =>
      let img_h := Z.of_nat (Np.shape0 m) in
      let img_w := Z.of_nat (Np.shape1 m) in
      if ((img_w <=? 0) || (img_h <=? 0))%Z then Py.Ok None
      else
        match MaskEditWidget.base_img core with
        | None => Py.Raise Py.AttributeError
        | Some b =>
            let base_img_h := inject_Z (Z.of_nat (Np.shape0 b)) in
            let base_img_w := inject_Z (Z.of_nat (Np.shape1 b)) in
            let current_pixmap_w := (base_img_w * zoom_factor v)%Q in
            let current_pixmap_h := (base_img_h * zoom_factor v)%Q in
            let centered_x0 := ((inject_Z (width v) - current_pixmap_w) / 2)%Q in
            let centered_y0 := ((inject_Z (height v) - current_pixmap_h) / 2)%Q in
            let img_x0_widget := (centered_x0 + inject_Z (px (pan_offset v)))%Q in
            let img_y0_widget := (centered_y0 + inject_Z (py (pan_offset v)))%Q in
            let scale_w :=
              if Py.Qlt_bool 0 current_pixmap_w
              then (base_img_w / current_pixmap_w)%Q else 1%Q in
            let scale_h :=
              if Py.Qlt_bool 0 current_pixmap_h
              then (base_img_h / current_pixmap_h)%Q else 1%Q in
            let img_x := ((inject_Z (px p) - img_x0_widget) * scale_w)%Q in
            let img_y := ((inject_Z (py p) - img_y0_widget) * scale_h)%Q in
            let img_x_clamped :=
              py_int (py_max 0 (py_min (base_img_w - 1) img_x)) in
            let img_y_clamped :=
              py_int (py_max 0 (py_min (base_img_h - 1) img_y)) in
            Py.Ok (Some (img_x_clamped, img_y_clamped))
        end
  | _, _ => Py.Ok None
  end.

(** [_rect_widget_to_image]: [None], or the rectangle [(x, y, w, h)] of the
    image between the pixels under two opposite corners of [rect]. *)
Definition rect_widget_to_image (core : MaskEditWidget.t) (v : t)
           (rect : option QRect) : Py.result (option (Z * Z * Z * Z)) :=
  match rect with
  | None => Py.Ok None
  | Some rect =>
      top_left_img <- widget_to_image_coords core v (topLeft rect) ;;
      bottom_right_img <- widget_to_image_coords core v (bottomRight rect) ;;
      match top_left_img, bottom_right_img with
      | Some (xa, ya), Some (xb, yb) =>
          let img_x := Z.min xa xb in
          let img_y := Z.min ya yb in
          let img_w := Z.abs (xa - xb) in
          let img_h := Z.abs (ya - yb) in
          match MaskEditWidget.mask core with
          | None => Py.Raise Py.AttributeError
          | Some m =>
              let img_h_orig := Z.of_nat (Np.shape0 m) in
              let img_w_orig := Z.of_nat (Np.shape1 m) in
              let img_x := Z.max 0 img_x in
              let img_y := Z.max 0 img_y in
              let img_w := Z.min (img_w_orig - img_x) img_w in
              let img_h := Z.min (img_h_orig - img_y) img_h in
              if ((img_w >? 0) && (img_h >? 0))%Z
              then Py.Ok (Some (img_x, img_y, img_w, img_h))
              else Py.Ok None
          end
      | _, _ => Py.Ok None
      end
  end.

(** The brush and the zoom are within the limits of the widget. *)
Definition in_limits (v : t) : Prop :=
  (1 <= brush_size v <= 100)%Z
  /\ ((1 # 10) <= zoom_factor v)%Q /\ (zoom_factor v <= 10)%Q.

End MaskEditView.

(* ===================================================================== *)
(** * widgets.py: the GrabCut session of [MaskEditWidget]                 *)
(* ===================================================================== *)

Module MaskEditGrabcut.

Import MaskEditWidget.

(** The labels of [cv2.grabCut]. *)
Definition GC_BGD : Z := 0.
Definition GC_FGD : Z := 1.
Definition GC_PR_BGD : Z := 2.
Definition GC_PR_FGD : Z := 3.

(** A three-channel image, as [cv2.cvtColor] returns it. *)
Definition Bgr : Type := Np.ndarray (Z * Z * Z).

(** The widget with the attributes that the session reads or writes: those
    of [MaskEditWidget.t], the display, and the rectangle being dragged. *)
Record t : Type := mk {
  core : MaskEditWidget.t;
  view : MaskEditView.t;
  grabcut_rect : option MaskEditView.QRect;
  rect_start_point : option MaskEditView.QPoint;
  grabcut_mode : option string
}.

Definition with_core (self : t) (c : MaskEditWidget.t) : t :=
  mk c (view self) (grabcut_rect self) (rect_start_point self)
     (grabcut_mode self).

Definition with_view (self : t) (v : MaskEditView.t) : t :=
  mk (core self) v (grabcut_rect self) (rect_start_point self)
     (grabcut_mode self).

Definition with_grabcut_rect (self : t) (r : option MaskEditView.QRect) : t :=
  mk (core self) (view self) r (rect_start_point self) (grabcut_mode self).

Definition with_drawing_rect (c : MaskEditWidget.t) (v : bool)
  : MaskEditWidget.t :=
  MaskEditWidget.mk (mask c) (base_img c) (drawing c) (mode c) (refine_mode c)
     v (gc_mask c) (gc_bgd_model c) (gc_fgd_model c)
     (gc_initialized c) (watershed_markers c) (panning c)
     (history c) (history_idx c) (events c).

(** [gc_mask], [gc_bgd_model] and [gc_fgd_model] assigned together. *)
Definition with_gc_arrays (c : MaskEditWidget.t) (g : Markers)
           (bgd fgd : list Q) : MaskEditWidget.t :=
  MaskEditWidget.mk (mask c) (base_img c) (drawing c) (mode c) (refine_mode c)
     (drawing_rect c) (Some g) (Some bgd) (Some fgd)
     (gc_initialized c) (watershed_markers c) (panning c)
     (history c) (history_idx c) (events c).

Definition with_gc_initialized (c : MaskEditWidget.t) (v : bool)
  : MaskEditWidget.t :=
  MaskEditWidget.mk (mask c) (base_img c) (drawing c) (mode c) (refine_mode c)
     (drawing_rect c) (gc_mask c) (gc_bgd_model c) (gc_fgd_model c)
     v (watershed_markers c) (panning c)
     (history c) (history_idx c) (events c).

(** [enter_grabcut_rect_mode] *)
Definition enter_grabcut_rect_mode (self : t) : t :=
  let c := with_mode (core self) MaskEditWidget.grabcut_rect in
  let c := with_drawing_rect c false in
  let c := with_gc_off c in
  let c := emit c (grabcut_mode_changed false) in
  mk c (view self) None None (grabcut_mode self).

(** [np.where((gc_mask == GC_FGD) | (gc_mask == GC_PR_FGD), 255, 0)] *)
Definition foreground_of (g : Markers) : Mask :=
  Np.map (fun v => if ((v =? GC_FGD) || (v =? GC_PR_FGD))%Z
                   then 255%Z else 0%Z) g.

(** [finish_grabcut]; [r] is what the call of [update_pix] in it does. *)
Definition finish_grabcut (self : t) (r : MaskEditView.rendering) : t :=
  match gc_initialized (core self), gc_mask (core self) with
  | true, Some g =>
      (* try *)
      let output_mask := foreground_of g in
      let c := with_mask (core self) (Some output_mask) in
      let c := push_history c in
      let self :=
        match MaskEditView.update_pix (view self) r with
        | MaskEditView.Done v =>
            with_view (with_core self (emit c (mask_edited (mask c)))) v
        | MaskEditView.Raised _ v =>
            (* except Exception: logged *)
            with_view (with_core self c) v
        end in
      (* finally *)
      let c := with_gc_models_off (with_gc_off (core self)) in
      let c := with_drawing_rect c false in
      mk (set_mode c draw) (view self) None None None
  | _, _ => with_core self (set_mode (core self) draw)
  end.

Section External.

(** [cv2.cvtColor(base_img[:, :, :3], cv2.COLOR_RGBA2BGR)], which raises
    [cv2.error] on an image it rejects, and
    [cv2.grabCut(img, mask, rect, bgdModel, fgdModel, 5, GC_INIT_WITH_RECT)],
    which writes into the three arrays it is given: it returns them as it
    left them, and whether it raised. *)
Variable cv2_cvtColor : Image -> Py.result Bgr.
Variable cv2_grabCut :
  Bgr -> Markers -> Z * Z * Z * Z -> list Q -> list Q ->
  (Markers * list Q * list Q) * Py.result unit.

(** [_run_grabcut_initial]; [r1] is what [update_pix_for_grabcut] does and
    [r2] what [update_pix] does when the handler of the [try] block calls
    [finish_grabcut]. *)
Definition run_grabcut_initial (self : t) (r1 r2 : MaskEditView.rendering)
  : Py.result t :=
  match grabcut_rect self, base_img (core self) with
  | Some rect, Some b =>
      img_rect <- MaskEditView.rect_widget_to_image (core self) (view self)
                                                    (Some rect) ;;
      match img_rect with
      | None =>
          Py.Ok (with_core (with_grabcut_rect self None)
                           (with_mode (core self) draw))
      | Some img_rect =>
          match cv2_cvtColor b with
          | Py.Raise _ => Py.Ok (finish_grabcut self r2)
          | Py.Ok img_bgr =>
              let zeros : Markers :=
                Np.full (Np.shape0 img_bgr) (Np.shape1 img_bgr) 0%Z in
              let '(g, bgd, fgd, raised) :=
                cv2_grabCut img_bgr zeros img_rect
                            (repeat 0%Q 65) (repeat 0%Q 65) in
              let self := with_core self (with_gc_arrays (core self) g bgd fgd) in
              match raised with
              | Py.Raise _ => Py.Ok (finish_grabcut self r2)
              | Py.Ok _ =>
                  let self :=
                    with_core self (with_gc_initialized (core self) true) in
                  match MaskEditView.update_pix (view self) r1 with
                  | MaskEditView.Raised _ v =>
                      Py.Ok (finish_grabcut (with_view self v) r2)
                  | MaskEditView.Done v =>
                      Py.Ok (with_core (with_view self v)
                                       (set_mode (core self) grabcut_refine))
                  end
              end
          end
      end
  | _, _ => Py.Ok self
  end.

End External.

End MaskEditGrabcut.

(* ===================================================================== *)
(** * widgets.py: the selection of [ThumbListWidget]                      *)
(* ===================================================================== *)

Module ThumbListWidget.

(** The two signals of the widget that carry the selection. *)
Inductive event : Type :=
| frame_selected (idx : Z)
| selection_changed (indices : list Z).

(** The attributes that hold the selection, and the signals sent so far.  A
    Python [set] of indices is a list read through membership; one label is
    kept per thumbnail, so [len(self.thumb_labels)] is [len(self.thumbs)]. *)
Record t : Type := mk {
  thumbs : list Image;
  current_idx : Z;
  selected_indices : list Z;
  events : list event
}.

Definition emit (self : t) (e : event) : t :=
  mk (thumbs self) (current_idx self) (selected_indices self)
     (events self ++ [e]).

Definition mem (i : Z) (s : list Z) : bool := existsb (Z.eqb i) s.

(** [a == b] on sets *)
Definition set_eqb (a b : list Z) : bool :=
  forallb (fun i => mem i b) a && forallb (fun i => mem i a) b.

(** [__init__] *)
Definition init : t := mk [] (-1) [] [].

(** [clear_thumbs] *)
Definition clear_thumbs (self : t) : t := mk [] (-1) [] (events self).

(** [0 <= idx < len(self.thumbs)] *)
Definition in_range (self : t) (idx : Z) : bool :=
  ((0 <=? idx) && (idx <? Z.of_nat (length (thumbs self))))%Z.

(** [set_current] *)
Definition set_current (self : t) (idx : Z) : t :=
  if in_range self idx then
    let is_new_selection := negb (current_idx self =? idx)%Z in
    let self := mk (thumbs self) idx (selected_indices self) (events self) in
    if is_new_selection then emit self (frame_selected idx) else self
  else self.

(** [select_frames] *)
Definition select_frames (self : t) (indices : list Z) : t :=
  let new_selection := filter (in_range self) indices in
  if negb (set_eqb new_selection (selected_indices self)) then
    let self := mk (thumbs self) (current_idx self) new_selection
                   (events self) in
    emit self (selection_changed (selected_indices self))
  else self.

(** [set_thumbs] *)
Definition set_thumbs (self : t) (imgs : list Image) : t :=
  let self := clear_thumbs self in
  let self := mk imgs (current_idx self) (selected_indices self)
                 (events self) in
  match thumbs self with
  | [] => self
  | _ :: _ =>
      let self := set_current self 0 in
      let self := mk (thumbs self) (current_idx self) [0%Z] (events self) in
      emit self (selection_changed (selected_indices self))
  end.

(** [set(range(start, stop))] *)
Definition range (start stop : Z) : list Z :=
  List.map (fun k => (start + Z.of_nat k)%Z) (seq 0 (Z.to_nat (stop - start))).

(** [mousePressEvent] once the thumbnail under the pointer has been looked
    up: [clicked_idx] is its index or -1, [ctrl] and [shift] tell whether
    the modifiers of the event hold the Control and the Shift key. *)
Definition mousePressEvent (self : t) (clicked_idx : Z) (ctrl shift : bool)
  : t :=
  if negb (clicked_idx =? -1)%Z then
    if ctrl then
      let current_selection := selected_indices self in
      let current_selection :=
        if mem clicked_idx current_selection
        then filter (fun i => negb (i =? clicked_idx)%Z) current_selection
        else clicked_idx :: current_selection in
      select_frames self current_selection
    else if shift && (current_idx self >=? 0)%Z then
      let start_idx := Z.min clicked_idx (current_idx self) in
      let end_idx := Z.max clicked_idx (current_idx self) in
      let range_selection := range start_idx (end_idx + 1) in
      let self := select_frames self range_selection in
      set_current self clicked_idx
    else
      let self := set_current self clicked_idx in
      select_frames self [clicked_idx]
  else self.

(** The current frame is none or a thumbnail, and so is every selected
    frame. *)
Definition valid (self : t) : Prop :=
  (current_idx self = (-1)%Z
   \/ (0 <= current_idx self < Z.of_nat (length (thumbs self)))%Z)
  /\ forall i, In i (selected_indices self) ->
               (0 <= i < Z.of_nat (length (thumbs self)))%Z.

End ThumbListWidget.

(* ===================================================================== *)
(** * Further concrete inputs                                             *)
(* ===================================================================== *)

Module SampleHistory.

(** A frame after one accepted edit, the same after an undo, and after the
    redo that follows. *)
Definition roi_edited : FrameROI.t :=
  FrameROI.add_mask_to_history Sample.roi0 (Sample.mask_n 1).
Definition roi_undone : FrameROI.t :=
  FrameROI.set_mask_ptr roi_edited Sample.mask0 0.
Definition roi_redone : FrameROI.t :=
  FrameROI.set_mask_ptr roi_undone (Sample.mask_n 1) 1.

End SampleHistory.

Module SampleEditing.

(** A fresh editor after one committed edit, and the same after an undo. *)
Definition widget_edited : MaskEditWidget.t :=
  MaskEditWidget.commit Sample.widget0 (Sample.mask_n 1).
Definition widget_undone : MaskEditWidget.t :=
  match MaskEditWidget.undo widget_edited with
  | Py.Ok (_, self) => self
  | Py.Raise _ => widget_edited
  end.

End SampleEditing.

Module SampleView.

(** The view of a fresh editor in a widget of 384 by 384 pixels, a position
    in it and a rectangle dragged over it. *)
Definition view0 : MaskEditView.t := MaskEditView.init 384 384 true.
Definition point0 : MaskEditView.QPoint := MaskEditView.mk_point 10 10.
Definition rect0 : MaskEditView.QRect := MaskEditView.mk_rect 0 0 383 383.

End SampleView.

Module SampleGrabcut.

(** An editor in a GrabCut session whose label map says probable
    foreground in the first row and probable background in the second. *)
Definition labels : Markers :=
  {| Np.shape0 := 2; Np.shape1 := 2;
     Np.cell := fun i _ => if i =? 0 then 3%Z else 2%Z |}.

Definition session : MaskEditGrabcut.t :=
  MaskEditGrabcut.mk
    (MaskEditGrabcut.with_gc_initialized
       (MaskEditGrabcut.with_gc_arrays Sample.widget0 labels [] []) true)
    SampleView.view0 None None None.

(** The GrabCut of an image that labels everything in the rectangle as
    probable foreground, and the conversion that keeps the colours. *)
Definition cv2_cvtColor (img : Image) : Py.result MaskEditGrabcut.Bgr :=
  Py.Ok (Np.map (fun p => (blue p, green p, red p)) img).

Definition cv2_grabCut (img : MaskEditGrabcut.Bgr) (m : Markers)
           (rect : Z * Z * Z * Z) (bgd fgd : list Q)
  : (Markers * list Q * list Q) * Py.result unit :=
  (Np.map (fun _ => 3%Z) m, bgd, fgd, Py.Ok tt).

(** A fresh editor on which a rectangle has been dragged. *)
Definition dragged : MaskEditGrabcut.t :=
  MaskEditGrabcut.mk Sample.widget0 SampleView.view0
                     (Some SampleView.rect0) None None.

End SampleGrabcut.

Module SampleThumbs.

(** A thumbnail list that shows three frames. *)
Definition list3 : ThumbListWidget.t :=
  ThumbListWidget.set_thumbs ThumbListWidget.init
                             [Sample.image0; Sample.image0; Sample.image0].

End SampleThumbs.

(* ===================================================================== *)
(** * Properties of the mask-edit histories                               *)
(* ===================================================================== *)

Unset Implicit Arguments.

Section SliceLast.

Context {A : Type}.
Implicit Types (l : list A) (k : nat).

Lemma slice_last_length k l :
  length (Py.slice_last k l) = Nat.min k (length l).
Proof.
  unfold Py.slice_last. rewrite length_skipn. lia.
Qed.

Lemma slice_last_all k l :
  length l <= k -> Py.slice_last k l = l.
Proof.
  intros H. unfold Py.slice_last.
  replace (length l - k) with 0 by lia. reflexivity.
Qed.

Lemma slice_last_app k l1 l2 :
  k <= length l2 -> Py.slice_last k (l1 ++ l2) = Py.slice_last k l2.
Proof.
  intros H. unfold Py.slice_last.
  rewrite length_app, skipn_app.
  replace (length l1 + length l2 - k - length l1) with (length l2 - k) by lia.
  rewrite skipn_all2 by lia. reflexivity.
Qed.

Lemma slice_last_snoc k l (a : A) :
  0 < k ->
  Py.slice_last k (Py.slice_last k l ++ [a]) = Py.slice_last k (l ++ [a]).
Proof.
  intros Hk.
  destruct (Nat.le_gt_cases (length l) k) as [Hle | Hgt].
  - rewrite (slice_last_all k l Hle). reflexivity.
  - unfold Py.slice_last at 1 3.
    rewrite !length_app, slice_last_length. simpl.
    replace (Nat.min k (length l) + 1 - k) with 1 by lia.
    replace (length l + 1 - k) with (1 + (length l - k)) by lia.
    rewrite <- skipn_skipn. f_equal.
    unfold Py.slice_last. rewrite skipn_app.
    replace (length l - k - length l) with 0 by lia. reflexivity.
Qed.

End SliceLast.

Lemma slice_last_absorb {A : Type} (k : nat) (l l2 : list A) :
  Py.slice_last k (Py.slice_last k l ++ l2) = Py.slice_last k (l ++ l2).
Proof.
  destruct (Nat.le_gt_cases (length l) k) as [Hle | Hgt].
  - rewrite (slice_last_all k l Hle). reflexivity.
  - rewrite <- (firstn_skipn (length l - k) l) at 2.
    rewrite <- app_assoc.
    rewrite (slice_last_app k (firstn (length l - k) l)
                            (skipn (length l - k) l ++ l2)); [reflexivity |].
    rewrite length_app, length_skipn. lia.
Qed.

Module HistoryFacts.

Import MaskEditWidget.

(** [set_mode] leaves the mask and the history alone. *)
Ltac set_mode_cases self m :=
  unfold set_mode; destruct (mode_eqb m (mode self)); [reflexivity |];
  destruct m; try reflexivity;
  match goal with
  | |- context [match ?o with Some _ => _ | None => _ end] =>
      destruct o; reflexivity
  end.

Lemma set_mode_mask self m : mask (set_mode self m) = mask self.
Proof. set_mode_cases self m. Qed.

Lemma set_mode_history self m : history (set_mode self m) = history self.
Proof. set_mode_cases self m. Qed.

Lemma set_mode_history_idx self m :
  history_idx (set_mode self m) = history_idx self.
Proof. set_mode_cases self m. Qed.

(** The state after one commit made with the pointer inside the list. *)
Lemma commit_spec self m :
  history_idx self < length (history self) ->
  history (commit self m)
  = Py.slice_last MAX_HISTORY_SIZE
      (firstn (history_idx self + 1) (history self) ++ [m])
  /\ history_idx (commit self m) + 1 = length (history (commit self m))
  /\ mask (commit self m) = Some m.
Proof.
  intros Hp. unfold commit, push_history.
  change (mask (with_mask self (Some m))) with (Some m).
  change (history (with_mask self (Some m))) with (history self).
  change (history_idx (with_mask self (Some m))) with (history_idx self).
  set (hist := if history_idx self <? length (history self) - 1
               then firstn (history_idx self + 1) (history self)
               else history self).
  assert (Hhist : hist = firstn (history_idx self + 1) (history self)).
  { unfold hist.
    destruct (Nat.ltb_spec (history_idx self) (length (history self) - 1)).
    - reflexivity.
    - rewrite firstn_all2 by lia. reflexivity. }
  assert (Hlen : length (hist ++ [m]) = history_idx self + 2).
  { rewrite Hhist, length_app, length_firstn. simpl. lia. }
  rewrite <- Hhist.
  destruct (Nat.ltb_spec MAX_HISTORY_SIZE (length (hist ++ [m])))
    as [Hbig | Hsmall].
  - change (history (with_history (with_mask self (Some m))
                                  (Py.slice_last MAX_HISTORY_SIZE (hist ++ [m]))
                                  (length (Py.slice_last MAX_HISTORY_SIZE (hist ++ [m])) - 1)))
      with (Py.slice_last MAX_HISTORY_SIZE (hist ++ [m])).
    repeat split.
    change (history_idx ?x) with
      (length (Py.slice_last MAX_HISTORY_SIZE (hist ++ [m])) - 1).
    rewrite slice_last_length. unfold MAX_HISTORY_SIZE in *. lia.
  - rewrite (slice_last_all _ _ Hsmall).
    repeat split.
    change (history_idx self + 1 + 1 = length (hist ++ [m])). lia.
Qed.

Lemma commit_length self m :
  history_idx self < length (history self) ->
  length (history (commit self m)) <= MAX_HISTORY_SIZE.
Proof.
  intros Hp. destruct (commit_spec self m Hp) as [-> _].
  rewrite slice_last_length. lia.
Qed.

(** Commits made with the pointer at the end keep the last
    [MAX_HISTORY_SIZE] entries of the old list followed by the new masks. *)
Lemma commits_at_end ms : forall self,
  history_idx self + 1 = length (history self) ->
  length (history self) <= MAX_HISTORY_SIZE ->
  history (commits self ms)
  = Py.slice_last MAX_HISTORY_SIZE (history self ++ ms)
  /\ history_idx (commits self ms) + 1 = length (history (commits self ms)).
Proof.
  induction ms as [| m ms IH]; intros self Hend Hlen.
  - simpl. rewrite app_nil_r, slice_last_all by assumption. auto.
  - change (commits self (m :: ms)) with (commits (commit self m) ms).
    assert (Hp : history_idx self < length (history self)) by lia.
    destruct (commit_spec self m Hp) as (Hh & Hi & _).
    destruct (IH (commit self m) Hi (commit_length self m Hp)) as [IH1 IH2].
    split; [| exact IH2].
    rewrite IH1, Hh.
    rewrite firstn_all2 by lia.
    rewrite slice_last_absorb, <- app_assoc. reflexivity.
Qed.

(** From any well-formed state, [N >= MAX_HISTORY_SIZE] commits leave
    exactly the last [MAX_HISTORY_SIZE] committed masks. *)
Lemma commits_many self ms :
  history_idx self < length (history self) ->
  MAX_HISTORY_SIZE <= length ms ->
  history (commits self ms) = Py.slice_last MAX_HISTORY_SIZE ms
  /\ history_idx (commits self ms) = MAX_HISTORY_SIZE - 1.
Proof.
  intros Hp HN. destruct ms as [| m ms]; [simpl in HN; unfold MAX_HISTORY_SIZE in HN; lia |].
  change (commits self (m :: ms)) with (commits (commit self m) ms).
  destruct (commit_spec self m Hp) as (Hh & Hi & _).
  destruct (commits_at_end ms (commit self m) Hi (commit_length self m Hp))
    as [H1 H2].
  assert (Hhist : history (commits (commit self m) ms)
                  = Py.slice_last MAX_HISTORY_SIZE (m :: ms)).
  { rewrite H1, Hh, slice_last_absorb, <- app_assoc.
    apply slice_last_app. exact HN. }
  split; [exact Hhist |].
  rewrite Hhist, slice_last_length in H2. lia.
Qed.

(** One successful [undo]. *)
Lemma after_move_spec self p m :
  nth_error (history self) p = Some m ->
  exists self',
    after_move self p = Py.Ok (true, self')
    /\ history self' = history self
    /\ history_idx self' = p
    /\ mask self' = Some m.
Proof.
  intros Hm. unfold after_move. rewrite Hm.
  eexists. split; [reflexivity |].
  destruct (mode_eqb _ grabcut_refine).
  - change (history (emit ?x ?e)) with (history x).
    change (history_idx (emit ?x ?e)) with (history_idx x).
    change (mask (emit ?x ?e)) with (mask x).
    rewrite set_mode_history, set_mode_history_idx, set_mode_mask.
    repeat split.
  - repeat split.
Qed.

(** One successful [undo]. *)
Lemma undo_step self p :
  history_idx self = S p ->
  p < length (history self) ->
  exists self',
    undo self = Py.Ok (true, self')
    /\ history self' = history self
    /\ history_idx self' = p
    /\ mask self' = nth_error (history self) p.
Proof.
  intros Hi Hp. unfold undo. rewrite Hi. simpl Nat.ltb. cbv iota.
  replace (S p - 1) with p by lia.
  destruct (nth_error (history self) p) as [m |] eqn:Hm.
  - destruct (after_move_spec self p m Hm) as (s' & E & Hh & Hi' & Hm').
    exists s'. auto.
  - apply nth_error_None in Hm. lia.
Qed.

(** Enough calls of [undo] reach the oldest retained snapshot and stay
    there. *)
Lemma undo_times_bottom k : forall self,
  history_idx self <= k ->
  history_idx self < length (history self) ->
  exists self',
    undo_times k self = Py.Ok self'
    /\ history self' = history self
    /\ history_idx self' = 0
    /\ (0 < history_idx self -> mask self' = nth_error (history self) 0)
    /\ (history_idx self = 0 -> self' = self)
    /\ undo self' = Py.Ok (false, self').
Proof.
  induction k as [| k IH]; intros self Hk Hp.
  - exists self. assert (H0 : history_idx self = 0) by lia.
    simpl. repeat split; auto; try lia.
    unfold undo. rewrite H0. reflexivity.
  - destruct (history_idx self) as [| p] eqn:Hi.
    + assert (Hu : undo self = Py.Ok (false, self)).
      { unfold undo. rewrite Hi. reflexivity. }
      assert (Hk0 : history_idx self <= k) by lia.
      assert (Hp0 : history_idx self < length (history self)) by lia.
      destruct (IH self Hk0 Hp0) as (s' & E & Hh & H0 & Hm & Hs & Hu').
      exists s'. simpl. rewrite Hu. simpl.
      repeat split; auto; try lia.
    + assert (Hpl : p < length (history self)) by lia.
      destruct (undo_step self p Hi Hpl) as (s1 & E1 & Hh1 & Hi1 & Hm1).
      assert (Hk1 : history_idx s1 <= k) by lia.
      assert (Hp1 : history_idx s1 < length (history s1)) by (rewrite Hh1; lia).
      destruct (IH s1 Hk1 Hp1) as (s' & E & Hh & H0 & Hm & Hs & Hu').
      exists s'. simpl. rewrite E1. simpl.
      repeat split; auto; try congruence.
      intros _. destruct p as [| p'].
      * rewrite (Hs Hi1). exact Hm1.
      * rewrite Hm by lia. rewrite Hh1. reflexivity.
Qed.

(** [FrameROI.add_mask_to_history]: same truncation and append, no bound. *)
Lemma add_mask_to_history_spec r m :
  FrameROI.mask_edit_idx r < length (FrameROI.mask_edit_history r) ->
  FrameROI.mask_edit_history (FrameROI.add_mask_to_history r m)
  = firstn (FrameROI.mask_edit_idx r + 1) (FrameROI.mask_edit_history r) ++ [m]
  /\ FrameROI.mask_edit_idx (FrameROI.add_mask_to_history r m) + 1
     = length (FrameROI.mask_edit_history (FrameROI.add_mask_to_history r m))
  /\ length (FrameROI.mask_edit_history (FrameROI.add_mask_to_history r m))
     = FrameROI.mask_edit_idx r + 2.
Proof.
  intros Hp. unfold FrameROI.add_mask_to_history.
  cbn [FrameROI.mask_edit_history FrameROI.mask_edit_idx FrameROI.set_history].
  destruct (Nat.ltb_spec (FrameROI.mask_edit_idx r)
                         (length (FrameROI.mask_edit_history r) - 1)).
  - rewrite length_app, length_firstn. simpl. repeat split; lia.
  - rewrite firstn_all2 by lia. rewrite length_app. simpl. repeat split; lia.
Qed.

End HistoryFacts.

(* ===================================================================== *)
(** * Claims about the histories                                          *)
(* ===================================================================== *)

(** C1, as stated, fails on the history that the ROI entity keeps:
    [FrameROI.add_mask_to_history] never evicts, so 32 commits on a fresh
    frame leave 33 snapshots. *)
Lemma roi_history_exceeds_bound :
  ~ (length (FrameROI.mask_edit_history
               (FrameROI.commits Sample.roi0 (repeat Sample.mask0 32)))
     <= 32).
Proof. vm_compute. lia. Qed.

(** C1 (amended).  In the editor ([MaskEditWidget.push_history]) a commit
    made with the pointer [p] inside the list drops everything after [p],
    appends the new snapshot, leaves the pointer on the last entry and keeps
    at most 32 entries by evicting the oldest ones; after more than 32
    commits exactly the last 32 committed masks are kept, and 31 or more
    calls of undo end on the oldest of them, where undo reports [False].
    The history of the ROI entity ([FrameROI.add_mask_to_history]) truncates,
    appends and moves the pointer in the same way, without any bound. *)
Theorem commit_truncates_appends_and_caps :
  forall (self : MaskEditWidget.t) (r : FrameROI.t),
    (MaskEditWidget.history_idx self < length (MaskEditWidget.history self) ->
     forall m,
       MaskEditWidget.history (MaskEditWidget.commit self m)
       = Py.slice_last 32
           (firstn (MaskEditWidget.history_idx self + 1)
                   (MaskEditWidget.history self) ++ [m])
       /\ MaskEditWidget.history_idx (MaskEditWidget.commit self m) + 1
          = length (MaskEditWidget.history (MaskEditWidget.commit self m))
       /\ length (MaskEditWidget.history (MaskEditWidget.commit self m)) <= 32)
    /\
    (MaskEditWidget.history_idx self < length (MaskEditWidget.history self) ->
     forall ms k,
       32 < length ms -> 31 <= k ->
       MaskEditWidget.history (MaskEditWidget.commits self ms)
       = Py.slice_last 32 ms
       /\ exists self',
           MaskEditWidget.undo_times k (MaskEditWidget.commits self ms)
           = Py.Ok self'
           /\ MaskEditWidget.history self' = Py.slice_last 32 ms
           /\ MaskEditWidget.history_idx self' = 0
           /\ MaskEditWidget.mask self' = nth_error ms (length ms - 32)
           /\ MaskEditWidget.undo self' = Py.Ok (false, self'))
    /\
    (FrameROI.mask_edit_idx r < length (FrameROI.mask_edit_history r) ->
     forall m,
       FrameROI.mask_edit_history (FrameROI.add_mask_to_history r m)
       = firstn (FrameROI.mask_edit_idx r + 1) (FrameROI.mask_edit_history r)
         ++ [m]
       /\ FrameROI.mask_edit_idx (FrameROI.add_mask_to_history r m) + 1
          = length (FrameROI.mask_edit_history (FrameROI.add_mask_to_history r m))
       /\ length (FrameROI.mask_edit_history (FrameROI.add_mask_to_history r m))
          = FrameROI.mask_edit_idx r + 2).
Proof.
  intros self r. split; [| split].
  - intros Hp m.
    destruct (HistoryFacts.commit_spec self m Hp) as (Hh & Hi & _).
    repeat split; try assumption.
    apply (HistoryFacts.commit_length self m Hp).
  - intros Hp ms k HN Hk.
    assert (HN' : MaskEditWidget.MAX_HISTORY_SIZE <= length ms)
      by (unfold MaskEditWidget.MAX_HISTORY_SIZE; lia).
    destruct (HistoryFacts.commits_many self ms Hp HN') as [Hh Hi].
    unfold MaskEditWidget.MAX_HISTORY_SIZE in Hh, Hi.
    split; [exact Hh |].
    assert (Hlen : length (MaskEditWidget.history (MaskEditWidget.commits self ms)) = 32).
    { rewrite Hh, slice_last_length. lia. }
    assert (Hk' : MaskEditWidget.history_idx (MaskEditWidget.commits self ms)
                  <= k) by lia.
    assert (Hp' : MaskEditWidget.history_idx (MaskEditWidget.commits self ms)
                  < length (MaskEditWidget.history
                              (MaskEditWidget.commits self ms))) by lia.
    destruct (HistoryFacts.undo_times_bottom k _ Hk' Hp')
      as (s' & E & Hh' & H0 & Hm & _ & Hu).
    exists s'. repeat split; try assumption.
    + congruence.
    + rewrite Hm by lia. rewrite Hh. unfold Py.slice_last.
      rewrite nth_error_skipn. f_equal. lia.
  - intros Hp m. apply HistoryFacts.add_mask_to_history_spec. exact Hp.
Qed.

(** The theorem above at a fresh editor, forty distinct masks and forty
    calls of undo, and at a fresh frame. *)
Lemma commit_truncates_appends_and_caps_witness :
  (length (MaskEditWidget.history
             (MaskEditWidget.commit Sample.widget0 (Sample.mask_n 1))) <= 32)
  /\ MaskEditWidget.history
       (MaskEditWidget.commits Sample.widget0 Sample.masks40)
     = Py.slice_last 32 Sample.masks40
  /\ length (FrameROI.mask_edit_history
               (FrameROI.add_mask_to_history Sample.roi0 (Sample.mask_n 1)))
     = 2.
Proof.
  destruct (commit_truncates_appends_and_caps Sample.widget0 Sample.roi0)
    as (H1 & H2 & H3).
  split; [| split].
  - apply (H1 (Nat.lt_0_succ 0) (Sample.mask_n 1)).
  - apply (H2 (Nat.lt_0_succ 0) Sample.masks40 40).
    + vm_compute. lia.
    + lia.
  - apply (H3 (Nat.lt_0_succ 0) (Sample.mask_n 1)).
Defined.

(** C10.  [undo] with the pointer on the oldest snapshot and [redo] with the
    pointer on the newest one return [False] and change nothing: neither the
    mask, nor the snapshot list, nor the pointer, nor anything else of the
    object.  This holds for the ROI entity and for the editor. *)
Theorem undo_redo_at_the_ends_change_nothing :
  forall (r : FrameROI.t) (self : MaskEditWidget.t),
    (FrameROI.mask_edit_idx r = 0 ->
     FrameROI.undo_mask r = Py.Ok (false, r))
    /\ (FrameROI.mask_edit_idx r = length (FrameROI.mask_edit_history r) - 1 ->
        FrameROI.redo_mask r = Py.Ok (false, r))
    /\ (MaskEditWidget.history_idx self = 0 ->
        MaskEditWidget.undo self = Py.Ok (false, self))
    /\ (MaskEditWidget.history_idx self
        = length (MaskEditWidget.history self) - 1 ->
        MaskEditWidget.redo self = Py.Ok (false, self)).
Proof.
  intros r self. repeat split.
  - intros H. unfold FrameROI.undo_mask. rewrite H. reflexivity.
  - intros H. unfold FrameROI.redo_mask. rewrite <- H, Nat.ltb_irrefl.
    reflexivity.
  - intros H. unfold MaskEditWidget.undo. rewrite H. reflexivity.
  - intros H. unfold MaskEditWidget.redo. rewrite <- H, Nat.ltb_irrefl.
    reflexivity.
Qed.

(** The theorem above at a fresh frame and a fresh editor, whose single
    snapshot is both the oldest and the newest one. *)
Lemma undo_redo_at_the_ends_change_nothing_witness :
  FrameROI.undo_mask Sample.roi0 = Py.Ok (false, Sample.roi0)
  /\ FrameROI.redo_mask Sample.roi0 = Py.Ok (false, Sample.roi0)
  /\ MaskEditWidget.undo Sample.widget0 = Py.Ok (false, Sample.widget0)
  /\ MaskEditWidget.redo Sample.widget0 = Py.Ok (false, Sample.widget0).
Proof.
  destruct (undo_redo_at_the_ends_change_nothing Sample.roi0 Sample.widget0)
    as (H1 & H2 & H3 & H4).
  split; [apply H1; reflexivity |].
  split; [apply H2; reflexivity |].
  split; [apply H3; reflexivity |].
  apply H4; reflexivity.
Defined.

(* ===================================================================== *)
(** * Properties of sorting, filtering and extraction                     *)
(* ===================================================================== *)

Module SortFacts.

Section InsertionSort.

Context {A : Type} (le : A -> A -> bool).

Lemma insert_sorted_perm (a : A) (l : list A) :
  Permutation (a :: l) (Py.insert_sorted le a l).
Proof.
  induction l as [| b t IH]; simpl.
  - apply Permutation_refl.
  - destruct (le a b).
    + apply Permutation_refl.
    + eapply perm_trans; [apply perm_swap |].
      apply perm_skip. exact IH.
Qed.

Lemma fold_insert_perm (l : list A) :
  Permutation l (fold_right (Py.insert_sorted le) [] l).
Proof.
  induction l as [| a t IH]; simpl.
  - apply perm_nil.
  - eapply perm_trans; [| apply insert_sorted_perm].
    apply perm_skip. exact IH.
Qed.

Hypothesis le_total : forall a b, le a b = false -> le b a = true.

Lemma insert_sorted_sorted (a : A) (l : list A) :
  Sorted (fun x y => le x y = true) l ->
  Sorted (fun x y => le x y = true) (Py.insert_sorted le a l).
Proof.
  induction 1 as [| b t Hs IH Hhd]; simpl.
  - repeat constructor.
  - destruct (le a b) eqn:E.
    + constructor; [constructor; assumption | constructor; exact E].
    + constructor; [exact IH |].
      destruct t as [| c t']; simpl.
      * constructor. apply le_total. exact E.
      * destruct (le a c) eqn:E'.
        -- constructor. apply le_total. exact E.
        -- constructor. inversion Hhd; assumption.
Qed.

Lemma fold_insert_sorted (l : list A) :
  Sorted (fun x y => le x y = true) (fold_right (Py.insert_sorted le) [] l).
Proof.
  induction l as [| a t IH]; simpl.
  - constructor.
  - apply insert_sorted_sorted. exact IH.
Qed.

End InsertionSort.

(** [sorted] returns a rearrangement of its argument. *)
Lemma sorted_perm {A K : Type} (leb : K -> K -> bool) (key : A -> K)
      (reverse : bool) (l : list A) :
  Permutation l (Py.sorted leb key reverse l).
Proof. unfold Py.sorted. apply fold_insert_perm. Qed.

Lemma Qle_bool_total (a b : Q) : Qle_bool a b = false -> Qle_bool b a = true.
Proof.
  intros H. apply Qle_bool_iff.
  destruct (Qlt_le_dec b a) as [Hlt | Hle].
  - apply Qlt_le_weak. exact Hlt.
  - apply Qle_bool_iff in Hle. congruence.
Qed.

Lemma Sorted_impl {A : Type} (R1 R2 : A -> A -> Prop) (l : list A) :
  (forall x y, R1 x y -> R2 x y) -> Sorted R1 l -> Sorted R2 l.
Proof.
  intros Himp. induction 1 as [| a t Hs IH Hhd]; constructor.
  - exact IH.
  - destruct Hhd; constructor. apply Himp. assumption.
Qed.

(** Ascending and descending numeric sorts are ordered by their keys. *)
Lemma sorted_ascending {A : Type} (key : A -> Q) (l : list A) :
  Sorted (fun x y => (key x <= key y)%Q) (Py.sorted Qle_bool key false l).
Proof.
  unfold Py.sorted.
  apply Sorted_impl with
    (R1 := fun x y => Qle_bool (key x) (key y) = true).
  - intros x y H. apply Qle_bool_iff. exact H.
  - apply (fold_insert_sorted (fun a b => Qle_bool (key a) (key b))).
    intros a b. apply Qle_bool_total.
Qed.

Lemma sorted_descending {A : Type} (key : A -> Q) (l : list A) :
  Sorted (fun x y => (key y <= key x)%Q) (Py.sorted Qle_bool key true l).
Proof.
  unfold Py.sorted.
  apply Sorted_impl with
    (R1 := fun x y => Qle_bool (key y) (key x) = true).
  - intros x y H. apply Qle_bool_iff. exact H.
  - apply (fold_insert_sorted (fun a b => Qle_bool (key b) (key a))).
    intros a b. apply Qle_bool_total.
Qed.

(** [sort_rois] returns a rearrangement of the very objects it was given. *)
Lemma sort_rois_perm rois by_ reverse out :
  MaskProcessor.sort_rois rois by_ reverse = Py.Ok out ->
  Permutation rois out.
Proof.
  unfold MaskProcessor.sort_rois. destruct rois as [| r0 rest].
  - intros H. injection H as <-. apply perm_nil.
  - destruct (MaskProcessor.getattr r0 by_) as [[z | q | b | s |] |]; intros H.
    + injection H as <-.
      exact (sorted_perm Qle_bool
               (fun r => MaskProcessor.num_key (MaskProcessor.getattr r by_))
               _ (r0 :: rest)).
    + injection H as <-.
      exact (sorted_perm Qle_bool
               (fun r => MaskProcessor.num_key (MaskProcessor.getattr r by_))
               _ (r0 :: rest)).
    + injection H as <-.
      exact (sorted_perm Qle_bool
               (fun r => MaskProcessor.num_key (MaskProcessor.getattr r by_))
               _ (r0 :: rest)).
    + injection H as <-.
      exact (sorted_perm String.leb
               (fun r => MaskProcessor.str_key (MaskProcessor.getattr r by_))
               _ (r0 :: rest)).
    + destruct (length (r0 :: rest) <=? 1); [| discriminate H].
      injection H as <-. apply Permutation_refl.
    + discriminate H.
Qed.

End SortFacts.

(** C9.  Sorting by the extraction index ignores the [reverse] flag: both
    calls return the same list, which is a rearrangement of the input in
    ascending order of [idx]. *)
Theorem sort_by_idx_ignores_reverse :
  forall rois : list FrameROI.t,
    MaskProcessor.sort_rois rois "idx" true
    = MaskProcessor.sort_rois rois "idx" false
    /\ exists out,
        MaskProcessor.sort_rois rois "idx" true = Py.Ok out
        /\ Permutation rois out
        /\ Sorted (fun a b => (FrameROI.idx a <= FrameROI.idx b)%Z) out.
Proof.
  intros rois. split; [reflexivity |].
  destruct rois as [| r0 rest].
  - exists []. repeat split; constructor.
  - eexists. split; [reflexivity |]. split.
    + exact (SortFacts.sorted_perm Qle_bool
               (fun r => inject_Z (FrameROI.idx r)) false (r0 :: rest)).
    + apply SortFacts.Sorted_impl with
        (R1 := fun a b => (inject_Z (FrameROI.idx a)
                           <= inject_Z (FrameROI.idx b))%Q).
      * intros a b H. rewrite Zle_Qle. exact H.
      * exact (SortFacts.sorted_ascending
                 (fun r => inject_Z (FrameROI.idx r)) (r0 :: rest)).
Qed.

Lemma rejects_false_iff (rng : MaskProcessor.range) (v : Q) :
  MaskProcessor.rejects rng v = false <-> Spec.in_range rng v.
Proof.
  unfold MaskProcessor.rejects, Spec.in_range.
  destruct rng as [[lo hi] |]; [| tauto].
  rewrite negb_false_iff, andb_true_iff, !Qle_bool_iff. tauto.
Qed.

Lemma filter_rois_as_filter rois ar asr xr yr :
  MaskProcessor.filter_rois rois ar asr xr yr
  = List.filter (Spec.keeps ar asr xr yr) rois.
Proof.
  induction rois as [| r rest IH]; [reflexivity |].
  simpl. unfold Spec.keeps. rewrite IH.
  destruct (MaskProcessor.rejects ar (FrameROI.area r)); [reflexivity |].
  destruct (MaskProcessor.rejects asr (FrameROI.aspect_ratio r));
    [reflexivity |].
  destruct (MaskProcessor.rejects xr (inject_Z (FrameROI.x r)));
    [reflexivity |].
  destruct (MaskProcessor.rejects yr (inject_Z (FrameROI.y r))); reflexivity.
Qed.

(** C8.  [filter_rois] returns, in their input order, exactly the ROIs whose
    area, aspect ratio, x and y lie within the supplied ranges, both bounds
    included; a range that is [None] puts no constraint on its field. *)
Theorem filter_rois_keeps_exactly_the_in_range_rois :
  forall (rois : list FrameROI.t)
         (area_range aspect_range x_range y_range : MaskProcessor.range),
    MaskProcessor.filter_rois rois area_range aspect_range x_range y_range
    = List.filter (Spec.keeps area_range aspect_range x_range y_range) rois
    /\ forall r,
        In r (MaskProcessor.filter_rois rois area_range aspect_range
                                        x_range y_range)
        <-> In r rois
            /\ Spec.in_range area_range (FrameROI.area r)
            /\ Spec.in_range aspect_range (FrameROI.aspect_ratio r)
            /\ Spec.in_range x_range (inject_Z (FrameROI.x r))
            /\ Spec.in_range y_range (inject_Z (FrameROI.y r)).
Proof.
  intros rois ar asr xr yr. split; [apply filter_rois_as_filter |].
  intros r. rewrite filter_rois_as_filter, filter_In.
  unfold Spec.keeps. rewrite !andb_true_iff, !negb_true_iff.
  rewrite !rejects_false_iff. tauto.
Qed.

Module ExtractFacts.

Import MaskProcessor.

(** What the loop of [extract_rois] keeps is what lies in the area bounds. *)
Lemma area_test (self : t) (a : Q) :
  (Py.Qlt_bool a (inject_Z (min_area self))
   || Py.Qlt_bool (inject_Z (max_area self)) a)
  = negb (Spec.area_in_boundsb self a).
Proof.
  unfold Py.Qlt_bool, Spec.area_in_boundsb.
  destruct (Qle_bool (inject_Z (min_area self)) a);
    destruct (Qle_bool a (inject_Z (max_area self))); reflexivity.
Qed.

Lemma area_in_boundsb_iff (self : t) (a : Q) :
  Spec.area_in_boundsb self a = true <-> Spec.area_in_bounds self a.
Proof.
  unfold Spec.area_in_boundsb, Spec.area_in_bounds.
  rewrite andb_true_iff, !Qle_bool_iff. tauto.
Qed.

(** A ROI carries the area and the index it was built with. *)
Lemma make_roi_fields self img mask cnt a i roi :
  make_roi self img mask cnt a i = Py.Ok roi ->
  FrameROI.idx roi = i /\ FrameROI.area roi = a.
Proof.
  unfold make_roi.
  destruct (Cv.boundingRect cnt) as [[[x y] w2] h2].
  cbv zeta.
  destruct (Np.assign_slice set_alpha _ _ _ _ _ _) as [ra | e];
    [| discriminate].
  unfold Py.bind at 1.
  destruct (Np.zeros _ _ _) as [cv | e]; [| discriminate].
  unfold Py.bind at 1.
  destruct (Np.assign_slice _ cv _ _ _ _ _) as [cv' | e]; [| discriminate].
  unfold Py.bind. intros H. injection H as <-. split; reflexivity.
Qed.

Lemma seq_from (i : Z) (n : nat) :
  List.map (fun k => (i + 1 + Z.of_nat k)%Z) (seq 0 n)
  = List.map (fun k => (i + Z.of_nat k)%Z) (seq 1 n).
Proof.
  rewrite <- seq_shift, map_map. apply map_ext.
  intros k. lia.
Qed.

Lemma extract_loop_spec self img mask : forall cnts i rois,
  extract_loop self img mask cnts i = Py.Ok rois ->
  List.map FrameROI.area rois
  = List.filter (Spec.area_in_boundsb self) (List.map Cv.contourArea cnts)
  /\ List.map FrameROI.idx rois
     = List.map (fun k => (i + Z.of_nat k)%Z) (seq 0 (length rois)).
Proof.
  induction cnts as [| cnt rest IH]; intros i rois H.
  - simpl in H. injection H as <-. split; reflexivity.
  - simpl in H. rewrite area_test in H. simpl.
    destruct (Spec.area_in_boundsb self (Cv.contourArea cnt)); simpl in H.
    + destruct (make_roi self img mask cnt (Cv.contourArea cnt) i)
        as [roi | e] eqn:Hroi; [| discriminate H].
      simpl in H.
      destruct (extract_loop self img mask rest (i + 1)) as [rois' | e] eqn:Hl;
        [| discriminate H].
      simpl in H. injection H as <-.
      destruct (make_roi_fields _ _ _ _ _ _ _ Hroi) as [Hi Ha].
      destruct (IH _ _ Hl) as [IHa IHi].
      split.
      * simpl. rewrite Ha, IHa. reflexivity.
      * simpl. rewrite Hi, IHi, seq_from. f_equal. f_equal. lia.
    + apply IH. exact H.
Qed.

Lemma idx_from_one (n : nat) :
  List.map (fun k => (1 + Z.of_nat k)%Z) (seq 0 n)
  = List.map Z.of_nat (seq 1 n).
Proof.
  rewrite <- seq_shift, map_map. apply map_ext. intros k. lia.
Qed.

Lemma seq_strictly_increasing (n : nat) : forall s,
  StronglySorted Z.lt (List.map Z.of_nat (seq s n)).
Proof.
  induction n as [| n IH]; intros s; simpl; constructor.
  - apply IH.
  - apply Forall_forall. intros z Hz.
    apply in_map_iff in Hz. destruct Hz as (k & <- & Hk).
    apply in_seq in Hk. lia.
Qed.

Lemma slice_to_length {A : Type} (l : list A) (k : Z) :
  (0 <= k)%Z -> (Z.of_nat (length (Py.slice_to l k)) <= k)%Z.
Proof.
  intros Hk. unfold Py.slice_to.
  destruct (Z.ltb_spec k 0); [lia |].
  rewrite length_firstn. lia.
Qed.

End ExtractFacts.

Module ShapeFacts.

Import MaskProcessor.

Lemma clamp_zero (n : nat) : Np.clamp n 0 = 0.
Proof. unfold Np.clamp. simpl. reflexivity. Qed.

Lemma clamp_full (n : nat) : Np.clamp n (Z.of_nat n) = n.
Proof.
  unfold Np.clamp. destruct (Z.ltb_spec (Z.of_nat n) 0); lia.
Qed.

Lemma broadcasts_same (h w : nat) : Np.broadcasts h w h w = true.
Proof. unfold Np.broadcasts. rewrite !Nat.eqb_refl. reflexivity. Qed.

Lemma assign_slice_ok {A B : Type} (f : A -> B -> A) (a : Np.ndarray A)
      (r0 r1 c0 c1 : Z) (src : Np.ndarray B) :
  Np.broadcasts (Np.shape0 src) (Np.shape1 src)
                (Np.clamp (Np.shape0 a) r1 - Np.clamp (Np.shape0 a) r0)
                (Np.clamp (Np.shape1 a) c1 - Np.clamp (Np.shape1 a) c0)
  = true ->
  exists a',
    Np.assign_slice f a r0 r1 c0 c1 src = Py.Ok a'
    /\ Np.shape0 a' = Np.shape0 a /\ Np.shape1 a' = Np.shape1 a.
Proof.
  intros H. unfold Np.assign_slice. cbv zeta. rewrite H.
  eexists. split; [reflexivity |]. split; reflexivity.
Qed.

(** The rows (or columns) pasted onto the canvas: the part of the patch
    that is read has the length of the part of the canvas that is written. *)
Lemma paste_extent (n : nat) (out : Z) :
  (0 <= out)%Z ->
  let s := Z.max ((out - Z.of_nat n) / 2) 0 in
  let c := Z.min (Z.of_nat n) (out - s) in
  Np.clamp n c - Np.clamp n 0
  = Np.clamp (Z.to_nat out) (s + c) - Np.clamp (Z.to_nat out) s.
Proof.
  intros Hout s c.
  assert (Hd : (2 * ((out - Z.of_nat n) / 2) <= out - Z.of_nat n)%Z)
    by (apply Z.mul_div_le; lia).
  assert (Hs : (0 <= s <= out)%Z) by (unfold s; lia).
  assert (Hc : (0 <= c)%Z) by (unfold c; lia).
  assert (Hc' : (c <= Z.of_nat n)%Z) by (unfold c; lia).
  assert (Hsc : (s + c <= out)%Z) by (unfold c; lia).
  rewrite clamp_zero. unfold Np.clamp.
  destruct (Z.ltb_spec c 0); [lia |].
  destruct (Z.ltb_spec (s + c) 0); [lia |].
  destruct (Z.ltb_spec s 0); lia.
Qed.

(** Whenever the mask has the shape of the image and the canvas size is not
    negative, building a ROI raises nothing. *)
Lemma make_roi_ok self img mask cnt a i :
  Np.same_shape img mask = true ->
  (0 <= out_width self)%Z -> (0 <= out_height self)%Z ->
  exists roi, make_roi self img mask cnt a i = Py.Ok roi.
Proof.
  intros Hshape Hw Hh.
  apply andb_true_iff in Hshape. destruct Hshape as [H0 H1].
  apply Nat.eqb_eq in H0. apply Nat.eqb_eq in H1.
  unfold make_roi.
  destruct (Cv.boundingRect cnt) as [[[x y] w2] h2]. cbv zeta.
  match goal with
  | |- context [Np.assign_slice set_alpha ?ri ?r0 ?r1 ?c0 ?c1 ?rm] =>
      destruct (assign_slice_ok set_alpha ri r0 r1 c0 c1 rm)
        as (ra & Era & Sra0 & Sra1)
  end.
  { rewrite !clamp_zero, !clamp_full, !Nat.sub_0_r.
    cbn [Np.slice Np.shape0 Np.shape1]. rewrite <- H0, <- H1.
    apply broadcasts_same. }
  rewrite Era. unfold Py.bind at 1.
  unfold Np.zeros.
  destruct (Z.ltb_spec (out_height self) 0); [lia |].
  destruct (Z.ltb_spec (out_width self) 0); [lia |].
  cbn [orb]. unfold Py.bind at 1.
  match goal with
  | |- context [Np.assign_slice ?f ?cv ?r0 ?r1 ?c0 ?c1 ?src] =>
      destruct (assign_slice_ok f cv r0 r1 c0 c1 src)
        as (cv' & Ecv & _ & _)
  end.
  { cbn [Np.slice Np.full Np.shape0 Np.shape1].
    rewrite <- (paste_extent (Np.shape0 ra) (out_height self)) by assumption.
    rewrite <- (paste_extent (Np.shape1 ra) (out_width self)) by assumption.
    apply broadcasts_same. }
  rewrite Ecv. unfold Py.bind. eexists. reflexivity.
Qed.

Lemma extract_loop_ok self img mask :
  Np.same_shape img mask = true ->
  (0 <= out_width self)%Z -> (0 <= out_height self)%Z ->
  forall cnts i, exists rois, extract_loop self img mask cnts i = Py.Ok rois.
Proof.
  intros Hshape Hw Hh. induction cnts as [| cnt rest IH]; intros i.
  - exists []. reflexivity.
  - simpl. destruct (_ || _).
    + apply IH.
    + destruct (make_roi_ok self img mask cnt (Cv.contourArea cnt) i
                            Hshape Hw Hh) as [roi ->].
      destruct (IH (i + 1)%Z) as [rois ->].
      eexists. reflexivity.
Qed.

End ShapeFacts.

(** Whenever the mask has the shape of the image and the canvas size is not
    negative, [extract_rois] returns a list. *)
Lemma extract_rois_returns findContours self img mask :
  Np.same_shape img mask = true ->
  (0 <= MaskProcessor.out_width self)%Z ->
  (0 <= MaskProcessor.out_height self)%Z ->
  exists rois,
    MaskProcessor.extract_rois findContours self img mask = Py.Ok rois.
Proof.
  intros Hshape Hw Hh. unfold MaskProcessor.extract_rois.
  apply ShapeFacts.extract_loop_ok; assumption.
Qed.

Lemma sample_extraction :
  MaskProcessor.extract_rois SampleSheet.findContours SampleSheet.processor
                             SampleSheet.image SampleSheet.mask
  = Py.Ok SampleSheet.rois.
Proof.
  unfold SampleSheet.rois.
  destruct (extract_rois_returns SampleSheet.findContours
              SampleSheet.processor SampleSheet.image SampleSheet.mask)
    as [l ->]; [reflexivity | discriminate | discriminate | reflexivity].
Qed.

(** C4.  The indices that one call of [extract_rois] assigns are 1, 2, 3, ...
    in the order of the returned list, hence strictly increasing from 1; and
    [sort_rois] and [filter_rois] hand back the very ROI values they were
    given (a rearrangement, respectively a sub-list), so the index of every
    ROI is the one extraction gave it. *)
Theorem extraction_indices_are_sequential_and_stable :
  forall (findContours : Mask -> list Cv.Contour) (self : MaskProcessor.t)
         (img : Image) (mask : Mask) (rois : list FrameROI.t),
    MaskProcessor.extract_rois findContours self img mask = Py.Ok rois ->
    List.map FrameROI.idx rois = List.map Z.of_nat (seq 1 (length rois))
    /\ StronglySorted Z.lt (List.map FrameROI.idx rois)
    /\ (forall by_ reverse out,
           MaskProcessor.sort_rois rois by_ reverse = Py.Ok out ->
           Permutation rois out
           /\ forall r, In r out -> In r rois)
    /\ (forall area_range aspect_range x_range y_range,
           MaskProcessor.filter_rois rois area_range aspect_range
                                     x_range y_range
           = List.filter (Spec.keeps area_range aspect_range x_range y_range)
                         rois
           /\ forall r,
               In r (MaskProcessor.filter_rois rois area_range aspect_range
                                               x_range y_range) ->
               In r rois).
Proof.
  intros fc self img mask rois H.
  unfold MaskProcessor.extract_rois in H.
  destruct (ExtractFacts.extract_loop_spec _ _ _ _ _ _ H) as [_ Hidx].
  rewrite ExtractFacts.idx_from_one in Hidx.
  split; [exact Hidx |]. split.
  - rewrite Hidx. apply ExtractFacts.seq_strictly_increasing.
  - split.
    + intros by_ reverse out Hs.
      pose proof (SortFacts.sort_rois_perm _ _ _ _ Hs) as Hp.
      split; [exact Hp |].
      intros r Hr. apply Permutation_sym in Hp.
      apply (Permutation_in _ Hp Hr).
    + intros ar asr xr yr. split; [apply filter_rois_as_filter |].
      intros r. rewrite filter_rois_as_filter, filter_In. tauto.
Qed.

(** The theorem above on the sample sheet. *)
Lemma extraction_indices_are_sequential_and_stable_witness :
  List.map FrameROI.idx SampleSheet.rois
  = List.map Z.of_nat (seq 1 (length SampleSheet.rois)).
Proof.
  exact (proj1 (extraction_indices_are_sequential_and_stable
                  SampleSheet.findContours SampleSheet.processor
                  SampleSheet.image SampleSheet.mask SampleSheet.rois
                  sample_extraction)).
Defined.

(** C5.  With a non-negative [max_extract], [extract_rois] returns at most
    [max_extract] ROIs, each with its area in [[min_area, max_area]], bounds
    included.  The contours are taken in descending order of area, the first
    [max_extract] of them are looked at, and the ROIs returned are, in that
    order, those whose area is in range. *)
Theorem extract_rois_count_and_area_bounds :
  forall (findContours : Mask -> list Cv.Contour) (self : MaskProcessor.t)
         (img : Image) (mask : Mask) (rois : list FrameROI.t),
    MaskProcessor.extract_rois findContours self img mask = Py.Ok rois ->
    (0 <= MaskProcessor.max_extract self)%Z ->
    (Z.of_nat (length rois) <= MaskProcessor.max_extract self)%Z
    /\ Forall (fun r => Spec.area_in_bounds self (FrameROI.area r)) rois
    /\ exists ordered,
        Permutation (findContours mask) ordered
        /\ Sorted (fun a b => (Cv.contourArea b <= Cv.contourArea a)%Q) ordered
        /\ List.map FrameROI.area rois
           = List.filter (Spec.area_in_boundsb self)
               (List.map Cv.contourArea
                  (Py.slice_to ordered (MaskProcessor.max_extract self))).
Proof.
  intros fc self img mask rois H Hmax.
  unfold MaskProcessor.extract_rois in H.
  destruct (ExtractFacts.extract_loop_spec _ _ _ _ _ _ H) as [Harea _].
  split; [| split].
  - rewrite <- (length_map FrameROI.area), Harea.
    eapply Z.le_trans; [| apply (ExtractFacts.slice_to_length
                                   (Py.sorted Qle_bool Cv.contourArea true
                                              (fc mask)) _ Hmax)].
    apply Nat2Z.inj_le.
    eapply Nat.le_trans; [apply filter_length_le |].
    rewrite length_map. apply Nat.le_refl.
  - apply Forall_forall. intros r Hr.
    apply ExtractFacts.area_in_boundsb_iff.
    assert (Hin : In (FrameROI.area r) (List.map FrameROI.area rois))
      by (apply in_map; exact Hr).
    rewrite Harea in Hin. apply filter_In in Hin. apply Hin.
  - exists (Py.sorted Qle_bool Cv.contourArea true (fc mask)).
    split; [apply SortFacts.sorted_perm |].
    split; [apply SortFacts.sorted_descending | exact Harea].
Qed.

(** The theorem above on the sample sheet, where [max_extract] is 2. *)
Lemma extract_rois_count_and_area_bounds_witness :
  (Z.of_nat (length SampleSheet.rois) <= 2)%Z
  /\ Forall (fun r => Spec.area_in_bounds SampleSheet.processor
                                          (FrameROI.area r))
            SampleSheet.rois.
Proof.
  assert (Hmax : (0 <= MaskProcessor.max_extract SampleSheet.processor)%Z)
    by (unfold SampleSheet.processor; simpl; lia).
  destruct (extract_rois_count_and_area_bounds
              SampleSheet.findContours SampleSheet.processor
              SampleSheet.image SampleSheet.mask SampleSheet.rois
              sample_extraction Hmax) as (H1 & H2 & _).
  split; [exact H1 | exact H2].
Defined.

(* ===================================================================== *)
(** * Properties of [gen_mask]                                            *)
(* ===================================================================== *)

Module MaskFacts.

Lemma fold_min_binary (l : list Z) :
  Forall Spec.binary l -> Spec.binary (fold_right Z.min 255%Z l).
Proof.
  unfold Spec.binary. induction 1 as [| v t Hv _ IH]; simpl.
  - right. reflexivity.
  - destruct Hv as [-> | ->], IH as [-> | ->]; simpl; auto.
Qed.

Lemma fold_max_binary (l : list Z) :
  Forall Spec.binary l -> Spec.binary (fold_right Z.max 0%Z l).
Proof.
  unfold Spec.binary. induction 1 as [| v t Hv _ IH]; simpl.
  - left. reflexivity.
  - destruct Hv as [-> | ->], IH as [-> | ->]; simpl; auto.
Qed.

(** The window only ever reads pixels of the image. *)
Lemma neighbours_binary (k : nat) (src : Mask) (i j : nat) :
  Np.all_cells Spec.binary src ->
  Forall Spec.binary (Cv.neighbours k src i j).
Proof.
  intros Hall. apply Forall_forall. intros v Hv.
  unfold Cv.neighbours in Hv. apply in_flat_map in Hv.
  destruct Hv as (d & _ & Hd).
  destruct (_ && _) eqn:E in Hd; [| contradiction].
  destruct Hd as [<- | []].
  rewrite !andb_true_iff in E. destruct E as (((E1 & E2) & E3) & E4).
  apply Z.leb_le in E1, E3. apply Z.ltb_lt in E2, E4.
  apply Hall; lia.
Qed.

Lemma erode1_binary (k : nat) (src : Mask) :
  Np.all_cells Spec.binary src -> Np.all_cells Spec.binary (Cv.erode1 k src).
Proof.
  intros Hall i j _ _. apply fold_min_binary, neighbours_binary, Hall.
Qed.

Lemma dilate1_binary (k : nat) (src : Mask) :
  Np.all_cells Spec.binary src -> Np.all_cells Spec.binary (Cv.dilate1 k src).
Proof.
  intros Hall i j _ _. apply fold_max_binary, neighbours_binary, Hall.
Qed.

Lemma iter_binary (f : Mask -> Mask) (n : nat) (src : Mask) :
  (forall m, Np.all_cells Spec.binary m -> Np.all_cells Spec.binary (f m)) ->
  Np.all_cells Spec.binary src ->
  Np.all_cells Spec.binary (Nat.iter n f src).
Proof.
  intros Hf Hsrc. induction n as [| n IH]; simpl; auto.
Qed.

Lemma iter_shape (f : Mask -> Mask) (n : nat) (src : Mask) :
  (forall m, Np.shape0 (f m) = Np.shape0 m /\ Np.shape1 (f m) = Np.shape1 m) ->
  Np.shape0 (Nat.iter n f src) = Np.shape0 src
  /\ Np.shape1 (Nat.iter n f src) = Np.shape1 src.
Proof.
  intros Hf. induction n as [| n IH]; simpl; [auto |].
  destruct (Hf (Nat.iter n f src)) as [-> ->]. exact IH.
Qed.

(** Closing and opening produce no value that was not in the image. *)
Lemma morphologyEx_binary (src : Mask) (op : Cv.morph_op) (k : nat) (n : Z) :
  Np.all_cells Spec.binary src ->
  Np.all_cells Spec.binary (Cv.morphologyEx src op k n).
Proof.
  intros Hsrc. unfold Cv.morphologyEx. cbv zeta.
  destruct (_ || _); [exact Hsrc |].
  destruct op; repeat apply iter_binary;
    auto using erode1_binary, dilate1_binary.
Qed.

Lemma morphologyEx_shape (src : Mask) (op : Cv.morph_op) (k : nat) (n : Z) :
  Np.shape0 (Cv.morphologyEx src op k n) = Np.shape0 src
  /\ Np.shape1 (Cv.morphologyEx src op k n) = Np.shape1 src.
Proof.
  unfold Cv.morphologyEx. cbv zeta.
  destruct (_ || _); [auto |].
  destruct op.
  - destruct (iter_shape (Cv.erode1 (if k =? 0 then 3 else k)) (Z.to_nat n)
                (Nat.iter (Z.to_nat n) (Cv.dilate1 (if k =? 0 then 3 else k)) src))
      as [-> ->]; [intros m; split; reflexivity |].
    apply iter_shape. intros m; split; reflexivity.
  - destruct (iter_shape (Cv.dilate1 (if k =? 0 then 3 else k)) (Z.to_nat n)
                (Nat.iter (Z.to_nat n) (Cv.erode1 (if k =? 0 then 3 else k)) src))
      as [-> ->]; [intros m; split; reflexivity |].
    apply iter_shape. intros m; split; reflexivity.
Qed.

(** Indexing a non-empty axis at the probes of [get_bg_samples] succeeds. *)
Lemma index_ok (n : nat) (i : Z) :
  (- Z.of_nat n <= i < Z.of_nat n)%Z -> exists r, Np.index n i = Py.Ok r.
Proof.
  intros H. unfold Np.index.
  destruct ((0 <=? i)%Z && (i <? Z.of_nat n)%Z) eqn:E; [eauto |].
  destruct ((- Z.of_nat n <=? i)%Z && (i <? 0)%Z) eqn:E'; [eauto |].
  rewrite andb_false_iff, Z.leb_gt, Z.ltb_ge in E, E'. lia.
Qed.

Lemma get_ok {A : Type} (a : Np.ndarray A) (i j : Z) :
  (- Z.of_nat (Np.shape0 a) <= i < Z.of_nat (Np.shape0 a))%Z ->
  (- Z.of_nat (Np.shape1 a) <= j < Z.of_nat (Np.shape1 a))%Z ->
  exists v, Np.get a i j = Py.Ok v.
Proof.
  intros Hi Hj. unfold Np.get.
  destruct (index_ok _ _ Hi) as [r ->]. destruct (index_ok _ _ Hj) as [c ->].
  simpl. eauto.
Qed.

Lemma get_bg_samples_ok (img : Image) :
  0 < Np.shape0 img -> 0 < Np.shape1 img ->
  exists s, MaskProcessor.get_bg_samples img = Py.Ok s.
Proof.
  intros H0 H1. unfold MaskProcessor.get_bg_samples. cbv zeta.
  assert (Hh : (0 <= Z.of_nat (Np.shape0 img) / 2 < Z.of_nat (Np.shape0 img))%Z).
  { split; [apply Z.div_pos; lia | apply Z.div_lt; lia]. }
  assert (Hw : (0 <= Z.of_nat (Np.shape1 img) / 2 < Z.of_nat (Np.shape1 img))%Z).
  { split; [apply Z.div_pos; lia | apply Z.div_lt; lia]. }
  destruct (get_ok img 0 0) as [s1 ->]; try lia.
  destruct (get_ok img 0 (-1)) as [s2 ->]; try lia.
  destruct (get_ok img (-1) 0) as [s3 ->]; try lia.
  destruct (get_ok img (-1) (-1)) as [s4 ->]; try lia.
  destruct (get_ok img (Z.of_nat (Np.shape0 img) / 2) 0) as [s5 ->]; try lia.
  destruct (get_ok img 0 (Z.of_nat (Np.shape1 img) / 2)) as [s6 ->]; try lia.
  destruct (get_ok img (Z.of_nat (Np.shape0 img) / 2)
                   (Z.of_nat (Np.shape1 img) / 2)) as [s7 ->]; try lia.
  simpl. eauto.
Qed.

Lemma index_raises (n : nat) (i : Z) (e : Py.exn) :
  Np.index n i = Py.Raise e -> e = Py.IndexError.
Proof.
  unfold Np.index.
  destruct (_ && _); [discriminate |].
  destruct (_ && _); [discriminate |].
  intros H. injection H as <-. reflexivity.
Qed.

(** On an axis of length zero every index is out of range. *)
Lemma get_bg_samples_empty (img : Image) :
  Np.shape0 img = 0 \/ Np.shape1 img = 0 ->
  MaskProcessor.get_bg_samples img = Py.Raise Py.IndexError.
Proof.
  intros H. unfold MaskProcessor.get_bg_samples. cbv zeta.
  assert (E : Np.get img 0 0 = Py.Raise Py.IndexError).
  { unfold Np.get.
    destruct H as [H | H].
    - rewrite H. reflexivity.
    - rewrite H. destruct (Np.index (Np.shape0 img) 0) as [r | e] eqn:Er.
      + reflexivity.
      + apply index_raises in Er. rewrite Er. reflexivity. }
  rewrite E. reflexivity.
Qed.

End MaskFacts.

(** C3, as stated, fails: on an image of height zero [gen_mask] is not
    refused by a check of the code; it stops on the out-of-range index of
    the first background probe. *)
Lemma gen_mask_zero_area_is_index_error :
  MaskProcessor.gen_mask MaskProcessor.default
    (Np.full 0 4 (mk_rgba 0 0 0 0))
  = Py.Raise Py.IndexError
  /\ ~ SpecText.rejected_as_invalid_input
       (MaskProcessor.gen_mask MaskProcessor.default
          (Np.full 0 4 (mk_rgba 0 0 0 0))).
Proof.
  split; [reflexivity |].
  intros (e & He & Hne). apply Hne.
  change (Py.Raise Py.IndexError = Py.Raise (A := Mask) e) in He.
  injection He as <-. reflexivity.
Qed.

(** C3 (amended).  For every image of zero height or zero width [gen_mask]
    returns no mask: it raises the [IndexError] of the first background
    probe, whatever the parameters are, before any distance is computed. *)
Theorem gen_mask_zero_area_raises_index_error :
  forall (self : MaskProcessor.t) (img : Image),
    Np.shape0 img = 0 \/ Np.shape1 img = 0 ->
    MaskProcessor.gen_mask self img = Py.Raise Py.IndexError.
Proof.
  intros self img H. unfold MaskProcessor.gen_mask.
  rewrite (MaskFacts.get_bg_samples_empty img H). reflexivity.
Qed.

(** The theorem above at an image of width zero. *)
Lemma gen_mask_zero_area_raises_index_error_witness :
  MaskProcessor.gen_mask MaskProcessor.default
    (Np.full 3 0 (mk_rgba 0 0 0 0))
  = Py.Raise Py.IndexError.
Proof.
  apply gen_mask_zero_area_raises_index_error. right. reflexivity.
Defined.

(** C6.  Whatever the image and the parameters, a mask that [gen_mask]
    returns has the shape of the image and holds only the values 0 and 255;
    and [gen_mask] does return a mask for every image of non-zero area when
    the kernel size is not negative. *)
Theorem gen_mask_is_binary :
  forall (self : MaskProcessor.t) (img : Image),
    (forall m,
        MaskProcessor.gen_mask self img = Py.Ok m ->
        Np.all_cells Spec.binary m
        /\ Np.shape0 m = Np.shape0 img /\ Np.shape1 m = Np.shape1 img)
    /\ (0 < Np.shape0 img -> 0 < Np.shape1 img ->
        (0 <= MaskProcessor.kernel_size self)%Z ->
        exists m, MaskProcessor.gen_mask self img = Py.Ok m).
Proof.
  intros self img. split.
  - intros m H. unfold MaskProcessor.gen_mask in H.
    destruct (MaskProcessor.get_bg_samples img) as [s | e]; [| discriminate H].
    unfold Py.bind at 1 in H. cbv zeta in H.
    destruct (MaskProcessor.ones_kernel _) as [k | e]; [| discriminate H].
    unfold Py.bind in H. injection H as <-.
    split.
    + apply MaskFacts.morphologyEx_binary, MaskFacts.morphologyEx_binary.
      intros i j _ _. cbn [Np.map Np.cell].
      destruct (MaskProcessor.exceeds _ _); [right | left]; reflexivity.
    + repeat match goal with
             | |- context [Np.shape0 (Cv.morphologyEx ?a ?o ?k' ?n)] =>
                 destruct (MaskFacts.morphologyEx_shape a o k' n) as [-> ->]
             end.
      split; reflexivity.
  - intros H0 H1 Hk. unfold MaskProcessor.gen_mask.
    destruct (MaskFacts.get_bg_samples_ok img H0 H1) as [s ->].
    unfold Py.bind at 1. cbv zeta. unfold MaskProcessor.ones_kernel.
    destruct (Z.ltb_spec (MaskProcessor.kernel_size self) 0); [lia |].
    unfold Py.bind. eexists. reflexivity.
Qed.

(** The theorem above on the sample sheet with the default parameters. *)
Lemma gen_mask_is_binary_witness :
  exists m,
    MaskProcessor.gen_mask MaskProcessor.default SampleSheet.image = Py.Ok m
    /\ Np.all_cells Spec.binary m.
Proof.
  destruct (gen_mask_is_binary MaskProcessor.default SampleSheet.image)
    as [Hbin Hret].
  destruct Hret as [m Hm].
  - simpl. lia.
  - simpl. lia.
  - simpl. lia.
  - exists m. split; [exact Hm |]. apply (Hbin m Hm).
Defined.

(* ===================================================================== *)
(** * Properties of [render_filename]                                     *)
(* ===================================================================== *)

Module TextFacts.

Import MaskProcessor.

Lemma has_invalid_app (a b : string) :
  SpecText.has_invalid (a ++ b)
  = SpecText.has_invalid a || SpecText.has_invalid b.
Proof.
  induction a as [| c a IH]; simpl; [reflexivity |].
  rewrite IH, orb_assoc. reflexivity.
Qed.

Lemma has_invalid_sanitize (s : string) :
  SpecText.has_invalid (sanitize s) = false.
Proof.
  induction s as [| c s IH]; simpl; [reflexivity |].
  rewrite IH, orb_false_r.
  destruct (is_invalid c) eqn:E; [reflexivity | exact E].
Qed.

Lemma has_invalid_substring (s : string) : forall n m,
  SpecText.has_invalid s = false ->
  SpecText.has_invalid (String.substring n m s) = false.
Proof.
  induction s as [| c s IH]; intros n m H.
  - destruct n, m; reflexivity.
  - simpl in H. apply orb_false_iff in H. destruct H as [Hc Hs].
    destruct n as [| n]; simpl.
    + destruct m as [| m]; simpl; [reflexivity |].
      rewrite Hc. apply IH. exact Hs.
    + apply IH. exact Hs.
Qed.

Lemma has_invalid_splitext_base (s : string) :
  SpecText.has_invalid s = false ->
  SpecText.has_invalid (fst (splitext s)) = false.
Proof.
  intros H. unfold splitext.
  destruct (rfind_dot s) as [d |]; [| exact H].
  destruct (all_dots d s); [exact H |].
  simpl. apply has_invalid_substring. exact H.
Qed.

Lemma lower_app (a b : string) : lower (a ++ b) = (lower a ++ lower b)%string.
Proof.
  induction a as [| c a IH]; simpl; [reflexivity |].
  rewrite IH. reflexivity.
Qed.

Lemma endswith_app (a t : string) : endswith (a ++ t) t = true.
Proof.
  induction a as [| c a IH]; simpl.
  - destruct t as [| c t]; [reflexivity |].
    change (((String c t =? String c t)%string
             || endswith t (String c t)) = true).
    rewrite String.eqb_refl. reflexivity.
  - rewrite IH. apply orb_true_r.
Qed.

Section Rendering.

Variable py_str : value -> string.
Variable py_format : value -> string -> Py.result string.

(** One pass of the loop body never raises. *)
Lemma render_step_returns roi st m :
  exists st', render_step py_str py_format roi st m = Py.Ok st'.
Proof.
  unfold render_step. destruct st as [name log].
  destruct (dict_get _ _) as [a |]; [| eauto].
  destruct (getattr roi a) as [v |]; [| eauto].
  destruct (substitute _ _ _ _ _); eauto.
Qed.

Lemma render_loop_returns roi ms : forall st,
  exists st', render_loop py_str py_format roi st ms = Py.Ok st'.
Proof.
  induction ms as [| m rest IH]; intros st; simpl; [eauto |].
  destruct (render_step_returns roi st m) as [st' ->]. simpl. apply IH.
Qed.

(** The finished name holds no invalid character and ends in [.png] up to
    the case of the letters. *)
Lemma finish_name_legal (s : string) :
  SpecText.has_invalid (finish_name s) = false.
Proof.
  unfold finish_name. cbv zeta.
  destruct (negb (has_dot _)).
  - rewrite has_invalid_app, has_invalid_sanitize. reflexivity.
  - destruct (negb (endswith _ _)).
    + rewrite has_invalid_app, has_invalid_splitext_base;
        [reflexivity | apply has_invalid_sanitize].
    + apply has_invalid_sanitize.
Qed.

Lemma finish_name_png (s : string) :
  endswith (lower (finish_name s)) ".png" = true.
Proof.
  unfold finish_name. cbv zeta.
  destruct (negb (has_dot _)).
  - rewrite lower_app. apply endswith_app.
  - destruct (endswith (lower (sanitize s)) ".png") eqn:E; simpl.
    + exact E.
    + rewrite lower_app. apply endswith_app.
Qed.

End Rendering.

End TextFacts.

Module NameSpecFacts.

Import MaskProcessor.

Lemma app_empty_r (a : string) : (a ++ EmptyString)%string = a.
Proof. induction a as [| d a IH]; simpl; [| rewrite IH]; reflexivity. Qed.

(** [sanitize] replaces the illegal characters, and those only. *)
Lemma sanitize_underscored (text : string) :
  SpecName.underscored text (sanitize text).
Proof.
  split.
  - induction text as [| c s IH]; simpl; [| rewrite IH]; reflexivity.
  - induction text as [| d s IH]; intros i c H; [discriminate H |].
    destruct i as [| i]; simpl in *.
    + injection H as ->. reflexivity.
    + apply IH. exact H.
Qed.

Lemma has_dot_false (s : string) : has_dot s = false -> SpecName.no_dot s.
Proof.
  induction s as [| c s IH]; intros H i Hi; [discriminate Hi |].
  simpl in H. apply orb_false_iff in H. destruct H as [Hc Hs].
  destruct i as [| i]; simpl in Hi.
  - injection Hi as ->. discriminate Hc.
  - exact (IH Hs i Hi).
Qed.

Lemma rfind_dot_none (s : string) : rfind_dot s = None -> has_dot s = false.
Proof.
  induction s as [| c s IH]; intros H; [reflexivity |].
  simpl in *. destruct (rfind_dot s); [discriminate H |].
  destruct (is_char c "."); [discriminate H |].
  simpl. apply IH. reflexivity.
Qed.

(** The last dot splits the string into what precedes it and a rest
    without dots. *)
Lemma rfind_dot_some (s : string) : forall d,
  rfind_dot s = Some d ->
  exists stem e,
    s = (stem ++ String "." e)%string /\ String.length stem = d
    /\ has_dot e = false.
Proof.
  induction s as [| c s IH]; intros d H; [discriminate H |].
  simpl in H. destruct (rfind_dot s) as [i |] eqn:E.
  - injection H as <-. destruct (IH i eq_refl) as (stem & e & -> & Hl & He).
    exists (String c stem), e. simpl. rewrite Hl. repeat split. exact He.
  - destruct (is_char c ".") eqn:Ec; [| discriminate H].
    injection H as <-. exists EmptyString, s. simpl.
    unfold is_char in Ec. apply Ascii.eqb_eq in Ec. subst c.
    repeat split. apply rfind_dot_none. exact E.
Qed.

Lemma substring_stem (stem t : string) :
  String.substring 0 (String.length stem) (stem ++ t) = stem.
Proof.
  induction stem as [| c stem IH]; simpl.
  - destruct t; reflexivity.
  - rewrite IH. reflexivity.
Qed.

Lemma substring_all (t : string) :
  String.substring 0 (String.length t) t = t.
Proof. induction t as [| c t IH]; simpl; [| rewrite IH]; reflexivity. Qed.

Lemma substring_rest (stem t : string) :
  String.substring (String.length stem)
                   (String.length (stem ++ t) - String.length stem)
                   (stem ++ t) = t.
Proof.
  induction stem as [| c stem IH]; simpl.
  - rewrite Nat.sub_0_r. apply substring_all.
  - exact IH.
Qed.

Lemma all_dots_stem (stem t : string) :
  all_dots (String.length stem) (stem ++ t) = true <-> SpecName.only_dots stem.
Proof.
  induction stem as [| c stem IH]; simpl.
  - split; [intros _ i c H; discriminate H | reflexivity].
  - rewrite andb_true_iff, IH. unfold is_char. rewrite Ascii.eqb_eq. split.
    + intros [-> H] i d Hi. destruct i as [| i]; simpl in Hi.
      * injection Hi as <-. reflexivity.
      * exact (H i d Hi).
    + intros H. split; [exact (H 0 c eq_refl) |].
      intros i d Hi. exact (H (S i) d Hi).
Qed.

(** [splitext] splits at the last dot, as [os.path.splitext] does. *)
Lemma splitext_split_ext (s : string) :
  SpecName.split_ext s (fst (splitext s)) (snd (splitext s)).
Proof.
  unfold splitext. destruct (rfind_dot s) as [d |] eqn:E.
  - destruct (rfind_dot_some s d E) as (stem & e & -> & <- & He).
    destruct (all_dots (String.length stem) (stem ++ String "." e)) eqn:Ea.
    + simpl. split; [symmetry; apply app_empty_r |].
      left. split; [reflexivity |]. right. exists stem, e.
      split; [reflexivity |]. split; [apply has_dot_false; exact He |].
      apply (all_dots_stem stem (String "." e)). exact Ea.
    + cbn [fst snd]. rewrite substring_stem, substring_rest.
      split; [reflexivity |]. right. exists e.
      split; [reflexivity |]. split; [apply has_dot_false; exact He |].
      intros H. apply (all_dots_stem stem (String "." e)) in H. congruence.
  - simpl. split; [symmetry; apply app_empty_r |].
    left. split; [reflexivity |]. left.
    apply has_dot_false, rfind_dot_none. exact E.
Qed.

(** The extension that [splitext] returns holds a dot unless it is empty. *)
Lemma splitext_ext_dot (s : string) :
  has_dot (snd (splitext s)) = false <-> snd (splitext s) = EmptyString.
Proof.
  destruct (splitext_split_ext s) as [_ [[-> _] | (e & -> & _)]].
  - split; reflexivity.
  - simpl. split; intros H; discriminate H.
Qed.

Lemma endswith_iff (s t : string) :
  endswith s t = true <-> exists stem, s = (stem ++ t)%string.
Proof.
  induction s as [| c s IH].
  - change (endswith EmptyString t)
      with ((EmptyString =? t)%string || false).
    rewrite orb_false_r, String.eqb_eq. split.
    + intros <-. exists EmptyString. reflexivity.
    + intros [stem H]. destruct stem; [exact H | discriminate H].
  - change (endswith (String c s) t)
      with ((String c s =? t)%string || endswith s t).
    rewrite orb_true_iff, String.eqb_eq, IH. split.
    + intros [<- | [stem ->]].
      * exists EmptyString. reflexivity.
      * exists (String c stem). reflexivity.
    + intros [stem H]. destruct stem as [| d stem].
      * left. exact H.
      * right. injection H as _ ->. exists stem. reflexivity.
Qed.

Lemma lower_split (s : string) : forall a b,
  lower s = (a ++ b)%string ->
  exists sa sb, s = (sa ++ sb)%string /\ lower sa = a /\ lower sb = b.
Proof.
  induction s as [| c s IH]; intros a b H.
  - destruct a; [| discriminate H]. simpl in H. subst b.
    exists EmptyString, EmptyString. repeat split.
  - destruct a as [| d a].
    + simpl in H. subst b. exists EmptyString, (String c s). repeat split.
    + simpl in H. injection H as <- H.
      destruct (IH a b H) as (sa & sb & -> & <- & <-).
      exists (String c sa), sb. repeat split.
Qed.

(** The test [rendered_name.lower().endswith('.png')]. *)
Lemma endswith_lower_png (s : string) :
  endswith (lower s) ".png" = true <-> SpecName.ends_in_png s.
Proof.
  rewrite endswith_iff. unfold SpecName.ends_in_png. split.
  - intros [stem H]. destruct (lower_split s _ _ H) as (sa & sb & -> & _ & Hb).
    exists sa, sb. split; [reflexivity | exact Hb].
  - intros (stem & e & -> & He). exists (lower stem).
    rewrite TextFacts.lower_app, He. reflexivity.
Qed.

(** The tail of [render_filename] is the suffix rule applied to the
    sanitised name. *)
Lemma finish_name_suffixed (text : string) :
  SpecName.suffixed (sanitize text) (finish_name text).
Proof.
  unfold finish_name. cbv zeta.
  set (s := sanitize text).
  exists (fst (splitext s)), (snd (splitext s)).
  split; [apply splitext_split_ext |].
  destruct (has_dot (snd (splitext s))) eqn:Ed; cbn [negb].
  - assert (Hne : snd (splitext s) <> EmptyString).
    { intros H. apply splitext_ext_dot in H. congruence. }
    destruct (endswith (lower s) ".png") eqn:Ee; cbn [negb].
    + right. left. split; [exact Hne |].
      split; [apply endswith_lower_png; exact Ee | reflexivity].
    + right. right. split; [exact Hne |]. split; [| reflexivity].
      intros H. apply endswith_lower_png in H. congruence.
  - left. split; [apply splitext_ext_dot; exact Ed | reflexivity].
Qed.

Section Rendering.

Variable py_str : value -> string.
Variable py_format : value -> string -> Py.result string.

(** The loop body deals with one placeholder and logs its warning. *)
Lemma render_step_spec roi name log m :
  render_step py_str py_format roi (name, log) m
  = Py.Ok (SpecName.substitute_one py_str py_format roi name m,
           (log ++ SpecName.warning py_format roi m)%list).
Proof.
  unfold render_step, SpecName.substitute_one, SpecName.warning,
    SpecName.field, substitute, SpecName.written, SpecName.refused.
  destruct (dict_get _ _) as [a |]; [| reflexivity].
  destruct (getattr roi a) as [v |]; [| reflexivity].
  destruct (group2 m) as [spec |].
  - destruct (py_format v spec); simpl; [rewrite app_nil_r |]; reflexivity.
  - simpl. rewrite app_nil_r. reflexivity.
Qed.

(** The loop deals with the placeholders from left to right. *)
Lemma render_loop_spec roi ms : forall name log,
  render_loop py_str py_format roi (name, log) ms
  = Py.Ok (fold_left (SpecName.substitute_one py_str py_format roi) ms name,
           (log ++ flat_map (SpecName.warning py_format roi) ms)%list).
Proof.
  induction ms as [| m rest IH]; intros name log.
  - simpl. rewrite app_nil_r. reflexivity.
  - cbn [render_loop]. rewrite render_step_spec. unfold Py.bind.
    rewrite IH. cbn [fold_left flat_map]. rewrite <- app_assoc. reflexivity.
Qed.

End Rendering.

End NameSpecFacts.

(** C7, as stated, fails on the suffix: a template that already ends in a
    differently cased [.PNG] is returned as it is. *)
Lemma render_filename_keeps_uppercase_png :
  MaskProcessor.render_filename SampleText.py_str SampleText.py_format
                                "x.PNG" SampleText.roi7
  = Py.Ok ("x.PNG"%string, [])
  /\ MaskProcessor.endswith "x.PNG" ".png" = false.
Proof. split; reflexivity. Qed.

(** A placeholder that is not recognised is skipped, but the text inside
    it is not protected: the later placeholder [X] is replaced there too. *)
Lemma render_filename_rewrites_inside_a_skipped_placeholder :
  MaskProcessor.render_filename SampleText.py_str SampleText.py_format
                                "[foo:[X]][X]" SampleText.roi7
  = Py.Ok ("[foo_3]3.png"%string,
           [MaskProcessor.UnknownPlaceholderWarning "[foo:[X]"]).
Proof. reflexivity. Qed.

(** C7 (amended).  [render_filename] never raises, whatever [str] and
    [format] do, and this is what it returns for every template and frame.
    The placeholders of the template are dealt with from left to right: one
    that is not recognised is skipped and logged; a recognised one is
    replaced, wherever its text occurs in the name rendered so far, by the
    formatted value, or by [str] of the value when there is no specifier or
    [format] refuses it, the refusal being logged.  In the text that
    results every character that is illegal in a file name is replaced by
    an underscore, and the suffix rule is applied: [.png] is added to a
    name without extension, a name ending in [.png] in any case is kept,
    and any other extension is replaced by [.png].  The name returned so
    holds no illegal character and ends in [.png] up to the case of the
    letters; and a template whose placeholders are all unrecognised goes
    into sanitising as it is. *)
Theorem render_filename_never_raises :
  forall (py_str : MaskProcessor.value -> string)
         (py_format : MaskProcessor.value -> string -> Py.result string)
         (template : string) (roi : FrameROI.t),
    exists name log clean,
      MaskProcessor.render_filename py_str py_format template roi
      = Py.Ok (name, log)
      /\ log = SpecName.warnings py_format roi template
      /\ SpecName.underscored
           (SpecName.substituted py_str py_format roi template) clean
      /\ SpecName.suffixed clean name
      /\ SpecText.has_invalid name = false
      /\ MaskProcessor.endswith (MaskProcessor.lower name) ".png" = true
      /\ ((forall m, In m (MaskProcessor.finditer template) ->
                     SpecName.field roi m = None) ->
          SpecName.substituted py_str py_format roi template = template
          /\ log = List.map (fun m => MaskProcessor.UnknownPlaceholderWarning
                                        (MaskProcessor.group0 m))
                            (MaskProcessor.finditer template)).
Proof.
  intros py_str py_format template roi.
  exists (MaskProcessor.finish_name
            (SpecName.substituted py_str py_format roi template)),
    (SpecName.warnings py_format roi template),
    (MaskProcessor.sanitize
       (SpecName.substituted py_str py_format roi template)).
  split.
  { unfold MaskProcessor.render_filename.
    rewrite NameSpecFacts.render_loop_spec. reflexivity. }
  split; [reflexivity |].
  split; [apply NameSpecFacts.sanitize_underscored |].
  split; [apply NameSpecFacts.finish_name_suffixed |].
  split; [apply TextFacts.finish_name_legal |].
  split; [apply TextFacts.finish_name_png |].
  intros Hun. unfold SpecName.substituted, SpecName.warnings.
  generalize template at 2 3.
  induction (MaskProcessor.finditer template) as [| m ms IH]; intros text.
  - split; reflexivity.
  - cbn [fold_left flat_map List.map].
    assert (Hm : SpecName.field roi m = None) by (apply Hun; left; reflexivity).
    unfold SpecName.substitute_one at 2. unfold SpecName.warning at 1.
    rewrite Hm.
    destruct (IH (fun m' H => Hun m' (or_intror H)) text) as [E1 E2].
    split; [exact E1 |]. cbn [app]. f_equal. exact E2.
Qed.

(** The theorem above on the frame with index 7, for a template with a
    specifier that [format] refuses, an unknown placeholder, an illegal
    character and a foreign extension. *)
Lemma render_filename_never_raises_witness :
  MaskProcessor.render_filename SampleText.py_str SampleText.py_format
                                "[索引:zz][foo]?.jpg" SampleText.roi7
  = Py.Ok ("7[foo]_.png"%string,
           [MaskProcessor.FormatWarning "[索引:zz]";
            MaskProcessor.UnknownPlaceholderWarning "[foo]"])
  /\ SpecName.substituted SampleText.py_str SampleText.py_format
                          SampleText.roi7 "[索引:zz][foo]?.jpg"
     = "7[foo]?.jpg"%string
  /\ SpecName.suffixed "7[foo]_.jpg" "7[foo]_.png".
Proof.
  destruct (render_filename_never_raises
              SampleText.py_str SampleText.py_format
              "[索引:zz][foo]?.jpg"%string SampleText.roi7)
    as (name & log & clean & E & Hlog & Hclean & Hsuffix & _).
  assert (Hrun : MaskProcessor.render_filename
                   SampleText.py_str SampleText.py_format
                   "[索引:zz][foo]?.jpg" SampleText.roi7
                 = Py.Ok ("7[foo]_.png"%string, log))
    by (rewrite Hlog; reflexivity).
  rewrite Hrun in E. injection E as <-.
  assert (Hc : clean = "7[foo]_.jpg"%string).
  { destruct Hclean as [Hlen Hget].
    change (SpecName.substituted SampleText.py_str SampleText.py_format
                                 SampleText.roi7 "[索引:zz][foo]?.jpg")
      with "7[foo]?.jpg"%string in Hlen, Hget.
    pose proof (Hget 0 _ eq_refl) as G0. pose proof (Hget 1 _ eq_refl) as G1.
    pose proof (Hget 2 _ eq_refl) as G2. pose proof (Hget 3 _ eq_refl) as G3.
    pose proof (Hget 4 _ eq_refl) as G4. pose proof (Hget 5 _ eq_refl) as G5.
    pose proof (Hget 6 _ eq_refl) as G6. pose proof (Hget 7 _ eq_refl) as G7.
    pose proof (Hget 8 _ eq_refl) as G8. pose proof (Hget 9 _ eq_refl) as G9.
    pose proof (Hget 10 _ eq_refl) as G10.
    clear Hget Hsuffix.
    repeat (destruct clean as [| ? clean]; [discriminate Hlen |]).
    destruct clean; [| discriminate Hlen].
    simpl in G0, G1, G2, G3, G4, G5, G6, G7, G8, G9, G10.
    congruence. }
  subst clean.
  split; [reflexivity |]. split; [reflexivity | exact Hsuffix].
Defined.

(* ===================================================================== *)
(** * Properties of marker segmentation                                   *)
(* ===================================================================== *)

Module EditorFacts.

Import MaskEditWidget.

Lemma mode_eqb_eq (a b : mode_t) : mode_eqb a b = true -> a = b.
Proof. destruct a, b; simpl; intros H; try discriminate H; reflexivity. Qed.

(** After [set_mode] the editor is in the mode asked for. *)
Lemma set_mode_mode self m : mode (set_mode self m) = m.
Proof.
  unfold set_mode. destruct (mode_eqb m (mode self)) eqn:E.
  - symmetry. apply mode_eqb_eq. exact E.
  - destruct m; try reflexivity.
    match goal with
    | |- context [match ?o with Some _ => _ | None => _ end] =>
        destruct o; reflexivity
    end.
Qed.

End EditorFacts.

(** C2, as stated, fails: run from marker mode without any seed, the action
    shows its warning and returns at once, so the editor is still in marker
    mode and still holds the label map. *)
Lemma run_watershed_without_seeds_stays_in_marker_mode :
  MaskEditWidget.mode SampleEditor.marking = MaskEditWidget.watershed_mark
  /\ MaskEditWidget.mode
       (MaskEditWidget.run_watershed_segmentation
          SampleEditor.cv2_resize SampleEditor.cv2_watershed
          SampleEditor.marking)
     = MaskEditWidget.watershed_mark
  /\ MaskEditWidget.watershed_markers
       (MaskEditWidget.run_watershed_segmentation
          SampleEditor.cv2_resize SampleEditor.cv2_watershed
          SampleEditor.marking)
     <> None.
Proof.
  split; [vm_compute; reflexivity |].
  split; [vm_compute; reflexivity |].
  vm_compute. discriminate.
Qed.

(** C2 (amended).  When the label map holds both seed labels, the action
    leaves the editor in [draw] mode with the label map discarded, whether
    the segmentation succeeded or raised.  When a seed label is missing, the
    action only shows a warning: the mask, the history, the pointer, the
    mode (still marker mode) and the label map are all as before. *)
Theorem run_watershed_segmentation_outcomes :
  forall (cv2_resize : Mask -> nat -> nat -> Py.result Mask)
         (cv2_watershed : Image -> Markers -> Py.result Markers)
         (self : MaskEditWidget.t) (markers : Markers) (base : Image),
    MaskEditWidget.watershed_markers self = Some markers ->
    MaskEditWidget.base_img self = Some base ->
    (Np.contains markers 1 = true -> Np.contains markers 2 = true ->
     MaskEditWidget.mode
       (MaskEditWidget.run_watershed_segmentation cv2_resize cv2_watershed self)
     = MaskEditWidget.draw
     /\ MaskEditWidget.watershed_markers
          (MaskEditWidget.run_watershed_segmentation cv2_resize cv2_watershed
                                                     self)
        = None)
    /\ (Np.contains markers 1 = false \/ Np.contains markers 2 = false ->
        let self' :=
          MaskEditWidget.run_watershed_segmentation cv2_resize cv2_watershed
                                                    self in
        self' = MaskEditWidget.emit self MaskEditWidget.warning_box
        /\ MaskEditWidget.mask self' = MaskEditWidget.mask self
        /\ MaskEditWidget.history self' = MaskEditWidget.history self
        /\ MaskEditWidget.history_idx self' = MaskEditWidget.history_idx self
        /\ MaskEditWidget.mode self' = MaskEditWidget.mode self
        /\ MaskEditWidget.watershed_markers self' = Some markers).
Proof.
  intros resize ws self markers base Hm Hb. split.
  - intros H1 H2. unfold MaskEditWidget.run_watershed_segmentation.
    rewrite Hm, Hb, H1, H2. cbn [negb orb].
    split; [| reflexivity].
    change (MaskEditWidget.mode
              (MaskEditWidget.with_watershed_markers ?s None))
      with (MaskEditWidget.mode s).
    apply EditorFacts.set_mode_mode.
  - intros Hmiss self'.
    assert (E : self' = MaskEditWidget.emit self MaskEditWidget.warning_box).
    { unfold self', MaskEditWidget.run_watershed_segmentation.
      rewrite Hm, Hb.
      destruct Hmiss as [H | H]; rewrite H; [reflexivity |].
      rewrite orb_true_r. reflexivity. }
    rewrite E. repeat split. exact Hm.
Qed.

(** The theorem above at the sample editor, with and without seeds. *)
Lemma run_watershed_segmentation_outcomes_witness :
  MaskEditWidget.mode
    (MaskEditWidget.run_watershed_segmentation
       SampleEditor.cv2_resize SampleEditor.cv2_watershed SampleEditor.seeded)
  = MaskEditWidget.draw
  /\ MaskEditWidget.run_watershed_segmentation
       SampleEditor.cv2_resize SampleEditor.cv2_watershed SampleEditor.marking
     = MaskEditWidget.emit SampleEditor.marking MaskEditWidget.warning_box.
Proof.
  split.
  - refine (proj1 (proj1 (run_watershed_segmentation_outcomes
                            SampleEditor.cv2_resize SampleEditor.cv2_watershed
                            SampleEditor.seeded _ Sample.image0
                            eq_refl eq_refl) _ _));
      vm_compute; reflexivity.
  - refine (proj1 (proj2 (run_watershed_segmentation_outcomes
                            SampleEditor.cv2_resize SampleEditor.cv2_watershed
                            SampleEditor.marking _ Sample.image0
                            eq_refl eq_refl) _)).
    left. vm_compute. reflexivity.
Defined.

(* ===================================================================== *)
(** * Further properties of the ROI history                               *)
(* ===================================================================== *)

Module RoiFacts.

Lemma undo_mask_spec (r : FrameROI.t) (p : nat) (m : Mask) :
  FrameROI.mask_edit_idx r = S p ->
  nth_error (FrameROI.mask_edit_history r) p = Some m ->
  FrameROI.undo_mask r = Py.Ok (true, FrameROI.set_mask_ptr r m p).
Proof.
  intros Hi Hm. unfold FrameROI.undo_mask. rewrite Hi.
  cbn [Nat.ltb Nat.leb]. replace (S p - 1) with p by lia.
  rewrite Hm. reflexivity.
Qed.

Lemma redo_mask_spec (r : FrameROI.t) (m : Mask) :
  nth_error (FrameROI.mask_edit_history r) (FrameROI.mask_edit_idx r + 1)
  = Some m ->
  FrameROI.redo_mask r
  = Py.Ok (true, FrameROI.set_mask_ptr r m (FrameROI.mask_edit_idx r + 1)).
Proof.
  intros Hm. unfold FrameROI.redo_mask.
  assert (Hlt : FrameROI.mask_edit_idx r + 1
                < length (FrameROI.mask_edit_history r)).
  { apply nth_error_Some. rewrite Hm. discriminate. }
  destruct (Nat.ltb_spec (FrameROI.mask_edit_idx r)
                         (length (FrameROI.mask_edit_history r) - 1)); [| lia].
  rewrite Hm. reflexivity.
Qed.

Lemma nth_error_in_range {A : Type} (l : list A) (p : nat) :
  p < length l -> exists a, nth_error l p = Some a.
Proof.
  intros H. destruct (nth_error l p) as [a |] eqn:E; [eauto |].
  apply nth_error_None in E. lia.
Qed.

End RoiFacts.

(** X1.  The pointer of a frame's mask-edit history always is a position of
    the snapshot list: [FrameROI.__init__] starts with one snapshot and the
    pointer on it, and [add_mask_to_history], [undo_mask], [redo_mask] and
    [reset_mask] all keep the pointer inside the list.  With the pointer
    inside the list none of them raises, and [get_current_mask] returns the
    snapshot under the pointer. *)
Theorem roi_history_pointer_stays_in_range :
  (forall img mask x y w h area idx tag note,
      Roi.pointer_in_range
        (FrameROI.init img mask x y w h area idx tag note))
  /\ forall r : FrameROI.t,
      Roi.pointer_in_range r ->
      (forall m, Roi.pointer_in_range (FrameROI.add_mask_to_history r m))
      /\ (exists b r', FrameROI.undo_mask r = Py.Ok (b, r')
                       /\ Roi.pointer_in_range r')
      /\ (exists b r', FrameROI.redo_mask r = Py.Ok (b, r')
                       /\ Roi.pointer_in_range r')
      /\ (exists r', Roi.reset_mask r = (true, r')
                     /\ Roi.pointer_in_range r')
      /\ (exists m, Roi.get_current_mask r = Py.Ok m
                    /\ nth_error (FrameROI.mask_edit_history r)
                                 (FrameROI.mask_edit_idx r) = Some m).
Proof.
  split.
  - intros. unfold Roi.pointer_in_range. simpl. lia.
  - intros r Hr. unfold Roi.pointer_in_range in *.
    split; [| split; [| split; [| split]]].
    + intros m.
      destruct (HistoryFacts.add_mask_to_history_spec r m Hr) as (_ & H & _).
      lia.
    + unfold FrameROI.undo_mask.
      destruct (Nat.ltb_spec 0 (FrameROI.mask_edit_idx r)).
      * destruct (RoiFacts.nth_error_in_range (FrameROI.mask_edit_history r)
                    (FrameROI.mask_edit_idx r - 1)) as [m ->]; [lia |].
        eexists _, _. split; [reflexivity |]. simpl. lia.
      * eexists _, _. split; [reflexivity | exact Hr].
    + unfold FrameROI.redo_mask.
      destruct (Nat.ltb_spec (FrameROI.mask_edit_idx r)
                             (length (FrameROI.mask_edit_history r) - 1)).
      * destruct (RoiFacts.nth_error_in_range (FrameROI.mask_edit_history r)
                    (FrameROI.mask_edit_idx r + 1)) as [m ->]; [lia |].
        eexists _, _. split; [reflexivity |]. simpl. lia.
      * eexists _, _. split; [reflexivity | exact Hr].
    + unfold Roi.reset_mask.
      destruct (FrameROI.mask_edit_history r) as [| m0 rest] eqn:E;
        [simpl in Hr; lia |].
      eexists. split; [reflexivity |]. simpl. rewrite E. simpl. lia.
    + unfold Roi.get_current_mask.
      destruct (RoiFacts.nth_error_in_range _ _ Hr) as [m ->].
      exists m. split; reflexivity.
Qed.

(** The theorem above at a freshly extracted frame. *)
Lemma roi_history_pointer_stays_in_range_witness :
  Roi.pointer_in_range (FrameROI.add_mask_to_history Sample.roi0 Sample.mask0)
  /\ exists m, Roi.get_current_mask Sample.roi0 = Py.Ok m.
Proof.
  destruct roi_history_pointer_stays_in_range as [Hinit Hstep].
  destruct (Hstep Sample.roi0
              (Hinit Sample.image0 Sample.mask0 0%Z 0%Z 2%Z 2%Z 4%Q 1%Z
                     EmptyString EmptyString))
    as (Hadd & _ & _ & _ & (m & Hm & _)).
  split; [apply Hadd | exists m; exact Hm].
Defined.

(** X2.  On a frame's history [undo_mask] and [redo_mask] undo each other:
    after an undo that reported [True], redo reports [True] and puts the
    pointer back where it was, on the same snapshot list, with the mask of
    the snapshot under it; and the other way round.  When the mask was the
    snapshot under the pointer to begin with, the frame is exactly as
    before. *)
Theorem roi_undo_and_redo_are_inverse :
  forall r r1 : FrameROI.t,
    Roi.pointer_in_range r ->
    (FrameROI.undo_mask r = Py.Ok (true, r1) ->
     exists r2,
       FrameROI.redo_mask r1 = Py.Ok (true, r2)
       /\ FrameROI.mask_edit_idx r2 = FrameROI.mask_edit_idx r
       /\ FrameROI.mask_edit_history r2 = FrameROI.mask_edit_history r
       /\ Roi.get_current_mask r2 = Py.Ok (FrameROI.mask r2)
       /\ (Roi.get_current_mask r = Py.Ok (FrameROI.mask r) -> r2 = r))
    /\ (FrameROI.redo_mask r = Py.Ok (true, r1) ->
        exists r2,
          FrameROI.undo_mask r1 = Py.Ok (true, r2)
          /\ FrameROI.mask_edit_idx r2 = FrameROI.mask_edit_idx r
          /\ FrameROI.mask_edit_history r2 = FrameROI.mask_edit_history r
          /\ Roi.get_current_mask r2 = Py.Ok (FrameROI.mask r2)
          /\ (Roi.get_current_mask r = Py.Ok (FrameROI.mask r) -> r2 = r)).
Proof.
  intros r r1 Hr. unfold Roi.pointer_in_range in Hr.
  destruct (RoiFacts.nth_error_in_range _ _ Hr) as [mc Hmc].
  split.
  - unfold FrameROI.undo_mask.
    destruct (Nat.ltb_spec 0 (FrameROI.mask_edit_idx r)) as [Hpos | Hz];
      [| intros H; discriminate H].
    destruct (nth_error (FrameROI.mask_edit_history r)
                        (FrameROI.mask_edit_idx r - 1)) as [m |] eqn:Hm;
      [| intros H; discriminate H].
    intros H. injection H as <-.
    exists (FrameROI.set_mask_ptr r mc (FrameROI.mask_edit_idx r)).
    split.
    + rewrite (RoiFacts.redo_mask_spec _ mc).
      * cbn [FrameROI.set_mask_ptr FrameROI.mask_edit_idx
             FrameROI.mask_edit_history FrameROI.img FrameROI.mask FrameROI.x
             FrameROI.y FrameROI.w FrameROI.h FrameROI.area FrameROI.idx
             FrameROI.aspect_ratio FrameROI.selected FrameROI.tag
             FrameROI.note].
        replace (FrameROI.mask_edit_idx r - 1 + 1)
          with (FrameROI.mask_edit_idx r) by lia.
        reflexivity.
      * cbn [FrameROI.set_mask_ptr FrameROI.mask_edit_idx
             FrameROI.mask_edit_history].
        replace (FrameROI.mask_edit_idx r - 1 + 1)
          with (FrameROI.mask_edit_idx r) by lia.
        exact Hmc.
    + split; [reflexivity |]. split; [reflexivity |]. split.
      * unfold Roi.get_current_mask. simpl. rewrite Hmc. reflexivity.
      * unfold Roi.get_current_mask. rewrite Hmc. intros E.
        injection E as E. rewrite E. destruct r. reflexivity.
  - unfold FrameROI.redo_mask.
    destruct (Nat.ltb_spec (FrameROI.mask_edit_idx r)
                           (length (FrameROI.mask_edit_history r) - 1))
      as [Hlt | Hge]; [| intros H; discriminate H].
    destruct (nth_error (FrameROI.mask_edit_history r)
                        (FrameROI.mask_edit_idx r + 1)) as [m |] eqn:Hm;
      [| intros H; discriminate H].
    intros H. injection H as <-.
    exists (FrameROI.set_mask_ptr r mc (FrameROI.mask_edit_idx r)).
    split.
    + rewrite (RoiFacts.undo_mask_spec _ (FrameROI.mask_edit_idx r) mc).
      * reflexivity.
      * simpl. lia.
      * exact Hmc.
    + split; [reflexivity |]. split; [reflexivity |]. split.
      * unfold Roi.get_current_mask. simpl. rewrite Hmc. reflexivity.
      * unfold Roi.get_current_mask. rewrite Hmc. intros E.
        injection E as E. rewrite E. destruct r. reflexivity.
Qed.

(** The theorem above at a frame with two snapshots, the pointer on the
    second one and then on the first one. *)
Lemma roi_undo_and_redo_are_inverse_witness :
  (exists r2,
      FrameROI.redo_mask SampleHistory.roi_undone = Py.Ok (true, r2)
      /\ FrameROI.mask_edit_idx r2 = 1)
  /\ (exists r2,
         FrameROI.undo_mask SampleHistory.roi_redone = Py.Ok (true, r2)
         /\ FrameROI.mask_edit_idx r2 = 0).
Proof.
  split.
  - destruct (proj1 (roi_undo_and_redo_are_inverse
                       SampleHistory.roi_edited SampleHistory.roi_undone
                       (Nat.lt_succ_diag_r 1))
                    eq_refl)
      as (r2 & H1 & H2 & _).
    exists r2. split; [exact H1 | exact H2].
  - destruct (proj2 (roi_undo_and_redo_are_inverse
                       SampleHistory.roi_undone SampleHistory.roi_redone
                       (Nat.lt_0_succ 1))
                    eq_refl)
      as (r2 & H1 & H2 & _).
    exists r2. split; [exact H1 | exact H2].
Defined.

Module EditFacts.

(** Writing the alpha channel changes the image of the frame only. *)
Lemma accepted_frame (cv2_resize : Mask -> nat -> nat -> Py.result Mask)
      (roi : FrameROI.t) (edited : Mask) :
  exists img',
    MainWindow.on_edit_mask_accepted cv2_resize roi edited
    = MainWindow.set_img
        (FrameROI.add_mask_to_history
           (FrameROI.set_mask_ptr roi edited (FrameROI.mask_edit_idx roi))
           edited)
        img'.
Proof.
  unfold MainWindow.on_edit_mask_accepted. cbv zeta.
  match goal with
  | |- context [match ?a with Py.Ok _ => _ | Py.Raise _ => _ end] =>
      destruct a as [img' | e]
  end.
  - exists img'. reflexivity.
  - exists (FrameROI.img roi). reflexivity.
Qed.

End EditFacts.

(** X3.  When the mask editor is accepted for a frame
    ([SpriteMaskEditor.on_edit_mask]), the edited mask becomes the mask of
    the frame and the newest snapshot of its history, under the pointer; the
    snapshots after the old pointer are dropped, so redo reports [False];
    and one undo brings back the snapshot that was current before the edit.
    When the edited mask has the shape of the frame image, it is written
    into the alpha channel of every pixel. *)
Theorem accepted_edit_is_committed_and_can_be_undone :
  forall (cv2_resize : Mask -> nat -> nat -> Py.result Mask)
         (roi : FrameROI.t) (edited : Mask),
    Roi.pointer_in_range roi ->
    let roi' := MainWindow.on_edit_mask_accepted cv2_resize roi edited in
    FrameROI.mask roi' = edited
    /\ Roi.get_current_mask roi' = Py.Ok edited
    /\ FrameROI.mask_edit_history roi'
       = firstn (FrameROI.mask_edit_idx roi + 1)
                (FrameROI.mask_edit_history roi) ++ [edited]
    /\ FrameROI.redo_mask roi' = Py.Ok (false, roi')
    /\ (exists prev r2,
           Roi.get_current_mask roi = Py.Ok prev
           /\ FrameROI.undo_mask roi' = Py.Ok (true, r2)
           /\ FrameROI.mask r2 = prev
           /\ FrameROI.mask_edit_idx r2 = FrameROI.mask_edit_idx roi)
    /\ (Np.same_shape edited (FrameROI.img roi) = true ->
        Np.same_shape (FrameROI.img roi') (FrameROI.img roi) = true
        /\ forall i j,
            i < Np.shape0 (FrameROI.img roi) ->
            j < Np.shape1 (FrameROI.img roi) ->
            Np.cell (FrameROI.img roi') i j
            = MaskProcessor.set_alpha (Np.cell (FrameROI.img roi) i j)
                                      (Np.cell edited i j)).
Proof.
  intros resize roi edited Hr roi'.
  unfold Roi.pointer_in_range in Hr.
  set (roi0 := FrameROI.set_mask_ptr roi edited (FrameROI.mask_edit_idx roi)).
  assert (Hr0 : FrameROI.mask_edit_idx roi0
                < length (FrameROI.mask_edit_history roi0)) by exact Hr.
  destruct (HistoryFacts.add_mask_to_history_spec roi0 edited Hr0)
    as (Hh & Hi & Hl).
  change (FrameROI.mask_edit_history roi0)
    with (FrameROI.mask_edit_history roi) in Hh.
  change (FrameROI.mask_edit_idx roi0) with (FrameROI.mask_edit_idx roi)
    in Hh, Hl.
  set (roi1 := FrameROI.add_mask_to_history roi0 edited) in *.
  destruct (EditFacts.accepted_frame resize roi edited) as [img' E].
  fold roi0 in E. fold roi1 in E. fold roi' in E.
  assert (Hhist : FrameROI.mask_edit_history roi'
                  = FrameROI.mask_edit_history roi1) by (rewrite E; reflexivity).
  assert (Hidx : FrameROI.mask_edit_idx roi' = FrameROI.mask_edit_idx roi1)
    by (rewrite E; reflexivity).
  assert (Hp : FrameROI.mask_edit_idx roi' = FrameROI.mask_edit_idx roi + 1)
    by lia.
  assert (Hlast : nth_error (FrameROI.mask_edit_history roi')
                            (FrameROI.mask_edit_idx roi') = Some edited).
  { rewrite Hhist, Hp, Hh.
    rewrite nth_error_app2 by (rewrite length_firstn; lia).
    rewrite length_firstn.
    replace (FrameROI.mask_edit_idx roi + 1
             - Nat.min (FrameROI.mask_edit_idx roi + 1)
                       (length (FrameROI.mask_edit_history roi)))
      with 0 by lia.
    reflexivity. }
  split; [rewrite E; reflexivity |].
  split; [unfold Roi.get_current_mask; rewrite Hlast; reflexivity |].
  split; [rewrite Hhist; exact Hh |].
  split.
  { unfold FrameROI.redo_mask.
    destruct (Nat.ltb_spec (FrameROI.mask_edit_idx roi')
                           (length (FrameROI.mask_edit_history roi')));
      [| rewrite Hhist in *; lia].
    destruct (Nat.ltb_spec (FrameROI.mask_edit_idx roi')
                           (length (FrameROI.mask_edit_history roi') - 1));
      [rewrite Hhist in *; lia | reflexivity]. }
  split.
  { destruct (RoiFacts.nth_error_in_range _ _ Hr) as [prev Hprev].
    exists prev, (FrameROI.set_mask_ptr roi' prev (FrameROI.mask_edit_idx roi)).
    split; [unfold Roi.get_current_mask; rewrite Hprev; reflexivity |].
    split; [| split; reflexivity].
    apply RoiFacts.undo_mask_spec; [lia |].
    rewrite Hhist, Hh, nth_error_app1 by (rewrite length_firstn; lia).
    rewrite nth_error_firstn.
    destruct (Nat.ltb_spec (FrameROI.mask_edit_idx roi)
                           (FrameROI.mask_edit_idx roi + 1)); [exact Hprev | lia]. }
  intros Hshape.
  unfold roi', MainWindow.on_edit_mask_accepted. cbv zeta.
  fold roi0. fold roi1.
  change (FrameROI.img roi1) with (FrameROI.img roi).
  rewrite Hshape. cbn [negb]. unfold Py.bind.
  apply andb_true_iff in Hshape. destruct Hshape as [H0 H1].
  apply Nat.eqb_eq in H0, H1.
  unfold Np.assign_slice. cbv zeta.
  rewrite !ShapeFacts.clamp_zero, !ShapeFacts.clamp_full, !Nat.sub_0_r.
  rewrite H0, H1, ShapeFacts.broadcasts_same.
  cbn [MainWindow.set_img FrameROI.img Np.shape0 Np.shape1 Np.cell].
  split.
  - unfold Np.same_shape. cbn [Np.shape0 Np.shape1].
    rewrite !Nat.eqb_refl. reflexivity.
  - intros i j Hir Hjc.
    destruct (Nat.ltb_spec i (Np.shape0 (FrameROI.img roi))); [| lia].
    destruct (Nat.ltb_spec j (Np.shape1 (FrameROI.img roi))); [| lia].
    cbn [Nat.leb andb]. unfold Np.broadcast_cell.
    rewrite !Nat.sub_0_r.
    destruct (Nat.eqb_spec (Np.shape0 edited) 1) as [E0 | _];
      destruct (Nat.eqb_spec (Np.shape1 edited) 1) as [E1 | _];
      try reflexivity.
    + replace i with 0 by lia. replace j with 0 by lia. reflexivity.
    + replace i with 0 by lia. reflexivity.
    + replace j with 0 by lia. reflexivity.
Qed.

(** The theorem above at a fresh frame and a mask of the shape of its
    image. *)
Lemma accepted_edit_is_committed_and_can_be_undone_witness :
  Roi.get_current_mask
    (MainWindow.on_edit_mask_accepted SampleEditor.cv2_resize Sample.roi0
                                      (Sample.mask_n 1))
  = Py.Ok (Sample.mask_n 1).
Proof.
  exact (proj1 (proj2 (accepted_edit_is_committed_and_can_be_undone
                         SampleEditor.cv2_resize Sample.roi0 (Sample.mask_n 1)
                         (Nat.lt_0_succ 0)))).
Defined.

(* ===================================================================== *)
(** * Further properties of sorting and filtering                         *)
(* ===================================================================== *)

Module SortMoreFacts.

Section Insertion.

Context {A : Type} (le : A -> A -> bool) (P : A -> bool).

(** Inserting into a list and then selecting a class of elements that the
    order does not tell apart keeps the inserted element in front. *)
Lemma filter_insert_class (a : A) (l : list A) :
  (forall b, P a = true -> P b = true -> le a b = true) ->
  List.filter P (Py.insert_sorted le a l)
  = if P a then a :: List.filter P l else List.filter P l.
Proof.
  intros Hcls. induction l as [| b t IH]; simpl.
  - destruct (P a); reflexivity.
  - destruct (le a b) eqn:E; simpl.
    + destruct (P a); reflexivity.
    + rewrite IH. destruct (P a) eqn:Ea.
      * destruct (P b) eqn:Eb; [| reflexivity].
        rewrite (Hcls b eq_refl Eb) in E. discriminate E.
      * reflexivity.
Qed.

Hypothesis le_total : forall a b, le a b = false -> le b a = true.
Hypothesis le_trans :
  forall a b c, le a b = true -> le b c = true -> le a c = true.

Lemma insert_in_front (a : A) (l : list A) :
  Forall (fun c => le a c = true) l -> Py.insert_sorted le a l = a :: l.
Proof.
  intros H. destruct H as [| c t Hc _]; simpl; [reflexivity |].
  rewrite Hc. reflexivity.
Qed.

Lemma sorted_head_below (b : A) (l : list A) :
  Sorted (fun x y => le x y = true) (b :: l) ->
  Forall (fun c => le b c = true) l.
Proof.
  revert b. induction l as [| c t IH]; intros b H; [constructor |].
  inversion H as [| ? ? Hs Hhd]; subst.
  inversion Hhd as [| ? ? Hbc]; subst.
  constructor; [exact Hbc |].
  specialize (IH c Hs).
  eapply Forall_impl; [| exact IH].
  intros d Hd. cbv beta in Hd. exact (le_trans _ _ _ Hbc Hd).
Qed.

(** Selecting from a sorted list commutes with inserting into it. *)
Lemma filter_insert_sorted (a : A) (l : list A) :
  Sorted (fun x y => le x y = true) l ->
  List.filter P (Py.insert_sorted le a l)
  = if P a then Py.insert_sorted le a (List.filter P l) else List.filter P l.
Proof.
  induction l as [| b t IH]; intros Hs; simpl.
  - destruct (P a); reflexivity.
  - assert (Hst : Sorted (fun x y => le x y = true) t)
      by (inversion Hs; assumption).
    destruct (le a b) eqn:E; simpl.
    + destruct (P a) eqn:Ea; [| reflexivity].
      destruct (P b) eqn:Eb; simpl.
      * rewrite E. reflexivity.
      * symmetry. apply insert_in_front.
        apply incl_Forall with (l1 := t);
          [intros x Hx; apply filter_In in Hx; apply Hx |].
        eapply Forall_impl; [| exact (sorted_head_below b t Hs)].
        intros d Hd. cbv beta in Hd. exact (le_trans _ _ _ E Hd).
    + rewrite (IH Hst).
      destruct (P a) eqn:Ea; destruct (P b) eqn:Eb; simpl;
        try rewrite E; reflexivity.
Qed.

Lemma filter_fold_insert (l : list A) :
  List.filter P (fold_right (Py.insert_sorted le) [] l)
  = fold_right (Py.insert_sorted le) [] (List.filter P l).
Proof.
  induction l as [| a t IH]; simpl; [reflexivity |].
  rewrite filter_insert_sorted
    by (apply SortFacts.fold_insert_sorted; exact le_total).
  rewrite IH. destruct (P a); reflexivity.
Qed.

End Insertion.

Lemma filter_fold_class {A : Type} (le : A -> A -> bool) (P : A -> bool)
      (l : list A) :
  (forall a b, P a = true -> P b = true -> le a b = true) ->
  List.filter P (fold_right (Py.insert_sorted le) [] l) = List.filter P l.
Proof.
  intros Hcls. induction l as [| a t IH]; simpl; [reflexivity |].
  rewrite filter_insert_class by (apply Hcls).
  rewrite IH. reflexivity.
Qed.

Lemma Qle_bool_trans (a b c : Q) :
  Qle_bool a b = true -> Qle_bool b c = true -> Qle_bool a c = true.
Proof.
  rewrite !Qle_bool_iff. apply Qle_trans.
Qed.

(** The key of every frame is a number as soon as the key is one the window
    offers. *)
Lemma sort_keys_numeric (by_ : string) (r : FrameROI.t) :
  In by_ MainWindow.sort_keys ->
  exists v, MaskProcessor.getattr r by_ = Some v
            /\ v <> MaskProcessor.VObject
            /\ forall s, v <> MaskProcessor.VStr s.
Proof.
  intros H. unfold MainWindow.sort_keys in H.
  repeat (destruct H as [<- | H]);
    try (eexists; split; [reflexivity | split; [discriminate | intros s; discriminate]]).
  - unfold MaskProcessor.getattr. cbn [String.eqb Ascii.eqb Bool.eqb].
    destruct (FrameROI.h r >? 0)%Z;
      (eexists; split; [reflexivity | split; [discriminate | intros s; discriminate]]).
  - contradiction.
Qed.

(** On those keys [sort_rois] is the numeric sort. *)
Lemma sort_rois_numeric (rois : list FrameROI.t) (by_ : string) (reverse : bool) :
  In by_ MainWindow.sort_keys ->
  MaskProcessor.sort_rois rois by_ reverse
  = Py.Ok (Py.sorted Qle_bool (SpecSort.sort_key by_)
                     (SpecSort.descending by_ reverse) rois).
Proof.
  intros H. unfold MaskProcessor.sort_rois. destruct rois as [| r0 rest].
  - reflexivity.
  - destruct (sort_keys_numeric by_ r0 H) as (v & -> & Hobj & Hstr).
    destruct v as [z | q | b | s |]; try reflexivity.
    + exfalso. exact (Hstr s eq_refl).
    + exfalso. exact (Hobj eq_refl).
Qed.

End SortMoreFacts.

(** X4.  For every sort key the window offers, [sort_rois] returns a
    rearrangement of the frames it was given, ordered by that key in the
    direction asked for (always ascending for the extraction index), and the
    sort is stable: frames with equal keys keep the order they had in the
    input, in both directions. *)
Theorem sort_rois_is_an_ordered_stable_rearrangement :
  forall (rois : list FrameROI.t) (by_ : string) (reverse : bool),
    In by_ MainWindow.sort_keys ->
    exists out,
      MaskProcessor.sort_rois rois by_ reverse = Py.Ok out
      /\ Permutation rois out
      /\ Sorted (SpecSort.in_order by_ reverse) out
      /\ forall k, SpecSort.with_key by_ k out = SpecSort.with_key by_ k rois.
Proof.
  intros rois by_ reverse Hby.
  eexists. split; [apply SortMoreFacts.sort_rois_numeric; exact Hby |].
  split; [apply SortFacts.sorted_perm |]. split.
  - unfold SpecSort.in_order.
    destruct (SpecSort.descending by_ reverse).
    + apply SortFacts.sorted_descending.
    + apply SortFacts.sorted_ascending.
  - intros k. unfold SpecSort.with_key, Py.sorted.
    apply SortMoreFacts.filter_fold_class.
    intros a b Ha Hb. apply Qeq_bool_iff in Ha, Hb.
    assert (E : (SpecSort.sort_key by_ a == SpecSort.sort_key by_ b)%Q)
      by (rewrite Ha, Hb; reflexivity).
    destruct (SpecSort.descending by_ reverse);
      apply Qle_bool_iff; rewrite E; apply Qle_refl.
Qed.

(** The theorem above on the frames of the sample sheet, by descending
    area. *)
Lemma sort_rois_is_an_ordered_stable_rearrangement_witness :
  exists out,
    MaskProcessor.sort_rois SampleSheet.rois "area" true = Py.Ok out
    /\ Permutation SampleSheet.rois out.
Proof.
  destruct (sort_rois_is_an_ordered_stable_rearrangement
              SampleSheet.rois "area" true)
    as (out & H1 & H2 & _).
  - right. left. reflexivity.
  - exists out. split; [exact H1 | exact H2].
Defined.

(** X5.  Filtering and sorting commute: for every sort key the window
    offers, sorting the filtered frames gives the same list as filtering the
    sorted frames.  In particular the list the window shows after a refresh
    ([_extract_and_update_rois], [refresh_sort_filter]), which is sorted
    after filtering, is the sorted list of all frames with the frames out of
    range left out. *)
Theorem filtering_commutes_with_sorting :
  forall (rois : list FrameROI.t) (by_ : string) (reverse : bool),
    In by_ MainWindow.sort_keys ->
    exists out,
      MaskProcessor.sort_rois rois by_ reverse = Py.Ok out
      /\ (forall area_range aspect_range x_range y_range,
             MaskProcessor.sort_rois
               (MaskProcessor.filter_rois rois area_range aspect_range
                                          x_range y_range) by_ reverse
             = Py.Ok (MaskProcessor.filter_rois out area_range aspect_range
                                                x_range y_range))
      /\ (forall area_range aspect_range,
             MainWindow.displayed_rois rois area_range aspect_range
                                       by_ reverse
             = Py.Ok (MaskProcessor.filter_rois out (Some area_range)
                                                (Some aspect_range) None None)).
Proof.
  intros rois by_ reverse Hby.
  eexists. split; [apply SortMoreFacts.sort_rois_numeric; exact Hby |].
  assert (Hgen : forall ar asr xr yr,
             MaskProcessor.sort_rois
               (MaskProcessor.filter_rois rois ar asr xr yr) by_ reverse
             = Py.Ok (MaskProcessor.filter_rois
                        (Py.sorted Qle_bool (SpecSort.sort_key by_)
                                   (SpecSort.descending by_ reverse) rois)
                        ar asr xr yr)).
  { intros ar asr xr yr.
    rewrite SortMoreFacts.sort_rois_numeric by exact Hby.
    rewrite !filter_rois_as_filter. f_equal. unfold Py.sorted.
    symmetry. apply SortMoreFacts.filter_fold_insert.
    - intros a b. destruct (SpecSort.descending by_ reverse);
        apply SortFacts.Qle_bool_total.
    - intros a b c. destruct (SpecSort.descending by_ reverse).
      + intros H1 H2. exact (SortMoreFacts.Qle_bool_trans _ _ _ H2 H1).
      + apply SortMoreFacts.Qle_bool_trans. }
  split; [exact Hgen |].
  intros ar asr. unfold MainWindow.displayed_rois. apply Hgen.
Qed.

(** The theorem above on the frames of the sample sheet, sorted by x and
    filtered by area. *)
Lemma filtering_commutes_with_sorting_witness :
  exists out,
    MaskProcessor.sort_rois SampleSheet.rois "x" false = Py.Ok out
    /\ MaskProcessor.sort_rois
         (MaskProcessor.filter_rois SampleSheet.rois (Some (2, 100)%Q)
                                    None None None) "x" false
       = Py.Ok (MaskProcessor.filter_rois out (Some (2, 100)%Q)
                                          None None None).
Proof.
  destruct (filtering_commutes_with_sorting SampleSheet.rois "x" false)
    as (out & H1 & H2 & _).
  - right. right. left. reflexivity.
  - exists out. split; [exact H1 | apply H2].
Defined.

(* ===================================================================== *)
(** * Further properties of [gen_mask]                                    *)
(* ===================================================================== *)

Module MaskMoreFacts.

Lemma index_in_range (n : nat) (i : Z) (r : nat) :
  Np.index n i = Py.Ok r -> r < n.
Proof.
  unfold Np.index.
  destruct ((0 <=? i)%Z && (i <? Z.of_nat n)%Z) eqn:E.
  - intros H. injection H as <-.
    apply andb_true_iff in E. destruct E as [E1 E2].
    apply Z.leb_le in E1. apply Z.ltb_lt in E2. lia.
  - destruct ((- Z.of_nat n <=? i)%Z && (i <? 0)%Z) eqn:E';
      [| intros H; discriminate H].
    intros H. injection H as <-.
    apply andb_true_iff in E'. destruct E' as [E1 E2].
    apply Z.leb_le in E1. apply Z.ltb_lt in E2. lia.
Qed.

(** What [a[i, j]] returns is an element of the array. *)
Lemma get_in_range {A : Type} (a : Np.ndarray A) (i j : Z) (v : A) :
  Np.get a i j = Py.Ok v ->
  exists r c, r < Np.shape0 a /\ c < Np.shape1 a /\ v = Np.cell a r c.
Proof.
  unfold Np.get.
  destruct (Np.index (Np.shape0 a) i) as [r | e] eqn:Er;
    [| intros H; discriminate H].
  destruct (Np.index (Np.shape1 a) j) as [c | e] eqn:Ec;
    [| intros H; discriminate H].
  intros H. injection H as <-.
  exists r, c. split; [exact (index_in_range _ _ _ Er) |].
  split; [exact (index_in_range _ _ _ Ec) | reflexivity].
Qed.

(** The background samples are colours of pixels of the image, and there
    are seven of them. *)
Lemma get_bg_samples_from_image (img : Image) (samples : list (Z * Z * Z)) :
  MaskProcessor.get_bg_samples img = Py.Ok samples ->
  length samples = 7
  /\ Forall (fun s => exists r c,
                 r < Np.shape0 img /\ c < Np.shape1 img
                 /\ s = MaskProcessor.rgb (Np.cell img r c)) samples.
Proof.
  unfold MaskProcessor.get_bg_samples. cbv zeta.
  repeat match goal with
         | |- context [Np.get img ?i ?j] =>
             let v := fresh "v" in
             let E := fresh "E" in
             destruct (Np.get img i j) as [v | ?] eqn:E;
             [apply get_in_range in E
             | intros H; cbn [Py.bind] in H; discriminate H];
             cbn [Py.bind]
         end.
  intros H. injection H as <-. split; [reflexivity |].
  cbn [List.map].
  repeat constructor;
    match goal with
    | Hv : exists r c, _ /\ _ /\ ?v = _ |- exists r c, _ /\ _ /\
                                                     MaskProcessor.rgb ?v = _ =>
        destruct Hv as (r & c & Hr & Hc & ->); exists r, c; auto
    end.
Qed.

Lemma sub_u8_self (a : Z) : MaskProcessor.sub_u8 a a = 0%Z.
Proof. unfold MaskProcessor.sub_u8. rewrite Z.sub_diag. reflexivity. Qed.

Lemma norm2_self (p : Z * Z * Z) : MaskProcessor.norm2 p p = 0%Z.
Proof.
  destruct p as [[r g] b]. unfold MaskProcessor.norm2.
  rewrite !sub_u8_self. reflexivity.
Qed.

Lemma norm2_nonneg (p s : Z * Z * Z) : (0 <= MaskProcessor.norm2 p s)%Z.
Proof.
  destruct p as [[pr pg] pb], s as [[sr sg] sb]. unfold MaskProcessor.norm2.
  nia.
Qed.

Lemma fold_min_norm2 (p : Z * Z * Z) (l : list (Z * Z * Z)) (z : Z) :
  (0 <= z)%Z ->
  (0 <= fold_right (fun s' m => Z.min (MaskProcessor.norm2 p s') m) z l)%Z
  /\ (z = 0%Z \/ In p l ->
      fold_right (fun s' m => Z.min (MaskProcessor.norm2 p s') m) z l = 0%Z).
Proof.
  intros Hz. induction l as [| s t [IH0 IH1]]; simpl.
  - split; [exact Hz |]. intros [H | []]. exact H.
  - pose proof (norm2_nonneg p s) as Hn. split; [lia |].
    intros [H | [-> | H]].
    + rewrite (IH1 (or_introl H)). lia.
    + rewrite norm2_self. lia.
    + rewrite (IH1 (or_intror H)). lia.
Qed.

(** The distance of a sampled colour to the samples is zero. *)
Lemma min_norm2_of_sample (p : Z * Z * Z) (samples : list (Z * Z * Z)) :
  In p samples -> MaskProcessor.min_norm2 p samples = 0%Z.
Proof.
  intros H. unfold MaskProcessor.min_norm2.
  destruct samples as [| s rest]; [contradiction |].
  destruct H as [-> | H].
  - apply fold_min_norm2; [rewrite norm2_self; lia |].
    left. apply norm2_self.
  - apply fold_min_norm2; [apply norm2_nonneg | right; exact H].
Qed.

Definition blank (m : Mask) : Prop := Np.all_cells (fun v => v = 0%Z) m.

Lemma neighbours_blank (k : nat) (src : Mask) (i j : nat) :
  blank src -> Forall (fun v => v = 0%Z) (Cv.neighbours k src i j).
Proof.
  intros Hall. apply Forall_forall. intros v Hv.
  unfold Cv.neighbours in Hv. apply in_flat_map in Hv.
  destruct Hv as (d & _ & Hd).
  destruct (_ && _) eqn:E in Hd; [| contradiction].
  destruct Hd as [<- | []].
  rewrite !andb_true_iff in E. destruct E as (((E1 & E2) & E3) & E4).
  apply Z.leb_le in E1, E3. apply Z.ltb_lt in E2, E4.
  apply Hall; lia.
Qed.

Lemma dilate1_blank (k : nat) (src : Mask) : blank src -> blank (Cv.dilate1 k src).
Proof.
  intros Hall i j _ _. cbn [Cv.dilate1 Np.cell].
  pose proof (neighbours_blank k src i j Hall) as H.
  induction H as [| v t -> _ IH]; simpl; [reflexivity |].
  rewrite IH. reflexivity.
Qed.

(** The window of a kernel that is not empty covers its anchor. *)
Lemma window_has_anchor (k : nat) : 0 < k -> In (0, 0)%Z (Cv.window k).
Proof.
  intros Hk. unfold Cv.window. cbv zeta.
  apply in_map_iff. exists (k / 2, k / 2). split.
  - simpl. f_equal; lia.
  - assert (k / 2 < k) by (apply Nat.div_lt; lia).
    apply in_prod; apply in_seq; lia.
Qed.

Lemma neighbours_has_centre (k : nat) (src : Mask) (i j : nat) :
  0 < k -> i < Np.shape0 src -> j < Np.shape1 src ->
  In (Np.cell src i j) (Cv.neighbours k src i j).
Proof.
  intros Hk Hi Hj. unfold Cv.neighbours. apply in_flat_map.
  exists (0, 0)%Z. split; [apply window_has_anchor; exact Hk |].
  cbn [fst snd]. rewrite !Z.add_0_r.
  destruct (Z.leb_spec 0 (Z.of_nat i)); [| lia].
  destruct (Z.ltb_spec (Z.of_nat i) (Z.of_nat (Np.shape0 src))); [| lia].
  destruct (Z.leb_spec 0 (Z.of_nat j)); [| lia].
  destruct (Z.ltb_spec (Z.of_nat j) (Z.of_nat (Np.shape1 src))); [| lia].
  cbn [andb]. rewrite !Nat2Z.id. left. reflexivity.
Qed.

Lemma erode1_blank (k : nat) (src : Mask) :
  0 < k -> blank src -> blank (Cv.erode1 k src).
Proof.
  intros Hk Hall i j Hi Hj. cbn [Cv.erode1 Np.cell Np.shape0 Np.shape1] in *.
  pose proof (neighbours_blank k src i j Hall) as H.
  pose proof (neighbours_has_centre k src i j Hk Hi Hj) as Hin.
  destruct H as [| v t -> Ht]; [contradiction |].
  simpl. clear Hin.
  assert (Hge : (0 <= fold_right Z.min 255 t)%Z).
  { induction Ht as [| w t' -> _ IH]; simpl; lia. }
  lia.
Qed.

Lemma iter_blank (f : Mask -> Mask) (n : nat) (src : Mask) :
  (forall m, blank m -> blank (f m)) -> blank src -> blank (Nat.iter n f src).
Proof.
  intros Hf Hsrc. induction n as [| n IH]; simpl; auto.
Qed.

(** Closing and opening leave an empty mask empty. *)
Lemma morphologyEx_blank (src : Mask) (op : Cv.morph_op) (k : nat) (n : Z) :
  blank src -> blank (Cv.morphologyEx src op k n).
Proof.
  intros Hsrc. unfold Cv.morphologyEx. cbv zeta.
  destruct (_ || _); [exact Hsrc |].
  assert (Hk : 0 < (if k =? 0 then 3 else k)).
  { destruct (Nat.eqb_spec k 0); lia. }
  destruct op; repeat apply iter_blank;
    auto using erode1_blank, dilate1_blank.
Qed.

(** The three ways a call of [gen_mask] can go. *)
Lemma gen_mask_cases (self : MaskProcessor.t) (img : Image) :
  ((Np.shape0 img = 0 \/ Np.shape1 img = 0)
   /\ MaskProcessor.gen_mask self img = Py.Raise Py.IndexError)
  \/ (0 < Np.shape0 img /\ 0 < Np.shape1 img
      /\ (MaskProcessor.kernel_size self < 0)%Z
      /\ MaskProcessor.gen_mask self img = Py.Raise Py.ValueError)
  \/ (0 < Np.shape0 img /\ 0 < Np.shape1 img
      /\ (0 <= MaskProcessor.kernel_size self)%Z
      /\ exists m, MaskProcessor.gen_mask self img = Py.Ok m).
Proof.
  destruct (Nat.eq_dec (Np.shape0 img) 0) as [H0 | H0].
  { left. split; [left; exact H0 |]. unfold MaskProcessor.gen_mask.
    rewrite (MaskFacts.get_bg_samples_empty img (or_introl H0)).
    reflexivity. }
  destruct (Nat.eq_dec (Np.shape1 img) 0) as [H1 | H1].
  { left. split; [right; exact H1 |]. unfold MaskProcessor.gen_mask.
    rewrite (MaskFacts.get_bg_samples_empty img (or_intror H1)).
    reflexivity. }
  right.
  destruct (MaskFacts.get_bg_samples_ok img) as [s Hs]; [lia | lia |].
  unfold MaskProcessor.gen_mask. rewrite Hs. cbn [Py.bind]. cbv zeta.
  unfold MaskProcessor.ones_kernel.
  destruct (Z.ltb_spec (MaskProcessor.kernel_size self) 0) as [Hk | Hk];
    cbn [Py.bind].
  - left. repeat split; try lia.
  - right. repeat split; try lia. eexists. reflexivity.
Qed.

End MaskMoreFacts.

(** X6.  When every pixel of the image has the colour of one of the seven
    background probes (the corners, two edge midpoints and the centre), as
    on an image of one colour, and the threshold is not negative, [gen_mask]
    finds no foreground: it returns a mask of the shape of the image that is
    0 everywhere, whatever the kernel size and the iteration counts are. *)
Theorem gen_mask_of_background_colours_is_empty :
  forall (self : MaskProcessor.t) (img : Image) (samples : list (Z * Z * Z)),
    MaskProcessor.get_bg_samples img = Py.Ok samples ->
    (0 <= MaskProcessor.kernel_size self)%Z ->
    (0 <= MaskProcessor.color_thresh self)%Z ->
    (forall i j, i < Np.shape0 img -> j < Np.shape1 img ->
                 In (MaskProcessor.rgb (Np.cell img i j)) samples) ->
    exists m,
      MaskProcessor.gen_mask self img = Py.Ok m
      /\ Np.shape0 m = Np.shape0 img /\ Np.shape1 m = Np.shape1 img
      /\ Np.all_cells (fun v => v = 0%Z) m.
Proof.
  intros self img samples Hs Hk Ht Hcol.
  unfold MaskProcessor.gen_mask. rewrite Hs. cbn [Py.bind]. cbv zeta.
  unfold MaskProcessor.ones_kernel.
  destruct (Z.ltb_spec (MaskProcessor.kernel_size self) 0); [lia |].
  cbn [Py.bind]. eexists. split; [reflexivity |].
  split; [| split].
  - repeat match goal with
           | |- context [Np.shape0 (Cv.morphologyEx ?a ?o ?k' ?n)] =>
               destruct (MaskFacts.morphologyEx_shape a o k' n) as [-> _]
           end.
    reflexivity.
  - repeat match goal with
           | |- context [Np.shape1 (Cv.morphologyEx ?a ?o ?k' ?n)] =>
               destruct (MaskFacts.morphologyEx_shape a o k' n) as [_ ->]
           end.
    reflexivity.
  - apply MaskMoreFacts.morphologyEx_blank, MaskMoreFacts.morphologyEx_blank.
    intros i j Hi Hj. cbn [Np.map Np.cell Np.shape0 Np.shape1] in *.
    rewrite (MaskMoreFacts.min_norm2_of_sample _ _ (Hcol i j Hi Hj)).
    unfold MaskProcessor.exceeds.
    destruct (Z.ltb_spec (MaskProcessor.color_thresh self) 0); [lia |].
    destruct (Z.ltb_spec (MaskProcessor.color_thresh self
                          * MaskProcessor.color_thresh self) 0); [nia |].
    reflexivity.
Qed.

(** The theorem above on the sample sheet, which has one colour. *)
Lemma gen_mask_of_background_colours_is_empty_witness :
  exists m,
    MaskProcessor.gen_mask MaskProcessor.default SampleSheet.image = Py.Ok m
    /\ Np.all_cells (fun v => v = 0%Z) m.
Proof.
  destruct (gen_mask_of_background_colours_is_empty
              MaskProcessor.default SampleSheet.image
              (repeat (10, 20, 30)%Z 7))
    as (m & Hm & _ & _ & Hz).
  - reflexivity.
  - simpl. lia.
  - simpl. lia.
  - intros i j _ _. left. reflexivity.
  - exists m. split; [exact Hm | exact Hz].
Defined.

(** X7.  [gen_mask] fails in two cases only, each with its own exception: on
    an image of zero height or width with the [IndexError] of the first
    background probe, and on an image of non-zero area with a negative
    kernel size with the [ValueError] of [np.ones]; in every other case it
    returns a mask. *)
Theorem gen_mask_fails_on_empty_images_and_negative_kernels_only :
  forall (self : MaskProcessor.t) (img : Image),
    (MaskProcessor.gen_mask self img = Py.Raise Py.IndexError
     <-> Np.shape0 img = 0 \/ Np.shape1 img = 0)
    /\ (MaskProcessor.gen_mask self img = Py.Raise Py.ValueError
        <-> 0 < Np.shape0 img /\ 0 < Np.shape1 img
            /\ (MaskProcessor.kernel_size self < 0)%Z)
    /\ ((exists m, MaskProcessor.gen_mask self img = Py.Ok m)
        <-> 0 < Np.shape0 img /\ 0 < Np.shape1 img
            /\ (0 <= MaskProcessor.kernel_size self)%Z)
    /\ (forall e, MaskProcessor.gen_mask self img = Py.Raise e ->
                  e = Py.IndexError \/ e = Py.ValueError).
Proof.
  intros self img.
  destruct (MaskMoreFacts.gen_mask_cases self img)
    as [(Hz & E) | [(H0 & H1 & Hk & E) | (H0 & H1 & Hk & m & E)]];
    rewrite E.
  - split; [| split; [| split]].
    + split; [intros _; exact Hz | reflexivity].
    + split; [intros H; discriminate H | lia].
    + split; [intros [m Hm]; discriminate Hm | lia].
    + intros e He. injection He as <-. left. reflexivity.
  - split; [| split; [| split]].
    + split; [intros H; discriminate H | lia].
    + split; [intros _; repeat split; assumption | reflexivity].
    + split; [intros [m Hm]; discriminate Hm | lia].
    + intros e He. injection He as <-. right. reflexivity.
  - split; [| split; [| split]].
    + split; [intros H; discriminate H | lia].
    + split; [intros H; discriminate H | lia].
    + split; [intros _; repeat split; assumption | intros _; exists m; reflexivity].
    + intros e He. discriminate He.
Qed.

(* ===================================================================== *)
(** * Further properties of [extract_rois]                                *)
(* ===================================================================== *)

Module FrameFacts.

Import MaskProcessor.

Section Extremes.

Variable f : Z * Z -> Z.

Lemma fold_min_spec (p : Z * Z) (rest : list (Z * Z)) :
  let m := fold_right (fun q m => Z.min (f q) m) (f p) rest in
  (forall q, In q (p :: rest) -> (m <= f q)%Z)
  /\ exists q, In q (p :: rest) /\ m = f q.
Proof.
  induction rest as [| a t [IH1 [q [Hq Hm]]]]; cbn zeta; simpl.
  - split; [intros q [<- | []]; lia | exists p; auto].
  - split.
    + intros q' [<- | [<- | H]].
      * specialize (IH1 p (or_introl eq_refl)). simpl in IH1. lia.
      * lia.
      * specialize (IH1 q' (or_intror H)). simpl in IH1. lia.
    + simpl in Hm.
      destruct (Z.min_spec (f a) (fold_right (fun q m => Z.min (f q) m) (f p) t))
        as [[_ E] | [_ E]]; rewrite E.
      * exists a. auto.
      * exists q. split; [| exact Hm]. destruct Hq as [<- | Hq]; auto.
Qed.

Lemma fold_max_spec (p : Z * Z) (rest : list (Z * Z)) :
  let m := fold_right (fun q m => Z.max (f q) m) (f p) rest in
  (forall q, In q (p :: rest) -> (f q <= m)%Z)
  /\ exists q, In q (p :: rest) /\ m = f q.
Proof.
  induction rest as [| a t [IH1 [q [Hq Hm]]]]; cbn zeta; simpl.
  - split; [intros q [<- | []]; lia | exists p; auto].
  - split.
    + intros q' [<- | [<- | H]].
      * specialize (IH1 p (or_introl eq_refl)). simpl in IH1. lia.
      * lia.
      * specialize (IH1 q' (or_intror H)). simpl in IH1. lia.
    + simpl in Hm.
      destruct (Z.max_spec (f a) (fold_right (fun q m => Z.max (f q) m) (f p) t))
        as [[_ E] | [_ E]]; rewrite E.
      * exists q. split; [| exact Hm]. destruct Hq as [<- | Hq]; auto.
      * exists a. auto.
Qed.

End Extremes.

(** The bounding rectangle of a contour of the image lies in the image and
    holds every vertex. *)
Lemma boundingRect_inside (img : Image) (c : Cv.Contour) :
  SpecFrame.contour_inside img c ->
  let '(x, y, w, h) := Cv.boundingRect c in
  (0 <= x)%Z /\ (0 <= y)%Z /\ (0 < w)%Z /\ (0 < h)%Z
  /\ (x + w <= Z.of_nat (Np.shape1 img))%Z
  /\ (y + h <= Z.of_nat (Np.shape0 img))%Z
  /\ Forall (fun p => (x <= fst p < x + w)%Z /\ (y <= snd p < y + h)%Z) c.
Proof.
  intros [Hne Hin]. destruct c as [| p rest]; [contradiction |].
  unfold Cv.boundingRect.
  destruct (fold_min_spec fst p rest) as [Hx1 (qx1 & Hqx1 & Ex1)].
  destruct (fold_max_spec fst p rest) as [Hx2 (qx2 & Hqx2 & Ex2)].
  destruct (fold_min_spec snd p rest) as [Hy1 (qy1 & Hqy1 & Ey1)].
  destruct (fold_max_spec snd p rest) as [Hy2 (qy2 & Hqy2 & Ey2)].
  cbv zeta in *.
  set (xmin := fold_right (fun q m => Z.min (fst q) m) (fst p) rest) in *.
  set (xmax := fold_right (fun q m => Z.max (fst q) m) (fst p) rest) in *.
  set (ymin := fold_right (fun q m => Z.min (snd q) m) (snd p) rest) in *.
  set (ymax := fold_right (fun q m => Z.max (snd q) m) (snd p) rest) in *.
  rewrite Forall_forall in Hin.
  pose proof (Hin _ Hqx1) as [B1 _]. pose proof (Hin _ Hqx2) as [B2 _].
  pose proof (Hin _ Hqy1) as [_ B3]. pose proof (Hin _ Hqy2) as [_ B4].
  pose proof (Hx1 _ Hqx2) as C1. pose proof (Hy1 _ Hqy2) as C2.
  repeat split; try lia.
  apply Forall_forall. intros q Hq.
  pose proof (Hx1 _ Hq). pose proof (Hx2 _ Hq).
  pose proof (Hy1 _ Hq). pose proof (Hy2 _ Hq). lia.
Qed.

End FrameFacts.

Module PasteFacts.

Import MaskProcessor.

Lemma clamp_inside (n : nat) (i : Z) :
  (0 <= i <= Z.of_nat n)%Z -> Np.clamp n i = Z.to_nat i.
Proof.
  intros H. unfold Np.clamp. destruct (Z.ltb_spec i 0); lia.
Qed.

Lemma broadcast_cell_inside {A : Type} (src : Np.ndarray A) (r c : nat) :
  r < Np.shape0 src -> c < Np.shape1 src ->
  Np.broadcast_cell src r c = Np.cell src r c.
Proof.
  intros Hr Hc. unfold Np.broadcast_cell.
  destruct (Nat.eqb_spec (Np.shape0 src) 1);
    destruct (Nat.eqb_spec (Np.shape1 src) 1);
    try replace r with 0 by lia; try replace c with 0 by lia; reflexivity.
Qed.

(** An assignment to a slice whose extent is the shape of the source: the
    source lands on the window, the rest is kept. *)
Lemma assign_slice_window {A B : Type} (f : A -> B -> A) (a : Np.ndarray A)
      (r0 r1 c0 c1 : Z) (src : Np.ndarray B) :
  (0 <= r0 <= r1)%Z -> (r1 <= Z.of_nat (Np.shape0 a))%Z ->
  (0 <= c0 <= c1)%Z -> (c1 <= Z.of_nat (Np.shape1 a))%Z ->
  Z.of_nat (Np.shape0 src) = (r1 - r0)%Z ->
  Z.of_nat (Np.shape1 src) = (c1 - c0)%Z ->
  exists a',
    Np.assign_slice f a r0 r1 c0 c1 src = Py.Ok a'
    /\ Np.shape0 a' = Np.shape0 a /\ Np.shape1 a' = Np.shape1 a
    /\ forall i j,
        Np.cell a' i j
        = if ((r0 <=? Z.of_nat i) && (Z.of_nat i <? r1)
              && (c0 <=? Z.of_nat j) && (Z.of_nat j <? c1))%Z
          then f (Np.cell a i j)
                 (Np.cell src (i - Z.to_nat r0) (j - Z.to_nat c0))
          else Np.cell a i j.
Proof.
  intros Hr Hr1 Hc Hc1 Hs0 Hs1. unfold Np.assign_slice. cbv zeta.
  rewrite !clamp_inside by lia.
  replace (Z.to_nat r1 - Z.to_nat r0) with (Np.shape0 src) by lia.
  replace (Z.to_nat c1 - Z.to_nat c0) with (Np.shape1 src) by lia.
  rewrite ShapeFacts.broadcasts_same.
  eexists. split; [reflexivity |]. split; [reflexivity |].
  split; [reflexivity |].
  intros i j. cbn [Np.cell].
  destruct (Nat.leb_spec (Z.to_nat r0) i);
    destruct (Z.leb_spec r0 (Z.of_nat i)); try lia; cbn [andb];
    try reflexivity.
  destruct (Nat.ltb_spec i (Z.to_nat r1));
    destruct (Z.ltb_spec (Z.of_nat i) r1); try lia; cbn [andb];
    try reflexivity.
  destruct (Nat.leb_spec (Z.to_nat c0) j);
    destruct (Z.leb_spec c0 (Z.of_nat j)); try lia; cbn [andb];
    try reflexivity.
  destruct (Nat.ltb_spec j (Z.to_nat c1));
    destruct (Z.ltb_spec (Z.of_nat j) c1); try lia; cbn [andb];
    try reflexivity.
  rewrite broadcast_cell_inside by lia. reflexivity.
Qed.

Lemma paste_bounds (out size : Z) :
  (0 <= out)%Z -> (0 < size)%Z ->
  (0 <= SpecFrame.paste_start out size <= out)%Z
  /\ (0 <= SpecFrame.paste_count out size <= size)%Z
  /\ (SpecFrame.paste_start out size + SpecFrame.paste_count out size <= out)%Z.
Proof.
  intros Hout Hsize. unfold SpecFrame.paste_count, SpecFrame.paste_start.
  assert (Hd : (2 * ((out - size) / 2) <= out - size)%Z)
    by (apply Z.mul_div_le; lia).
  lia.
Qed.

(** What the loop body of [extract_rois] builds from a contour of the
    image. *)
Lemma make_roi_spec self img mask cnt a i roi :
  Np.same_shape img mask = true ->
  (0 <= pad self)%Z ->
  SpecFrame.contour_inside img cnt ->
  make_roi self img mask cnt a i = Py.Ok roi ->
  SpecFrame.box_in_image img roi
  /\ SpecFrame.box_covers roi cnt
  /\ SpecFrame.mask_is_crop mask roi
  /\ SpecFrame.image_is_pasted_crop self img mask roi.
Proof.
  intros Hshape Hpad Hin.
  apply andb_true_iff in Hshape. destruct Hshape as [S0 S1].
  apply Nat.eqb_eq in S0, S1.
  pose proof (FrameFacts.boundingRect_inside img cnt Hin) as Hbr.
  unfold make_roi.
  destruct (Cv.boundingRect cnt) as [[[x y] w2] h2].
  destruct Hbr as (Bx & By & Bw & Bh & Bxw & Byh & Bcov).
  cbv zeta.
  set (X := Z.max 0 (x - pad self)).
  set (Y := Z.max 0 (y - pad self)).
  set (W2 := Z.min (Z.of_nat (Np.shape1 img) - X) (w2 + 2 * pad self)).
  set (H2 := Z.min (Z.of_nat (Np.shape0 img) - Y) (h2 + 2 * pad self)).
  assert (HX : (0 <= X <= x)%Z) by (unfold X; lia).
  assert (HY : (0 <= Y <= y)%Z) by (unfold Y; lia).
  assert (HW : (0 < W2 /\ X + W2 <= Z.of_nat (Np.shape1 img)
                /\ x + w2 <= X + W2)%Z) by (unfold W2, X; lia).
  assert (HH : (0 < H2 /\ Y + H2 <= Z.of_nat (Np.shape0 img)
                /\ y + h2 <= Y + H2)%Z) by (unfold H2, Y; lia).
  clearbody X Y W2 H2.
  assert (Hri0 : Np.shape0 (Np.slice img Y (Y + H2) X (X + W2)) = Z.to_nat H2).
  { cbn [Np.slice Np.shape0]. rewrite !clamp_inside by lia. lia. }
  assert (Hri1 : Np.shape1 (Np.slice img Y (Y + H2) X (X + W2)) = Z.to_nat W2).
  { cbn [Np.slice Np.shape1]. rewrite !clamp_inside by lia. lia. }
  assert (Hrm0 : Np.shape0 (Np.slice mask Y (Y + H2) X (X + W2)) = Z.to_nat H2).
  { cbn [Np.slice Np.shape0]. rewrite <- S0, !clamp_inside by lia. lia. }
  assert (Hrm1 : Np.shape1 (Np.slice mask Y (Y + H2) X (X + W2)) = Z.to_nat W2).
  { cbn [Np.slice Np.shape1]. rewrite <- S1, !clamp_inside by lia. lia. }
  assert (Hric : forall r c, Np.cell (Np.slice img Y (Y + H2) X (X + W2)) r c
                             = Np.cell img (Z.to_nat Y + r) (Z.to_nat X + c)).
  { intros r c. cbn [Np.slice Np.cell]. rewrite !clamp_inside by lia.
    reflexivity. }
  assert (Hrmc : forall r c, Np.cell (Np.slice mask Y (Y + H2) X (X + W2)) r c
                             = Np.cell mask (Z.to_nat Y + r) (Z.to_nat X + c)).
  { intros r c. cbn [Np.slice Np.cell]. rewrite <- S0, <- S1.
    rewrite !clamp_inside by lia. reflexivity. }
  set (ri := Np.slice img Y (Y + H2) X (X + W2)) in *.
  set (rm := Np.slice mask Y (Y + H2) X (X + W2)) in *.
  clearbody ri rm.
  destruct (assign_slice_window set_alpha ri
              0 (Z.of_nat (Np.shape0 ri)) 0 (Z.of_nat (Np.shape1 ri)) rm)
    as (ra & -> & Hra0 & Hra1 & Hrac); try lia.
  cbn [Py.bind]. unfold Np.zeros.
  destruct (Z.ltb_spec (out_height self) 0) as [Hoh | Hoh];
    [intros H; discriminate H |].
  destruct (Z.ltb_spec (out_width self) 0) as [How | How];
    [intros H; discriminate H |].
  cbn [orb Py.bind].
  rewrite Hra0, Hra1, Hri0, Hri1.
  rewrite !(Z2Nat.id H2), !(Z2Nat.id W2) by lia.
  fold (SpecFrame.paste_start (out_height self) H2).
  fold (SpecFrame.paste_start (out_width self) W2).
  fold (SpecFrame.paste_count (out_height self) H2).
  fold (SpecFrame.paste_count (out_width self) W2).
  destruct (paste_bounds (out_height self) H2 Hoh (proj1 HH))
    as (Hsy & Hcy & Hsyc).
  destruct (paste_bounds (out_width self) W2 How (proj1 HW))
    as (Hsx & Hcx & Hsxc).
  set (sy := SpecFrame.paste_start (out_height self) H2) in *.
  set (sx := SpecFrame.paste_start (out_width self) W2) in *.
  set (cy := SpecFrame.paste_count (out_height self) H2) in *.
  set (cx := SpecFrame.paste_count (out_width self) W2) in *.
  assert (Hsrc0 : Np.shape0 (Np.slice ra 0 cy 0 cx) = Z.to_nat cy).
  { cbn [Np.slice Np.shape0].
    rewrite ShapeFacts.clamp_zero, clamp_inside by lia. lia. }
  assert (Hsrc1 : Np.shape1 (Np.slice ra 0 cy 0 cx) = Z.to_nat cx).
  { cbn [Np.slice Np.shape1].
    rewrite ShapeFacts.clamp_zero, clamp_inside by lia. lia. }
  assert (Hsrcc : forall r c, Np.cell (Np.slice ra 0 cy 0 cx) r c
                              = Np.cell ra r c).
  { intros r c. cbn [Np.slice Np.cell]. rewrite !ShapeFacts.clamp_zero.
    reflexivity. }
  set (src := Np.slice ra 0 cy 0 cx) in *. clearbody src.
  destruct (assign_slice_window (fun _ new : RGBA => new)
              (Np.full (Z.to_nat (out_height self)) (Z.to_nat (out_width self))
                       transparent)
              sy (sy + cy) sx (sx + cx) src)
    as (cv & -> & Hcv0 & Hcv1 & Hcvc);
    try (cbn [Np.full Np.shape0 Np.shape1]; lia).
  cbn [Py.bind]. intros H. injection H as <-.
  split; [| split; [| split]].
  - unfold SpecFrame.box_in_image. cbn [FrameROI.init FrameROI.x FrameROI.y
                                           FrameROI.w FrameROI.h]. lia.
  - unfold SpecFrame.box_covers. cbn [FrameROI.init FrameROI.x FrameROI.y
                                         FrameROI.w FrameROI.h].
    eapply Forall_impl; [| exact Bcov]. intros p Hp. cbv beta in Hp. lia.
  - unfold SpecFrame.mask_is_crop.
    cbn [FrameROI.init FrameROI.x FrameROI.y FrameROI.w FrameROI.h
         FrameROI.mask].
    split; [lia |]. split; [lia |]. intros r c _ _. apply Hrmc.
  - unfold SpecFrame.image_is_pasted_crop.
    cbn [FrameROI.init FrameROI.x FrameROI.y FrameROI.w FrameROI.h
         FrameROI.img].
    rewrite Hcv0, Hcv1. cbn [Np.full Np.shape0 Np.shape1].
    split; [lia |]. split; [lia |].
    intros r c Hr Hc. cbv zeta. fold sy sx cy cx.
    clearbody sy sx cy cx.
    rewrite Hcvc. cbn [Np.full Np.cell].
    destruct ((sy <=? Z.of_nat r)%Z && (Z.of_nat r <? sy + cy)%Z
              && (sx <=? Z.of_nat c)%Z && (Z.of_nat c <? sx + cx)%Z) eqn:E;
      [| reflexivity].
    rewrite !andb_true_iff in E. destruct E as (((E1 & E2) & E3) & E4).
    apply Z.leb_le in E1, E3. apply Z.ltb_lt in E2, E4.
    rewrite Hsrcc, Hrac.
    destruct (Z.leb_spec 0 (Z.of_nat (r - Z.to_nat sy))); [| lia].
    destruct (Z.ltb_spec (Z.of_nat (r - Z.to_nat sy))
                         (Z.of_nat (Np.shape0 ri))); [| lia].
    destruct (Z.leb_spec 0 (Z.of_nat (c - Z.to_nat sx))); [| lia].
    destruct (Z.ltb_spec (Z.of_nat (c - Z.to_nat sx))
                         (Z.of_nat (Np.shape1 ri))); [| lia].
    cbn [andb]. rewrite !Nat.sub_0_r, Hric, Hrmc.
    replace (Z.to_nat (Y + (Z.of_nat r - sy)))
      with (Z.to_nat Y + (r - Z.to_nat sy)) by lia.
    replace (Z.to_nat (X + (Z.of_nat c - sx)))
      with (Z.to_nat X + (c - Z.to_nat sx)) by lia.
    reflexivity.
Qed.

End PasteFacts.

Module LoopFacts.

Import MaskProcessor.

(** What holds of every frame the loop body builds holds of every frame the
    loop returns, for the contour it was built from. *)
Lemma extract_loop_each (P : FrameROI.t -> Cv.Contour -> Prop)
      self img mask : forall cnts i rois,
  (forall cnt a k roi,
      In cnt cnts -> make_roi self img mask cnt a k = Py.Ok roi ->
      FrameROI.area roi = a -> P roi cnt) ->
  extract_loop self img mask cnts i = Py.Ok rois ->
  Forall (fun r => exists cnt,
              In cnt cnts /\ FrameROI.area r = Cv.contourArea cnt /\ P r cnt)
         rois.
Proof.
  induction cnts as [| cnt rest IH]; intros i rois HP H.
  - simpl in H. injection H as <-. constructor.
  - simpl in H.
    assert (Hrest : forall rois' k,
               extract_loop self img mask rest k = Py.Ok rois' ->
               Forall (fun r => exists c,
                           In c (cnt :: rest)
                           /\ FrameROI.area r = Cv.contourArea c /\ P r c)
                      rois').
    { intros rois' k Hl.
      eapply Forall_impl; [| apply (IH k rois'); [| exact Hl]].
      - intros r (c & Hc & Ha & Hp). exists c. split; [right; exact Hc |].
        split; assumption.
      - intros c a0 k0 roi0 Hc. apply HP. right. exact Hc. }
    destruct (_ || _).
    + apply (Hrest _ _ H).
    + destruct (make_roi self img mask cnt (Cv.contourArea cnt) i)
        as [roi | e] eqn:Hroi; [| discriminate H].
      cbn [Py.bind] in H.
      destruct (extract_loop self img mask rest (i + 1)) as [rois' | e] eqn:Hl;
        [| discriminate H].
      cbn [Py.bind] in H. injection H as <-.
      destruct (ExtractFacts.make_roi_fields _ _ _ _ _ _ _ Hroi) as [_ Ha].
      constructor; [| apply (Hrest _ _ Hl)].
      exists cnt. split; [left; reflexivity |]. split; [exact Ha |].
      apply (HP cnt (Cv.contourArea cnt) i roi); auto. left. reflexivity.
Qed.

(** The contours the loop of [extract_rois] looks at are contours that
    [findContours] returned. *)
Lemma looked_at_contours (l : list Cv.Contour) (k : Z) (c : Cv.Contour) :
  In c (Py.slice_to (Py.sorted Qle_bool Cv.contourArea true l) k) -> In c l.
Proof.
  intros H. unfold Py.slice_to in H.
  assert (Hs : In c (Py.sorted Qle_bool Cv.contourArea true l)).
  { destruct (k <? 0)%Z;
      match type of H with
      | In _ (firstn ?n ?s) =>
          rewrite <- (firstn_skipn n s); apply in_or_app; left; exact H
      end. }
  eapply Permutation_in; [| exact Hs].
  apply Permutation_sym, SortFacts.sorted_perm.
Qed.

End LoopFacts.

(** X8.  Every frame that [extract_rois] returns has a box [(x, y, w, h)]
    that is not empty, lies inside the sheet and covers every vertex of the
    contour the frame was cut for, and its mask is exactly the part of the
    sheet mask under that box.  This holds when the mask has the shape of
    the image, the padding is not negative and the contours lie in the
    image. *)
Theorem extracted_boxes_lie_in_the_sheet_and_cover_their_contour :
  forall (findContours : Mask -> list Cv.Contour) (self : MaskProcessor.t)
         (img : Image) (mask : Mask) (rois : list FrameROI.t),
    Np.same_shape img mask = true ->
    (0 <= MaskProcessor.pad self)%Z ->
    (forall c, In c (findContours mask) -> SpecFrame.contour_inside img c) ->
    MaskProcessor.extract_rois findContours self img mask = Py.Ok rois ->
    Forall (fun r =>
              SpecFrame.box_in_image img r
              /\ SpecFrame.mask_is_crop mask r
              /\ exists c,
                  In c (findContours mask)
                  /\ FrameROI.area r = Cv.contourArea c
                  /\ SpecFrame.box_covers r c)
           rois.
Proof.
  intros fc self img mask rois Hshape Hpad Hin H.
  unfold MaskProcessor.extract_rois in H.
  pose proof (LoopFacts.extract_loop_each
                (fun r c => SpecFrame.box_in_image img r
                            /\ SpecFrame.mask_is_crop mask r
                            /\ SpecFrame.box_covers r c)
                self img mask
                (Py.slice_to (Py.sorted Qle_bool Cv.contourArea true (fc mask))
                             (MaskProcessor.max_extract self))
                1%Z rois) as HL.
  eapply Forall_impl; [| apply HL; [| exact H]].
  - intros r (c & Hc & Ha & Hb & Hm & Hcov).
    split; [exact Hb |]. split; [exact Hm |].
    exists c. split; [exact (LoopFacts.looked_at_contours _ _ _ Hc) |].
    split; assumption.
  - intros cnt a k roi Hc Hroi _.
    destruct (PasteFacts.make_roi_spec self img mask cnt a k roi Hshape Hpad
                (Hin cnt (LoopFacts.looked_at_contours _ _ _ Hc)) Hroi)
      as (Hb & Hcov & Hm & _).
    split; [exact Hb |]. split; [exact Hm | exact Hcov].
Qed.

Lemma sample_contours_inside :
  forall c, In c (SampleSheet.findContours SampleSheet.mask) ->
            SpecFrame.contour_inside SampleSheet.image c.
Proof.
  intros c [<- | [<- | [<- | []]]];
    (split; [discriminate | repeat constructor; simpl; lia]).
Qed.

(** The theorem above on the sample sheet. *)
Lemma extracted_boxes_lie_in_the_sheet_and_cover_their_contour_witness :
  Forall (fun r => SpecFrame.box_in_image SampleSheet.image r) SampleSheet.rois.
Proof.
  eapply Forall_impl;
    [| apply (extracted_boxes_lie_in_the_sheet_and_cover_their_contour
                SampleSheet.findContours SampleSheet.processor
                SampleSheet.image SampleSheet.mask SampleSheet.rois)].
  - intros r Hr. exact (proj1 Hr).
  - reflexivity.
  - simpl. lia.
  - exact sample_contours_inside.
  - exact sample_extraction.
Defined.

(** X9.  The image of every frame that [extract_rois] returns is a canvas
    of [out_height] by [out_width] pixels, transparent except for one patch:
    the pixels of the sheet under the box of the frame, with the sheet mask
    as their alpha channel.  A box that fits the canvas is pasted whole and
    centred (the odd pixel of slack goes to the right and bottom); of a box
    that is larger, the top-left part that fits is pasted at the edge. *)
Theorem extracted_images_are_centred_crops_with_the_mask_as_alpha :
  forall (findContours : Mask -> list Cv.Contour) (self : MaskProcessor.t)
         (img : Image) (mask : Mask) (rois : list FrameROI.t),
    Np.same_shape img mask = true ->
    (0 <= MaskProcessor.pad self)%Z ->
    (forall c, In c (findContours mask) -> SpecFrame.contour_inside img c) ->
    MaskProcessor.extract_rois findContours self img mask = Py.Ok rois ->
    Forall (SpecFrame.image_is_pasted_crop self img mask) rois.
Proof.
  intros fc self img mask rois Hshape Hpad Hin H.
  unfold MaskProcessor.extract_rois in H.
  pose proof (LoopFacts.extract_loop_each
                (fun r _ => SpecFrame.image_is_pasted_crop self img mask r)
                self img mask
                (Py.slice_to (Py.sorted Qle_bool Cv.contourArea true (fc mask))
                             (MaskProcessor.max_extract self))
                1%Z rois) as HL.
  eapply Forall_impl; [| apply HL; [| exact H]].
  - intros r (c & _ & _ & Hp). exact Hp.
  - intros cnt a k roi Hc Hroi _.
    apply (PasteFacts.make_roi_spec self img mask cnt a k roi Hshape Hpad
             (Hin cnt (LoopFacts.looked_at_contours _ _ _ Hc)) Hroi).
Qed.

(** The theorem above on the sample sheet. *)
Lemma extracted_images_are_centred_crops_with_the_mask_as_alpha_witness :
  Forall (SpecFrame.image_is_pasted_crop SampleSheet.processor
                                         SampleSheet.image SampleSheet.mask)
         SampleSheet.rois.
Proof.
  apply (extracted_images_are_centred_crops_with_the_mask_as_alpha
           SampleSheet.findContours SampleSheet.processor
           SampleSheet.image SampleSheet.mask SampleSheet.rois).
  - reflexivity.
  - simpl. lia.
  - exact sample_contours_inside.
  - exact sample_extraction.
Defined.

(* ===================================================================== *)
(** * Further properties of file naming                                   *)
(* ===================================================================== *)

Module NameFacts.

Import MaskProcessor.

Lemma match_here_needs_bracket (s : string) :
  Exporting.mentions "[" s = false -> match_here s = None.
Proof.
  destruct s as [| c s']; [reflexivity |].
  simpl. intros H. apply orb_false_iff in H. destruct H as [Hc _].
  unfold is_char. rewrite Hc. reflexivity.
Qed.

(** A text without an opening bracket holds no placeholder. *)
Lemma finditer_without_bracket (s : string) : forall skip,
  Exporting.mentions "[" s = false -> finditer_from skip s = [].
Proof.
  induction s as [| c s' IH]; intros skip H; [reflexivity |].
  pose proof (match_here_needs_bracket _ H) as Hm.
  simpl in H. apply orb_false_iff in H. destruct H as [_ Hs].
  cbn [finditer_from]. destruct skip as [| k]; [| apply IH; exact Hs].
  rewrite Hm. apply IH. exact Hs.
Qed.

End NameFacts.

(** X10.  The name [_export_rois] saves a frame under is exactly the name
    [render_filename] returns: rendering never raises, so the fallback name
    [frame_NN.png] is never used, and the rendered name always ends in
    [.png] up to the case of the letters, so the suffix is never appended a
    second time. *)
Theorem export_name_is_the_rendered_name :
  forall (py_str : MaskProcessor.value -> string)
         (py_format : MaskProcessor.value -> string -> Py.result string)
         (template : string) (roi : FrameROI.t),
    exists name log,
      MaskProcessor.render_filename py_str py_format template roi
      = Py.Ok (name, log)
      /\ Exporting.export_name py_str py_format template roi = Py.Ok name.
Proof.
  intros py_str py_format template roi.
  unfold Exporting.export_name, MaskProcessor.render_filename.
  destruct (TextFacts.render_loop_returns py_str py_format roi
              (MaskProcessor.finditer template) (template, []))
    as [[name log] ->].
  cbn [Py.bind fst snd].
  exists (MaskProcessor.finish_name name), log.
  split; [reflexivity |].
  rewrite TextFacts.finish_name_png. reflexivity.
Qed.

(** X11.  A naming template without any placeholder, in particular one
    without an opening bracket, gives every frame the same file name: the
    sanitised template with its [.png] suffix, and no warning is logged.  All
    frames of an export then go to one and the same file. *)
Theorem template_without_placeholder_names_all_frames_alike :
  forall (py_str : MaskProcessor.value -> string)
         (py_format : MaskProcessor.value -> string -> Py.result string)
         (template : string),
    (Exporting.mentions "[" template = false ->
     MaskProcessor.finditer template = [])
    /\ (MaskProcessor.finditer template = [] ->
        forall roi : FrameROI.t,
          MaskProcessor.render_filename py_str py_format template roi
          = Py.Ok (MaskProcessor.finish_name template, [])
          /\ Exporting.export_name py_str py_format template roi
             = Py.Ok (MaskProcessor.finish_name template)).
Proof.
  intros py_str py_format template. split.
  - intros H. apply NameFacts.finditer_without_bracket. exact H.
  - intros Hnone roi.
    assert (E : MaskProcessor.render_filename py_str py_format template roi
                = Py.Ok (MaskProcessor.finish_name template, [])).
    { unfold MaskProcessor.render_filename. rewrite Hnone. reflexivity. }
    split; [exact E |].
    unfold Exporting.export_name. rewrite E. cbn [Py.bind].
    rewrite TextFacts.finish_name_png. reflexivity.
Qed.

(** The theorem above at the template [frame], for the frame with index 7
    and a fresh frame. *)
Lemma template_without_placeholder_names_all_frames_alike_witness :
  Exporting.export_name SampleText.py_str SampleText.py_format "frame"
                     SampleText.roi7
  = Py.Ok "frame.png"%string
  /\ Exporting.export_name SampleText.py_str SampleText.py_format "frame"
                        Sample.roi0
     = Py.Ok "frame.png"%string.
Proof.
  destruct (template_without_placeholder_names_all_frames_alike
              SampleText.py_str SampleText.py_format "frame")
    as [H1 H2].
  split.
  - apply (H2 (H1 eq_refl) SampleText.roi7).
  - apply (H2 (H1 eq_refl) Sample.roi0).
Defined.

(* ===================================================================== *)
(** * Further properties of the mask editor                               *)
(* ===================================================================== *)

Module ConsistencyFacts.

Import MaskEditWidget.

Lemma set_mode_base_img self m : base_img (set_mode self m) = base_img self.
Proof. HistoryFacts.set_mode_cases self m. Qed.

Lemma with_mask_same self m : mask self = Some m -> with_mask self (Some m) = self.
Proof. intros H. destruct self. cbn in H. subst. reflexivity. Qed.

(** [push_history] is the commit of the mask the editor holds. *)
Lemma push_history_commit self m :
  mask self = Some m -> push_history self = commit self m.
Proof. intros H. unfold commit. rewrite (with_mask_same self m H). reflexivity. Qed.

Lemma push_history_base_img self : base_img (push_history self) = base_img self.
Proof.
  unfold push_history. destruct (mask self); [| reflexivity].
  destruct (MAX_HISTORY_SIZE <? _); reflexivity.
Qed.

Lemma push_history_mask self : mask (push_history self) = mask self.
Proof.
  unfold push_history. destruct (mask self) eqn:E; [| exact E].
  destruct (MAX_HISTORY_SIZE <? _); exact E.
Qed.

Lemma push_history_mode self : mode (push_history self) = mode self.
Proof.
  unfold push_history. destruct (mask self); [| reflexivity].
  destruct (MAX_HISTORY_SIZE <? _); reflexivity.
Qed.

Lemma push_history_gc self :
  gc_initialized (push_history self) = gc_initialized self
  /\ gc_mask (push_history self) = gc_mask self.
Proof.
  unfold push_history. destruct (mask self); [| auto].
  destruct (MAX_HISTORY_SIZE <? _); auto.
Qed.

Lemma Forall_slice_last {A : Type} (P : A -> Prop) (k : nat) (l : list A) :
  Forall P l -> Forall P (Py.slice_last k l).
Proof.
  intros H. unfold Py.slice_last.
  rewrite <- (firstn_skipn (length l - k) l) in H.
  apply Forall_app in H. apply H.
Qed.

Lemma Forall_firstn {A : Type} (P : A -> Prop) (k : nat) (l : list A) :
  Forall P l -> Forall P (firstn k l).
Proof.
  intros H. rewrite <- (firstn_skipn k l) in H.
  apply Forall_app in H. apply H.
Qed.

(** A commit of a mask of the right shape keeps the editor consistent. *)
Lemma commit_history self (b : Image) (m : Mask) :
  Forall (fun s => Np.same_shape b s = true) (history self) ->
  Np.same_shape b m = true ->
  history_idx self < length (history self) ->
  Forall (fun s => Np.same_shape b s = true) (history (commit self m))
  /\ history_idx (commit self m) < length (history (commit self m))
  /\ length (history (commit self m)) <= MAX_HISTORY_SIZE
  /\ nth_error (history (commit self m)) (history_idx (commit self m)) = Some m.
Proof.
  intros Hall Hm Hp.
  destruct (HistoryFacts.commit_spec self m Hp) as (Hh & Hi & _).
  pose proof (HistoryFacts.commit_length self m Hp) as Hl.
  split; [| split; [lia | split; [exact Hl |]]].
  - rewrite Hh. apply Forall_slice_last, Forall_app. split.
    + apply Forall_firstn. exact Hall.
    + constructor; [exact Hm | constructor].
  - replace (history_idx (commit self m))
      with (length (history (commit self m)) - 1) by lia.
    rewrite Hh. unfold Py.slice_last. rewrite nth_error_skipn.
    rewrite length_skipn.
    set (l := firstn (history_idx self + 1) (history self) ++ [m]) in *.
    assert (Hlen : length l = history_idx self + 2).
    { unfold l. rewrite length_app, length_firstn. simpl. lia. }
    assert (E : length l - MAX_HISTORY_SIZE
                + (length l - (length l - MAX_HISTORY_SIZE) - 1)
                = length l - 1).
    { unfold MAX_HISTORY_SIZE. lia. }
    rewrite E, Hlen.
    assert (Hf : length (firstn (history_idx self + 1) (history self))
                 = history_idx self + 1) by (rewrite length_firstn; lia).
    unfold l. rewrite nth_error_app2 by lia.
    rewrite Hf. replace (history_idx self + 2 - 1 - (history_idx self + 1))
      with 0 by lia.
    reflexivity.
Qed.

(** What a move of the pointer leaves behind. *)
Lemma after_move_full self p m :
  nth_error (history self) p = Some m ->
  exists self',
    after_move self p = Py.Ok (true, self')
    /\ history self' = history self
    /\ history_idx self' = p
    /\ mask self' = Some m
    /\ base_img self' = base_img self.
Proof.
  intros Hm. unfold after_move. rewrite Hm.
  eexists. split; [reflexivity |].
  destruct (mode_eqb _ grabcut_refine).
  - change (history (emit ?x ?e)) with (history x).
    change (history_idx (emit ?x ?e)) with (history_idx x).
    change (mask (emit ?x ?e)) with (mask x).
    change (base_img (emit ?x ?e)) with (base_img x).
    rewrite HistoryFacts.set_mode_history, HistoryFacts.set_mode_history_idx,
      HistoryFacts.set_mode_mask, set_mode_base_img.
    repeat split.
  - repeat split.
Qed.

Import MaskEditMore.

Lemma push_history_markers self :
  watershed_markers (push_history self) = watershed_markers self.
Proof.
  unfold push_history. destruct (mask self); [| reflexivity].
  destruct (MAX_HISTORY_SIZE <? _); reflexivity.
Qed.

(** Consistency only looks at the image, the mask, the history and, in
    marker mode, the label map. *)
Lemma consistent_ext self self' :
  base_img self' = base_img self -> mask self' = mask self ->
  history self' = history self -> history_idx self' = history_idx self ->
  (mode self' = watershed_mark ->
   mode self = watershed_mark
   /\ watershed_markers self' = watershed_markers self) ->
  consistent self -> consistent self'.
Proof.
  intros Hb Hm Hh Hi Hw (b & m & H1 & H2 & H3 & H4 & H5 & H6 & H7).
  exists b, m. rewrite Hb, Hm, Hh, Hi.
  split; [exact H1 |]. split; [exact H2 |]. split; [exact H3 |].
  split; [exact H4 |]. split; [exact H5 |]. split; [exact H6 |].
  intros Hmd. destruct (Hw Hmd) as [Hmd' ->]. exact (H7 Hmd').
Qed.

(** The fields consistency looks at are the same in both states. *)
Ltac same_fields :=
  first [reflexivity | intros Hmd; split; [exact Hmd | reflexivity]].

(** Leaving marker mode, or any state that is not in marker mode. *)
Lemma consistent_other_mode self self' :
  base_img self' = base_img self -> mask self' = mask self ->
  history self' = history self -> history_idx self' = history_idx self ->
  mode self' <> watershed_mark ->
  consistent self -> consistent self'.
Proof.
  intros Hb Hm Hh Hi Hw (b & m & H1 & H2 & H3 & H4 & H5 & H6 & H7).
  exists b, m. rewrite Hb, Hm, Hh, Hi.
  split; [exact H1 |]. split; [exact H2 |]. split; [exact H3 |].
  split; [exact H4 |]. split; [exact H5 |]. split; [exact H6 |].
  intros Hmd. contradiction.
Qed.

Lemma consistent_set_mode self md : consistent self -> consistent (set_mode self md).
Proof.
  intros H. pose proof H as (b & m & H1 & H2 & H3 & H4 & H5 & H6 & H7).
  destruct (mode_eqb md (mode self)) eqn:E.
  - unfold set_mode. rewrite E. exact H.
  - destruct md.
    + revert H. apply consistent_other_mode;
        [apply set_mode_base_img | apply HistoryFacts.set_mode_mask
         | apply HistoryFacts.set_mode_history
         | apply HistoryFacts.set_mode_history_idx |].
      rewrite EditorFacts.set_mode_mode. discriminate.
    + revert H. apply consistent_other_mode;
        [apply set_mode_base_img | apply HistoryFacts.set_mode_mask
         | apply HistoryFacts.set_mode_history
         | apply HistoryFacts.set_mode_history_idx |].
      rewrite EditorFacts.set_mode_mode. discriminate.
    + revert H. apply consistent_other_mode;
        [apply set_mode_base_img | apply HistoryFacts.set_mode_mask
         | apply HistoryFacts.set_mode_history
         | apply HistoryFacts.set_mode_history_idx |].
      rewrite EditorFacts.set_mode_mode. discriminate.
    + revert H. apply consistent_other_mode;
        [apply set_mode_base_img | apply HistoryFacts.set_mode_mask
         | apply HistoryFacts.set_mode_history
         | apply HistoryFacts.set_mode_history_idx |].
      rewrite EditorFacts.set_mode_mode. discriminate.
    + exists b, m.
      rewrite set_mode_base_img, HistoryFacts.set_mode_mask,
        HistoryFacts.set_mode_history, HistoryFacts.set_mode_history_idx.
      split; [exact H1 |]. split; [exact H2 |]. split; [exact H3 |].
      split; [exact H4 |]. split; [exact H5 |]. split; [exact H6 |].
      intros _. unfold set_mode. rewrite E.
      match goal with
      | |- context [match ?o with Some _ => _ | None => _ end] =>
          change o with (mask self)
      end.
      rewrite H2. eexists. split; [reflexivity |]. exact H3.
Qed.

(** Storing a mask of the shape of the image and committing it. *)
Lemma consistent_commit self (m : Mask) :
  consistent self ->
  (forall b, base_img self = Some b -> Np.same_shape b m = true) ->
  consistent (commit self m)
  /\ mask (commit self m) = Some m
  /\ nth_error (history (commit self m)) (history_idx (commit self m)) = Some m.
Proof.
  intros (b & m0 & H1 & H2 & H3 & H4 & H5 & H6 & H7) Hm.
  destruct (commit_history self b m H4 (Hm b H1) H5) as (C1 & C2 & C3 & C4).
  destruct (HistoryFacts.commit_spec self m H5) as (_ & _ & Hmask).
  split; [| split; [exact Hmask | exact C4]].
  exists b, m. split; [| split; [exact Hmask |]].
  - unfold commit. rewrite push_history_base_img. exact H1.
  - split; [exact (Hm b H1) |]. split; [exact C1 |].
    split; [exact C2 |]. split; [exact C3 |].
    unfold commit. rewrite push_history_mode, push_history_markers.
    exact H7.
Qed.

Lemma consistent_push_history self :
  consistent self -> consistent (push_history self).
Proof.
  intros H. pose proof H as (b & m & H1 & H2 & H3 & _).
  rewrite (push_history_commit self m H2).
  apply consistent_commit; [exact H |].
  intros b' Hb'. rewrite H1 in Hb'. injection Hb' as <-. exact H3.
Qed.

(** The state after the pointer has moved to a snapshot. *)
Lemma consistent_moved self p (m : Mask) :
  consistent self -> nth_error (history self) p = Some m ->
  consistent (with_gc_off (with_mask (with_history_idx self p) (Some m))).
Proof.
  intros (b & m0 & H1 & H2 & H3 & H4 & H5 & H6 & H7) Hm.
  exists b, m.
  split; [exact H1 |]. split; [reflexivity |].
  split; [rewrite Forall_forall in H4; apply H4;
          apply nth_error_In with (n := p); exact Hm |].
  split; [exact H4 |].
  split; [apply nth_error_Some; change (nth_error (history self) p <> None);
          congruence |].
  split; [exact H6 | exact H7].
Qed.

Lemma consistent_after_move self p :
  consistent self -> p < length (history self) ->
  exists self',
    after_move self p = Py.Ok (true, self')
    /\ consistent self' /\ history_idx self' = p
    /\ history self' = history self
    /\ mask self' = nth_error (history self) p.
Proof.
  intros H Hp.
  destruct (RoiFacts.nth_error_in_range (history self) p Hp) as [m Hm].
  destruct (after_move_full self p m Hm) as (s' & E & Hh & Hi & Hmask & Hb).
  exists s'. split; [exact E |].
  split; [| split; [exact Hi | split; [exact Hh | congruence]]].
  pose proof (consistent_moved self p m H Hm) as Hc.
  unfold after_move in E. rewrite Hm in E.
  injection E as <-.
  set (s1 := with_gc_off (with_mask (with_history_idx self p) (Some m))) in *.
  clearbody s1.
  destruct (mode_eqb _ grabcut_refine).
  - generalize (consistent_set_mode s1 draw Hc).
    apply consistent_ext; same_fields.
  - revert Hc. apply consistent_ext; same_fields.
Qed.

Lemma consistent_undo self :
  consistent self ->
  exists flag self', undo self = Py.Ok (flag, self') /\ consistent self'.
Proof.
  intros H. unfold undo.
  destruct (Nat.ltb_spec 0 (history_idx self)).
  - pose proof H as (b & m0 & H1 & H2 & H3 & H4 & H5 & H6 & H7).
    destruct (consistent_after_move self (history_idx self - 1) H)
      as (s' & E & Hc & _); [lia |].
    exists true, s'. split; assumption.
  - exists false, self. split; [reflexivity | exact H].
Qed.

Lemma consistent_redo self :
  consistent self ->
  exists flag self', redo self = Py.Ok (flag, self') /\ consistent self'.
Proof.
  intros H. unfold redo.
  destruct (Nat.ltb_spec (history_idx self) (length (history self) - 1)).
  - destruct (consistent_after_move self (history_idx self + 1) H)
      as (s' & E & Hc & _); [lia |].
    exists true, s'. split; assumption.
  - exists false, self. split; [reflexivity | exact H].
Qed.

Lemma consistent_clear_mask self :
  consistent self -> consistent (clear_mask self).
Proof.
  intros H. pose proof H as (b & m & H1 & H2 & H3 & _).
  unfold clear_mask. rewrite H2.
  set (z := Np.full (Np.shape0 m) (Np.shape1 m) 0%Z).
  change (push_history (with_mask self (Some z))) with (commit self z).
  assert (Hc : consistent (commit self z)).
  { apply consistent_commit; [exact H |].
    intros b' Hb'. rewrite H1 in Hb'. injection Hb' as <-. exact H3. }
  set (s1 := commit self z) in *. clearbody s1.
  set (s2 := with_gc_off s1).
  assert (Hc2 : consistent s2).
  { revert Hc. apply consistent_ext; same_fields. }
  clearbody s2.
  destruct (mode_eqb (mode s2) grabcut_refine).
  - generalize (consistent_set_mode s2 draw Hc2).
    apply consistent_ext; same_fields.
  - revert Hc2. apply consistent_ext; same_fields.
Qed.

Section Resize.

Variable cv2_resize : Mask -> nat -> nat -> Py.result Mask.
Hypothesis resize_shape :
  forall m w h m', cv2_resize m w h = Py.Ok m' ->
                   Np.shape0 m' = h /\ Np.shape1 m' = w.

Lemma consistent_set_mask self (new_mask : Mask) :
  consistent self -> consistent (fst (set_mask cv2_resize self new_mask)).
Proof.
  intros H. unfold set_mask.
  set (s0 := with_gc_models_off (with_gc_off self)).
  assert (H0 : consistent s0) by (revert H; apply consistent_ext; same_fields).
  clearbody s0.
  set (s1 := if mode_eqb (mode s0) grabcut_refine then set_mode s0 draw else s0).
  assert (Hc1 : consistent s1).
  { unfold s1. destruct (mode_eqb _ _); [apply consistent_set_mode |]; exact H0. }
  clearbody s1.
  pose proof Hc1 as (b & m & H1 & H2 & H3 & _).
  rewrite H1.
  assert (Hok : forall m', Np.same_shape b m' = true ->
                  consistent
                    (fst (emit (push_history (with_mask s1 (Some m')))
                               (mask_edited
                                  (mask (push_history (with_mask s1 (Some m'))))),
                          Py.Ok tt))).
  { intros m' Hm'. cbn [fst].
    change (push_history (with_mask s1 (Some m'))) with (commit s1 m').
    assert (Hc : consistent (commit s1 m')).
    { apply consistent_commit; [exact Hc1 |].
      intros b' Hb'. rewrite H1 in Hb'. injection Hb' as <-. exact Hm'. }
    revert Hc. apply consistent_ext; same_fields. }
  destruct (Np.same_shape b new_mask) eqn:Es; cbn [negb].
  - apply Hok. exact Es.
  - destruct (cv2_resize new_mask (Np.shape1 b) (Np.shape0 b)) as [m' | e] eqn:Er.
    + apply Hok. destruct (resize_shape _ _ _ _ Er) as [R0 R1].
      unfold Np.same_shape. rewrite R0, R1, !Nat.eqb_refl. reflexivity.
    + exact Hc1.
Qed.

Lemma consistent_auto_fix_morph self (ok oi ck ci : Z) :
  consistent self -> consistent (auto_fix_morph cv2_resize self ok oi ck ci).
Proof.
  intros H. unfold auto_fix_morph.
  destruct (mask self); [| exact H].
  apply consistent_set_mask. exact H.
Qed.

Variable cv2_watershed : Image -> Markers -> Py.result Markers.

Lemma consistent_run_watershed self :
  consistent self ->
  consistent (run_watershed_segmentation cv2_resize cv2_watershed self).
Proof.
  intros H. unfold run_watershed_segmentation.
  destruct (watershed_markers self) as [markers |]; [| exact H].
  destruct (base_img self) as [base |] eqn:Hb; [| exact H].
  destruct (_ || _).
  - revert H. apply consistent_ext; same_fields.
  - assert (Htry : consistent (fst (watershed_try cv2_resize cv2_watershed
                                                  self base markers))).
    { unfold watershed_try.
      destruct (cv2_watershed base markers) as [mc | e]; [| exact H].
      destruct (mask self) as [m |]; [| exact H].
      destruct (Np.same_shape m mc); [| exact H].
      apply consistent_set_mask. exact H. }
    destruct (watershed_try cv2_resize cv2_watershed self base markers)
      as [s' [u | e]]; cbn [fst] in Htry.
    + generalize (consistent_set_mode s' draw Htry).
      apply consistent_other_mode; try reflexivity.
      change (mode (with_watershed_markers ?x ?y)) with (mode x).
      rewrite EditorFacts.set_mode_mode. discriminate.
    + assert (He : consistent (emit s' (critical_box e)))
        by (revert Htry; apply consistent_ext; same_fields).
      generalize (consistent_set_mode _ draw He).
      apply consistent_other_mode; try reflexivity.
      change (mode (with_watershed_markers ?x ?y)) with (mode x).
      rewrite EditorFacts.set_mode_mode. discriminate.
Qed.

End Resize.

End ConsistencyFacts.

(** X12.  The editor keeps its state consistent.  [__init__] stores a mask
    of the shape of the image as it is and resizes any other mask to that
    shape first, raising what [cv2.resize] raises; the editor it returns
    holds a mask of the shape of its image and a history of that one
    snapshot with the pointer on it.  And [set_mode], [push_history],
    [undo], [redo], [clear_mask], [set_mask], [auto_fix_morph] and
    [run_watershed_segmentation] all lead from a state with a mask of the
    shape of the image, a history of 1 to 32 snapshots of that shape with
    the pointer on one of them and, in marker mode, a label map of that
    shape, to a state of that kind again; in such a state [undo] and [redo]
    never raise.  [cv2.resize] is only assumed to return an array of the
    size it was asked for. *)
Theorem editor_state_stays_consistent :
  forall (cv2_resize : Mask -> nat -> nat -> Py.result Mask)
         (cv2_watershed : Image -> Markers -> Py.result Markers),
    (forall m w h m', cv2_resize m w h = Py.Ok m' ->
                      Np.shape0 m' = h /\ Np.shape1 m' = w) ->
    (forall (b : Image) (m : Mask),
        (Np.same_shape b m = true ->
         MaskEditWidget.init cv2_resize b m
         = Py.Ok (MaskEditWidget.fresh b m))
        /\ (Np.same_shape b m = false ->
            forall e,
              cv2_resize m (Np.shape1 b) (Np.shape0 b) = Py.Raise e ->
              MaskEditWidget.init cv2_resize b m = Py.Raise e)
        /\ (Np.same_shape b m = false ->
            forall m',
              cv2_resize m (Np.shape1 b) (Np.shape0 b) = Py.Ok m' ->
              MaskEditWidget.init cv2_resize b m
              = Py.Ok (MaskEditWidget.fresh b m'))
        /\ forall self,
            MaskEditWidget.init cv2_resize b m = Py.Ok self ->
            MaskEditMore.consistent self
            /\ MaskEditWidget.base_img self = Some b
            /\ MaskEditWidget.history_idx self = 0
            /\ (exists m0, MaskEditWidget.mask self = Some m0
                           /\ MaskEditWidget.history self = [m0])
            /\ MaskEditWidget.mode self = MaskEditWidget.draw)
    /\ forall self : MaskEditWidget.t,
        MaskEditMore.consistent self ->
        (forall md, MaskEditMore.consistent (MaskEditWidget.set_mode self md))
        /\ MaskEditMore.consistent (MaskEditWidget.push_history self)
        /\ (exists flag self',
               MaskEditWidget.undo self = Py.Ok (flag, self')
               /\ MaskEditMore.consistent self')
        /\ (exists flag self',
               MaskEditWidget.redo self = Py.Ok (flag, self')
               /\ MaskEditMore.consistent self')
        /\ MaskEditMore.consistent (MaskEditMore.clear_mask self)
        /\ (forall new_mask,
               MaskEditMore.consistent
                 (fst (MaskEditWidget.set_mask cv2_resize self new_mask)))
        /\ (forall open_k open_iter close_k close_iter,
               MaskEditMore.consistent
                 (MaskEditMore.auto_fix_morph cv2_resize self open_k open_iter
                                              close_k close_iter))
        /\ MaskEditMore.consistent
             (MaskEditWidget.run_watershed_segmentation
                cv2_resize cv2_watershed self).
Proof.
  intros resize ws Hresize. split.
  - intros b m.
    assert (Hfresh : forall m0 : Mask,
               Np.same_shape b m0 = true ->
               MaskEditMore.consistent (MaskEditWidget.fresh b m0)).
    { intros m0 Hs. exists b, m0.
      split; [reflexivity |]. split; [reflexivity |]. split; [exact Hs |].
      split; [constructor; [exact Hs | constructor] |].
      split; [simpl; lia |].
      split; [unfold MaskEditWidget.MAX_HISTORY_SIZE; simpl; lia |].
      intros Hmd. discriminate Hmd. }
    unfold MaskEditWidget.init.
    destruct (Np.same_shape b m) eqn:Es; cbn [negb].
    + split; [intros _; reflexivity |].
      split; [intros Hd; discriminate Hd |].
      split; [intros Hd; discriminate Hd |].
      intros self H. injection H as <-.
      split; [apply Hfresh; exact Es |].
      split; [reflexivity |]. split; [reflexivity |].
      split; [exists m; split; reflexivity | reflexivity].
    + split; [intros Hd; discriminate Hd |].
      split; [intros _ e He; rewrite He; reflexivity |].
      split; [intros _ m' Hm'; rewrite Hm'; reflexivity |].
      intros self H.
      destruct (resize m (Np.shape1 b) (Np.shape0 b)) as [m' |] eqn:Er;
        [| discriminate H].
      injection H as <-.
      split.
      { apply Hfresh. destruct (Hresize _ _ _ _ Er) as [R0 R1].
        unfold Np.same_shape. rewrite R0, R1, !Nat.eqb_refl. reflexivity. }
      split; [reflexivity |]. split; [reflexivity |].
      split; [exists m'; split; reflexivity | reflexivity].
  - intros self H.
    split; [intros md; apply ConsistencyFacts.consistent_set_mode; exact H |].
    split; [apply ConsistencyFacts.consistent_push_history; exact H |].
    split; [apply ConsistencyFacts.consistent_undo; exact H |].
    split; [apply ConsistencyFacts.consistent_redo; exact H |].
    split; [apply ConsistencyFacts.consistent_clear_mask; exact H |].
    split; [intros nm;
            apply (ConsistencyFacts.consistent_set_mask resize Hresize);
            exact H |].
    split; [intros ok oi ck ci;
            apply (ConsistencyFacts.consistent_auto_fix_morph resize Hresize);
            exact H |].
    apply (ConsistencyFacts.consistent_run_watershed resize Hresize). exact H.
Qed.

Lemma sample_resize_shape :
  forall m w h m', SampleEditor.cv2_resize m w h = Py.Ok m' ->
                   Np.shape0 m' = h /\ Np.shape1 m' = w.
Proof.
  intros m w h m'. unfold SampleEditor.cv2_resize.
  destruct (_ || _); [discriminate |].
  intros H. injection H as <-. split; reflexivity.
Qed.

(** The theorem above at an editor opened on a mask of three by three
    pixels for an image of two by two. *)
Lemma editor_state_stays_consistent_witness :
  (exists self,
      MaskEditWidget.init SampleEditor.cv2_resize Sample.image0
                          (Np.full 3 3 0%Z) = Py.Ok self
      /\ MaskEditMore.consistent self)
  /\ MaskEditMore.consistent (MaskEditMore.clear_mask Sample.widget0)
  /\ MaskEditMore.consistent
       (MaskEditWidget.run_watershed_segmentation
          SampleEditor.cv2_resize SampleEditor.cv2_watershed Sample.widget0).
Proof.
  destruct (editor_state_stays_consistent
              SampleEditor.cv2_resize SampleEditor.cv2_watershed
              sample_resize_shape) as [Hinit Hstep].
  destruct (Hinit Sample.image0 Sample.mask0) as (_ & _ & _ & H0).
  destruct (H0 Sample.widget0 eq_refl) as [Hc0 _].
  destruct (Hstep Sample.widget0 Hc0) as (_ & _ & _ & _ & Hc & _ & _ & Hw).
  destruct (Hinit Sample.image0 (Np.full 3 3 0%Z)) as (_ & _ & _ & H3).
  split; [| split; [exact Hc | exact Hw]].
  eexists. split; [reflexivity |].
  apply H3. reflexivity.
Defined.

Module MoveFacts.

Import MaskEditWidget MaskEditMore.

(** A successful [undo], in a consistent state. *)
Lemma undo_moves_back self :
  consistent self -> 0 < history_idx self ->
  exists self',
    undo self = Py.Ok (true, self')
    /\ consistent self'
    /\ history_idx self' = history_idx self - 1
    /\ history self' = history self
    /\ mask self' = nth_error (history self) (history_idx self - 1).
Proof.
  intros H Hp. unfold undo.
  destruct (Nat.ltb_spec 0 (history_idx self)); [| lia].
  pose proof H as (b & m0 & _ & _ & _ & _ & H5 & _).
  apply ConsistencyFacts.consistent_after_move; [exact H | lia].
Qed.

(** A successful [redo], in a consistent state. *)
Lemma redo_moves_forward self :
  consistent self -> history_idx self + 1 < length (history self) ->
  exists self',
    redo self = Py.Ok (true, self')
    /\ consistent self'
    /\ history_idx self' = history_idx self + 1
    /\ history self' = history self
    /\ mask self' = nth_error (history self) (history_idx self + 1).
Proof.
  intros H Hp. unfold redo.
  destruct (Nat.ltb_spec (history_idx self) (length (history self) - 1));
    [| lia].
  apply ConsistencyFacts.consistent_after_move; [exact H | lia].
Qed.

Lemma undo_true self self1 :
  undo self = Py.Ok (true, self1) -> 0 < history_idx self.
Proof.
  unfold undo. destruct (Nat.ltb_spec 0 (history_idx self)); [auto |].
  intros Hd. discriminate Hd.
Qed.

Lemma redo_true self self1 :
  redo self = Py.Ok (true, self1) ->
  history_idx self + 1 < length (history self).
Proof.
  unfold redo.
  destruct (Nat.ltb_spec (history_idx self) (length (history self) - 1));
    [lia |].
  intros Hd. discriminate Hd.
Qed.

(** With the pointer on the newest snapshot [redo] has nothing to do. *)
Lemma redo_at_end self :
  history_idx self + 1 = length (history self) ->
  redo self = Py.Ok (false, self).
Proof.
  intros H. unfold redo.
  destruct (Nat.ltb_spec (history_idx self) (length (history self) - 1));
    [lia | reflexivity].
Qed.

(** The snapshot in front of the newest one, after a commit, is the one the
    pointer was on before. *)
Lemma commit_previous self (m : Mask) :
  history_idx self < length (history self) ->
  0 < history_idx (commit self m)
  /\ nth_error (history (commit self m)) (history_idx (commit self m) - 1)
     = nth_error (history self) (history_idx self).
Proof.
  intros Hp.
  destruct (HistoryFacts.commit_spec self m Hp) as (Hh & Hi & _).
  set (l := firstn (history_idx self + 1) (history self) ++ [m]) in *.
  assert (Hlen : length l = history_idx self + 2).
  { unfold l. rewrite length_app, length_firstn. simpl. lia. }
  assert (Hl2 : length (history (commit self m))
                = Nat.min MAX_HISTORY_SIZE (length l)).
  { rewrite Hh. apply slice_last_length. }
  unfold MAX_HISTORY_SIZE in Hl2.
  split; [lia |].
  replace (history_idx (commit self m) - 1)
    with (length (history (commit self m)) - 2) by lia.
  rewrite Hl2, Hh. unfold Py.slice_last, MAX_HISTORY_SIZE.
  rewrite nth_error_skipn.
  replace (length l - 32 + (Nat.min 32 (length l) - 2))
    with (history_idx self) by lia.
  unfold l. rewrite nth_error_app1 by (rewrite length_firstn; lia).
  rewrite nth_error_firstn.
  destruct (Nat.ltb_spec (history_idx self) (history_idx self + 1));
    [reflexivity | lia].
Qed.

End MoveFacts.

(** X13.  In the editor [undo] and [redo] undo each other: after an undo
    that reported [True], redo reports [True] and puts the pointer back on
    the snapshot it was on, with that snapshot as the mask and the snapshot
    list unchanged; and the other way round. *)
Theorem editor_undo_and_redo_are_inverse :
  forall self self1 : MaskEditWidget.t,
    MaskEditMore.consistent self ->
    (MaskEditWidget.undo self = Py.Ok (true, self1) ->
     exists self2,
       MaskEditWidget.redo self1 = Py.Ok (true, self2)
       /\ MaskEditWidget.history_idx self2 = MaskEditWidget.history_idx self
       /\ MaskEditWidget.history self2 = MaskEditWidget.history self
       /\ MaskEditWidget.mask self2
          = nth_error (MaskEditWidget.history self)
                      (MaskEditWidget.history_idx self))
    /\ (MaskEditWidget.redo self = Py.Ok (true, self1) ->
        exists self2,
          MaskEditWidget.undo self1 = Py.Ok (true, self2)
          /\ MaskEditWidget.history_idx self2 = MaskEditWidget.history_idx self
          /\ MaskEditWidget.history self2 = MaskEditWidget.history self
          /\ MaskEditWidget.mask self2
             = nth_error (MaskEditWidget.history self)
                         (MaskEditWidget.history_idx self)).
Proof.
  intros self self1 H.
  pose proof H as (b & m0 & _ & _ & _ & _ & Hp & _).
  split; intros Hmove.
  - pose proof (MoveFacts.undo_true _ _ Hmove) as Hpos.
    destruct (MoveFacts.undo_moves_back self H Hpos)
      as (s1 & E1 & Hc1 & Hi1 & Hh1 & _).
    rewrite E1 in Hmove. injection Hmove as <-.
    destruct (MoveFacts.redo_moves_forward s1 Hc1)
      as (s2 & E2 & _ & Hi2 & Hh2 & Hm2); [rewrite Hi1, Hh1; lia |].
    exists s2. split; [exact E2 |].
    split; [lia |]. split; [congruence |].
    rewrite Hm2, Hh1, Hi1. f_equal. lia.
  - pose proof (MoveFacts.redo_true _ _ Hmove) as Hlt.
    destruct (MoveFacts.redo_moves_forward self H Hlt)
      as (s1 & E1 & Hc1 & Hi1 & Hh1 & _).
    rewrite E1 in Hmove. injection Hmove as <-.
    destruct (MoveFacts.undo_moves_back s1 Hc1)
      as (s2 & E2 & _ & Hi2 & Hh2 & Hm2); [lia |].
    exists s2. split; [exact E2 |].
    split; [lia |]. split; [congruence |].
    rewrite Hm2, Hh1, Hi1. f_equal. lia.
Qed.

Lemma sample_widget_edited_consistent :
  MaskEditMore.consistent SampleEditing.widget_edited.
Proof.
  exists Sample.image0, (Sample.mask_n 1).
  split; [reflexivity |]. split; [reflexivity |]. split; [reflexivity |].
  split; [repeat constructor |].
  split; [vm_compute; lia |]. split; [vm_compute; lia |].
  intros Hmd. discriminate Hmd.
Qed.

(** The theorem above at an editor with two snapshots. *)
Lemma editor_undo_and_redo_are_inverse_witness :
  exists self2,
    MaskEditWidget.redo SampleEditing.widget_undone = Py.Ok (true, self2)
    /\ MaskEditWidget.history_idx self2 = 1.
Proof.
  destruct (proj1 (editor_undo_and_redo_are_inverse
                     SampleEditing.widget_edited SampleEditing.widget_undone
                     sample_widget_edited_consistent)
                  eq_refl)
    as (s2 & H1 & H2 & _).
  exists s2. split; [exact H1 | exact H2].
Defined.

Module CommitFacts.

Import MaskEditWidget MaskEditMore.

(** The history after [push_history] depends on the mask, the snapshot list
    and the pointer only. *)
Lemma push_history_ext self self' :
  mask self' = mask self -> history self' = history self ->
  history_idx self' = history_idx self ->
  history (push_history self') = history (push_history self)
  /\ history_idx (push_history self') = history_idx (push_history self).
Proof.
  intros Hm Hh Hi. unfold push_history. rewrite Hm, Hh, Hi.
  destruct (mask self); [| split; assumption].
  destruct (MAX_HISTORY_SIZE <? _); split; reflexivity.
Qed.

Section Resize.

Variable cv2_resize : Mask -> nat -> nat -> Py.result Mask.

(** [set_mask] with a mask of the shape of the image: no resizing, the mask
    is stored and committed, and nothing is raised. *)
Lemma set_mask_same_shape self (b : Image) (nm : Mask) :
  base_img self = Some b -> Np.same_shape b nm = true ->
  exists self',
    set_mask cv2_resize self nm = (self', Py.Ok tt)
    /\ mask self' = Some nm
    /\ history self' = history (commit self nm)
    /\ history_idx self' = history_idx (commit self nm)
    /\ base_img self' = Some b
    /\ gc_initialized self' = false /\ gc_mask self' = None
    /\ (exists evs, events self' = evs ++ [mask_edited (Some nm)])
    /\ (mode self' = watershed_mark ->
        mode self = watershed_mark
        /\ watershed_markers self' = watershed_markers self).
Proof.
  intros Hb Hs. unfold set_mask.
  set (s0 := with_gc_models_off (with_gc_off self)).
  set (s1 := if mode_eqb (mode s0) grabcut_refine then set_mode s0 draw else s0).
  assert (F : base_img s1 = Some b /\ history s1 = history self
              /\ history_idx s1 = history_idx self
              /\ gc_initialized s1 = false /\ gc_mask s1 = None
              /\ (mode s1 = watershed_mark ->
                  mode self = watershed_mark
                  /\ watershed_markers s1 = watershed_markers self)).
  { unfold s1. destruct (mode_eqb (mode s0) grabcut_refine) eqn:E.
    - rewrite ConsistencyFacts.set_mode_base_img,
        HistoryFacts.set_mode_history, HistoryFacts.set_mode_history_idx,
        EditorFacts.set_mode_mode.
      split; [exact Hb |]. split; [reflexivity |]. split; [reflexivity |].
      apply EditorFacts.mode_eqb_eq in E.
      unfold set_mode. rewrite E.
      split; [reflexivity |]. split; [reflexivity |].
      intros Hd. discriminate Hd.
    - split; [exact Hb |]. split; [reflexivity |]. split; [reflexivity |].
      split; [reflexivity |]. split; [reflexivity |].
      intros Hmd. split; [exact Hmd | reflexivity]. }
  clearbody s1. destruct F as (F1 & F2 & F3 & F4 & F5 & F6).
  rewrite F1, Hs. cbn [negb].
  eexists. split; [reflexivity |].
  change (mask (emit ?x ?e)) with (mask x).
  change (history (emit ?x ?e)) with (history x).
  change (history_idx (emit ?x ?e)) with (history_idx x).
  change (base_img (emit ?x ?e)) with (base_img x).
  change (gc_initialized (emit ?x ?e)) with (gc_initialized x).
  change (gc_mask (emit ?x ?e)) with (gc_mask x).
  change (events (emit ?x ?e)) with (events x ++ [e]).
  change (mode (emit ?x ?e)) with (mode x).
  change (watershed_markers (emit ?x ?e)) with (watershed_markers x).
  rewrite ConsistencyFacts.push_history_mask,
    ConsistencyFacts.push_history_base_img,
    ConsistencyFacts.push_history_mode,
    ConsistencyFacts.push_history_markers.
  destruct (push_history_ext (with_mask self (Some nm))
                             (with_mask s1 (Some nm)))
    as [Eh Ei]; [reflexivity | exact F2 | exact F3 |].
  split; [reflexivity |]. split; [exact Eh |]. split; [exact Ei |].
  split; [exact F1 |].
  split; [| split; [| split; [eexists; reflexivity | exact F6]]].
  - rewrite (proj1 (ConsistencyFacts.push_history_gc _)). exact F4.
  - rewrite (proj2 (ConsistencyFacts.push_history_gc _)). exact F5.
Qed.

End Resize.

(** What [clear_mask] leaves behind. *)
Lemma clear_mask_fields self (m : Mask) :
  mask self = Some m ->
  let z := Np.full (Np.shape0 m) (Np.shape1 m) 0%Z in
  mask (clear_mask self) = Some z
  /\ history (clear_mask self) = history (commit self z)
  /\ history_idx (clear_mask self) = history_idx (commit self z)
  /\ gc_initialized (clear_mask self) = false
  /\ gc_mask (clear_mask self) = None
  /\ exists evs, events (clear_mask self) = evs ++ [mask_edited (Some z)].
Proof.
  intros Hm z. unfold clear_mask. rewrite Hm. fold z.
  change (push_history (with_mask self (Some z))) with (commit self z).
  assert (Hz : mask (commit self z) = Some z).
  { unfold commit. rewrite ConsistencyFacts.push_history_mask. reflexivity. }
  set (s1 := commit self z) in *. clearbody s1.
  set (s2 := with_gc_off s1).
  assert (F : mask s2 = Some z /\ history s2 = history s1
              /\ history_idx s2 = history_idx s1
              /\ gc_initialized s2 = false /\ gc_mask s2 = None)
    by (repeat split; exact Hz).
  clearbody s2. destruct F as (F1 & F2 & F3 & F4 & F5).
  change (mask (emit ?x ?e)) with (mask x).
  change (history (emit ?x ?e)) with (history x).
  change (history_idx (emit ?x ?e)) with (history_idx x).
  change (gc_initialized (emit ?x ?e)) with (gc_initialized x).
  change (gc_mask (emit ?x ?e)) with (gc_mask x).
  change (events (emit ?x ?e)) with (events x ++ [e]).
  destruct (mode_eqb (mode s2) grabcut_refine) eqn:E.
  - rewrite HistoryFacts.set_mode_mask, HistoryFacts.set_mode_history,
      HistoryFacts.set_mode_history_idx, F1.
    split; [reflexivity |]. split; [exact F2 |]. split; [exact F3 |].
    apply EditorFacts.mode_eqb_eq in E.
    unfold set_mode. rewrite E.
    split; [reflexivity |]. split; [reflexivity |]. eexists. reflexivity.
  - rewrite F1. split; [reflexivity |]. split; [exact F2 |].
    split; [exact F3 |]. split; [exact F4 |]. split; [exact F5 |].
    eexists. reflexivity.
Qed.

(** In a consistent state whose history and pointer are those left by a
    commit, the newest snapshot is under the pointer, [redo] has nothing to
    do and [undo] brings back the snapshot that was current before. *)
Lemma committed_state self0 (m : Mask) self :
  consistent self ->
  history_idx self0 < length (history self0) ->
  history self = history (commit self0 m) ->
  history_idx self = history_idx (commit self0 m) ->
  redo self = Py.Ok (false, self)
  /\ exists self2,
      undo self = Py.Ok (true, self2)
      /\ mask self2 = nth_error (history self0) (history_idx self0).
Proof.
  intros Hc Hp Hh Hi.
  destruct (HistoryFacts.commit_spec self0 m Hp) as (_ & Hend & _).
  destruct (MoveFacts.commit_previous self0 m Hp) as [Hpos Hprev].
  split.
  - apply MoveFacts.redo_at_end. rewrite Hh, Hi. exact Hend.
  - destruct (MoveFacts.undo_moves_back self Hc)
      as (s2 & E & _ & _ & _ & Hm); [rewrite Hi; exact Hpos |].
    exists s2. split; [exact E |]. rewrite Hm, Hh, Hi. exact Hprev.
Qed.

End CommitFacts.

(** X14.  [clear_mask] replaces the mask by one of the same shape that is 0
    everywhere, commits it to the history, closes a GrabCut session and
    announces the new mask with [mask_edited] last.  The pointer then is on
    the newest snapshot, so redo has nothing to do, and one undo brings back
    the snapshot that was current before the mask was cleared. *)
Theorem clear_mask_commits_an_empty_mask :
  forall (self : MaskEditWidget.t) (m : Mask),
    MaskEditMore.consistent self ->
    MaskEditWidget.mask self = Some m ->
    let z := Np.full (Np.shape0 m) (Np.shape1 m) 0%Z in
    let self1 := MaskEditMore.clear_mask self in
    MaskEditWidget.mask self1 = Some z
    /\ nth_error (MaskEditWidget.history self1)
                 (MaskEditWidget.history_idx self1) = Some z
    /\ MaskEditWidget.gc_initialized self1 = false
    /\ MaskEditWidget.gc_mask self1 = None
    /\ (exists evs,
           MaskEditWidget.events self1
           = evs ++ [MaskEditWidget.mask_edited (Some z)])
    /\ MaskEditWidget.redo self1 = Py.Ok (false, self1)
    /\ exists self2,
        MaskEditWidget.undo self1 = Py.Ok (true, self2)
        /\ MaskEditWidget.mask self2
           = nth_error (MaskEditWidget.history self)
                       (MaskEditWidget.history_idx self).
Proof.
  intros self m Hc Hm z self1.
  destruct (CommitFacts.clear_mask_fields self m Hm)
    as (F1 & F2 & F3 & F4 & F5 & F6).
  fold z in F1, F2, F3, F6. fold self1 in F1, F2, F3, F4, F5, F6.
  pose proof Hc as (b & m0 & H1 & H2 & H3 & H4 & H5 & H6).
  rewrite Hm in H2. injection H2 as <-.
  assert (Hz : Np.same_shape b z = true) by exact H3.
  destruct (ConsistencyFacts.commit_history self b z H4 Hz H5)
    as (_ & _ & _ & Hlast).
  destruct (CommitFacts.committed_state self z self1
              (ConsistencyFacts.consistent_clear_mask self Hc) H5 F2 F3)
    as [Hredo Hundo].
  split; [exact F1 |]. split; [rewrite F2, F3; exact Hlast |].
  split; [exact F4 |]. split; [exact F5 |]. split; [exact F6 |].
  split; [exact Hredo | exact Hundo].
Qed.

(** The theorem above at the editor with two snapshots. *)
Lemma clear_mask_commits_an_empty_mask_witness :
  MaskEditWidget.mask (MaskEditMore.clear_mask SampleEditing.widget_edited)
  = Some (Np.full 2 2 0%Z).
Proof.
  exact (proj1 (clear_mask_commits_an_empty_mask
                  SampleEditing.widget_edited (Sample.mask_n 1)
                  sample_widget_edited_consistent eq_refl)).
Defined.

(** X15.  [auto_fix_morph] stores and commits the opened and closed mask:
    the new mask has the shape of the old one, is binary when the old one
    was, is the newest snapshot of the history with the pointer on it, and
    one undo brings back the snapshot that was current before.  When an
    iteration count or kernel size is not positive for both operations, the
    mask is committed unchanged. *)
Theorem auto_fix_morph_commits_the_repaired_mask :
  forall (cv2_resize : Mask -> nat -> nat -> Py.result Mask)
         (self : MaskEditWidget.t) (m : Mask)
         (open_k open_iter close_k close_iter : Z),
    MaskEditMore.consistent self ->
    MaskEditWidget.mask self = Some m ->
    let self1 :=
      MaskEditMore.auto_fix_morph cv2_resize self open_k open_iter
                                  close_k close_iter in
    exists m',
      MaskEditWidget.mask self1 = Some m'
      /\ Np.same_shape m m' = true
      /\ (Np.all_cells Spec.binary m -> Np.all_cells Spec.binary m')
      /\ (((open_iter <= 0)%Z \/ (open_k <= 0)%Z) ->
          ((close_iter <= 0)%Z \/ (close_k <= 0)%Z) -> m' = m)
      /\ nth_error (MaskEditWidget.history self1)
                   (MaskEditWidget.history_idx self1) = Some m'
      /\ MaskEditWidget.redo self1 = Py.Ok (false, self1)
      /\ exists self2,
          MaskEditWidget.undo self1 = Py.Ok (true, self2)
          /\ MaskEditWidget.mask self2
             = nth_error (MaskEditWidget.history self)
                         (MaskEditWidget.history_idx self).
Proof.
  intros resize self m ok oi ck ci Hc Hm self1.
  pose proof Hc as (b & m0 & H1 & H2 & H3 & H4 & H5 & H6).
  rewrite Hm in H2. injection H2 as <-.
  set (m1 := if ((oi >? 0) && (ok >? 0))%Z
             then Cv.morphologyEx m Cv.MORPH_OPEN (Z.to_nat ok) oi else m).
  set (m2 := if ((ci >? 0) && (ck >? 0))%Z
             then Cv.morphologyEx m1 Cv.MORPH_CLOSE (Z.to_nat ck) ci else m1).
  assert (E1 : self1 = fst (MaskEditWidget.set_mask resize self m2)).
  { unfold self1, MaskEditMore.auto_fix_morph. rewrite Hm. reflexivity. }
  assert (S1 : Np.shape0 m1 = Np.shape0 m /\ Np.shape1 m1 = Np.shape1 m).
  { unfold m1. destruct ((oi >? 0) && (ok >? 0))%Z;
      [apply MaskFacts.morphologyEx_shape | auto]. }
  assert (S2 : Np.shape0 m2 = Np.shape0 m /\ Np.shape1 m2 = Np.shape1 m).
  { unfold m2. destruct ((ci >? 0) && (ck >? 0))%Z; [| exact S1].
    destruct (MaskFacts.morphologyEx_shape m1 Cv.MORPH_CLOSE (Z.to_nat ck) ci)
      as [-> ->]. exact S1. }
  assert (Hs : Np.same_shape b m2 = true).
  { unfold Np.same_shape in *. destruct S2 as [-> ->]. exact H3. }
  destruct (CommitFacts.set_mask_same_shape resize self b m2 H1 Hs)
    as (s' & Es & F1 & F2 & F3 & F4 & _ & _ & _ & Fw).
  rewrite Es in E1. cbn [fst] in E1. subst s'.
  destruct (ConsistencyFacts.commit_history self b m2 H4 Hs H5)
    as (_ & _ & _ & Hlast).
  assert (Hc1 : MaskEditMore.consistent self1).
  { destruct (ConsistencyFacts.consistent_commit self m2 Hc) as (Hcc & Hcm & _).
    - intros b' Hb'. rewrite H1 in Hb'. injection Hb' as <-. exact Hs.
    - revert Hcc. apply ConsistencyFacts.consistent_ext.
      + rewrite F4. unfold MaskEditWidget.commit.
        rewrite ConsistencyFacts.push_history_base_img. symmetry. exact H1.
      + rewrite F1, Hcm. reflexivity.
      + exact F2.
      + exact F3.
      + unfold MaskEditWidget.commit.
        rewrite ConsistencyFacts.push_history_mode,
          ConsistencyFacts.push_history_markers.
        exact Fw. }
  destruct (CommitFacts.committed_state self m2 self1 Hc1 H5 F2 F3)
    as [Hredo Hundo].
  exists m2. split; [exact F1 |].
  split; [unfold Np.same_shape; destruct S2 as [-> ->];
          rewrite !Nat.eqb_refl; reflexivity |].
  split.
  { intros Hbin. unfold m2.
    assert (Hb1 : Np.all_cells Spec.binary m1).
    { unfold m1. destruct ((oi >? 0) && (ok >? 0))%Z;
        [apply MaskFacts.morphologyEx_binary |]; exact Hbin. }
    destruct ((ci >? 0) && (ck >? 0))%Z;
      [apply MaskFacts.morphologyEx_binary |]; exact Hb1. }
  split.
  { intros Ho Hcl. unfold m2, m1.
    replace ((oi >? 0) && (ok >? 0))%Z with false
      by (symmetry; apply andb_false_iff;
          destruct Ho; [left | right]; rewrite Z.gtb_ltb; apply Z.ltb_ge; lia).
    replace ((ci >? 0) && (ck >? 0))%Z with false
      by (symmetry; apply andb_false_iff;
          destruct Hcl; [left | right]; rewrite Z.gtb_ltb; apply Z.ltb_ge; lia).
    reflexivity. }
  split; [rewrite F2, F3; exact Hlast |].
  split; [exact Hredo | exact Hundo].
Qed.

(** The theorem above at the editor with two snapshots and the default
    parameters of the dialog. *)
Lemma auto_fix_morph_commits_the_repaired_mask_witness :
  exists m',
    MaskEditWidget.mask
      (MaskEditMore.auto_fix_morph SampleEditor.cv2_resize
                                   SampleEditing.widget_edited 3 1 3 2)
    = Some m'
    /\ Np.same_shape (Sample.mask_n 1) m' = true.
Proof.
  destruct (auto_fix_morph_commits_the_repaired_mask
              SampleEditor.cv2_resize SampleEditing.widget_edited
              (Sample.mask_n 1) 3 1 3 2
              sample_widget_edited_consistent eq_refl)
    as (m' & H1 & H2 & _).
  exists m'. split; [exact H1 | exact H2].
Defined.

(* ===================================================================== *)
(** * Properties of the view of the mask editor                           *)
(* ===================================================================== *)

Module ViewFacts.

Import MaskEditView.

Lemma Qlt_bool_true (a b : Q) : Py.Qlt_bool a b = true -> (a < b)%Q.
Proof.
  unfold Py.Qlt_bool. intros H. apply negb_true_iff in H.
  apply Qnot_le_lt. intros Hle. apply Qle_bool_iff in Hle. congruence.
Qed.

Lemma Qlt_bool_false (a b : Q) : Py.Qlt_bool a b = false -> (b <= a)%Q.
Proof.
  unfold Py.Qlt_bool. intros H. apply negb_false_iff in H.
  apply Qle_bool_iff. exact H.
Qed.

Lemma py_min_spec (a b : Q) : (py_min a b <= a)%Q /\ (py_min a b <= b)%Q.
Proof.
  unfold py_min. destruct (Py.Qlt_bool b a) eqn:E.
  - apply Qlt_bool_true in E. split; [apply Qlt_le_weak; exact E | apply Qle_refl].
  - apply Qlt_bool_false in E. split; [apply Qle_refl | exact E].
Qed.

Lemma py_max_spec (a b : Q) : (a <= py_max a b)%Q /\ (b <= py_max a b)%Q.
Proof.
  unfold py_max. destruct (Py.Qlt_bool a b) eqn:E.
  - apply Qlt_bool_true in E. split; [apply Qlt_le_weak; exact E | apply Qle_refl].
  - apply Qlt_bool_false in E. split; [apply Qle_refl | exact E].
Qed.

(** [max(lo, min(hi, q))] lies between [lo] and [hi]. *)
Lemma clamp_between (lo hi q : Q) :
  (lo <= hi)%Q ->
  (lo <= py_max lo (py_min hi q))%Q /\ (py_max lo (py_min hi q) <= hi)%Q.
Proof.
  intros H. split; [apply py_max_spec |].
  unfold py_max. destruct (Py.Qlt_bool lo (py_min hi q)).
  - apply py_min_spec.
  - exact H.
Qed.

(** [int] of a number between 0 and an integer lies between them. *)
Lemma py_int_between (q : Q) (k : Z) :
  (0 <= q)%Q -> (q <= inject_Z k)%Q -> (0 <= py_int q <= k)%Z.
Proof.
  destruct q as [n d]. unfold Qle, py_int. simpl. intros H0 Hk.
  rewrite Z.quot_div_nonneg by lia. split.
  - apply Z.div_pos; lia.
  - apply Z.div_le_upper_bound; lia.
Qed.

(** The clamped coordinate is a position on an axis of [n] pixels. *)
Lemma clamped_axis (n : nat) (q : Q) :
  0 < n ->
  (0 <= py_int (py_max 0 (py_min (inject_Z (Z.of_nat n) - 1) q))
   < Z.of_nat n)%Z.
Proof.
  intros Hn.
  assert (E : (inject_Z (Z.of_nat n) - 1 <= inject_Z (Z.of_nat n - 1))%Q).
  { unfold Qle. simpl. lia. }
  assert (Hhi : (0 <= inject_Z (Z.of_nat n) - 1)%Q).
  { unfold Qle. simpl. lia. }
  destruct (clamp_between 0 (inject_Z (Z.of_nat n) - 1) q Hhi) as [H0 H1].
  pose proof (py_int_between _ _ H0 (Qle_trans _ _ _ H1 E)). lia.
Qed.

(** The two ways a call of [widget_to_image_coords] can go for an editor
    that holds a mask of the shape of its image. *)
Lemma coords_cases (core : MaskEditWidget.t) (v : t) (p : QPoint)
      (b : Image) (m : Mask) :
  MaskEditWidget.base_img core = Some b ->
  MaskEditWidget.mask core = Some m ->
  Np.same_shape b m = true ->
  (has_pixmap v = true /\ 0 < Np.shape0 m /\ 0 < Np.shape1 m
   /\ exists x y,
       widget_to_image_coords core v p = Py.Ok (Some (x, y))
       /\ (0 <= x < Z.of_nat (Np.shape1 m))%Z
       /\ (0 <= y < Z.of_nat (Np.shape0 m))%Z)
  \/ ((has_pixmap v = false \/ Np.shape0 m = 0 \/ Np.shape1 m = 0)
      /\ widget_to_image_coords core v p = Py.Ok None).
Proof.
  intros Hb Hm Hs.
  apply andb_true_iff in Hs. destruct Hs as [S0 S1].
  apply Nat.eqb_eq in S0, S1.
  unfold widget_to_image_coords. rewrite Hm, Hb.
  destruct (has_pixmap v); [| right; split; [left |]; reflexivity].
  destruct (Z.leb_spec (Z.of_nat (Np.shape1 m)) 0);
    [right; split; [right; right; lia | reflexivity] |].
  destruct (Z.leb_spec (Z.of_nat (Np.shape0 m)) 0);
    [right; split; [right; left; lia | reflexivity] |].
  left. split; [reflexivity |]. split; [lia |]. split; [lia |].
  cbn [orb]. cbv zeta. eexists _, _. split; [reflexivity |].
  rewrite S0, S1. split; apply clamped_axis; lia.
Qed.

(** [_rect_widget_to_image] does not raise for an editor that holds a mask
    of the shape of its image. *)
Lemma rect_returns (core : MaskEditWidget.t) (v : t) (rect : option QRect)
      (b : Image) (m : Mask) :
  MaskEditWidget.base_img core = Some b ->
  MaskEditWidget.mask core = Some m ->
  Np.same_shape b m = true ->
  exists r, rect_widget_to_image core v rect = Py.Ok r.
Proof.
  intros Hb Hm Hs. unfold rect_widget_to_image.
  destruct rect as [q |]; [| exists None; reflexivity].
  destruct (coords_cases core v (topLeft q) b m Hb Hm Hs)
    as [(_ & _ & _ & xa & ya & Ea & _) | (_ & Ea)];
    destruct (coords_cases core v (bottomRight q) b m Hb Hm Hs)
      as [(_ & _ & _ & xb & yb & Eb & _) | (_ & Eb)];
    rewrite Ea, Eb; cbn [Py.bind]; try (exists None; reflexivity).
  rewrite Hm. cbv zeta.
  destruct ((_ >? 0)%Z && (_ >? 0)%Z); eexists; reflexivity.
Qed.

End ViewFacts.

(** X16.  [widget_to_image_coords] maps every position of the widget to a
    pixel of the mask: when the editor holds a mask of the shape of its
    image, the call never raises, it answers [None] exactly when no pixmap
    is cached or the mask has no pixels, and every pair [(x, y)] it returns
    has [0 <= x < width] and [0 <= y < height] of the mask, whatever the
    zoom, the pan and the size of the widget are. *)
Theorem widget_positions_map_to_pixels_of_the_mask :
  forall (core : MaskEditWidget.t) (v : MaskEditView.t)
         (p : MaskEditView.QPoint) (b : Image) (m : Mask),
    MaskEditWidget.base_img core = Some b ->
    MaskEditWidget.mask core = Some m ->
    Np.same_shape b m = true ->
    (MaskEditView.has_pixmap v = true /\ 0 < Np.shape0 m /\ 0 < Np.shape1 m ->
     exists x y,
       MaskEditView.widget_to_image_coords core v p = Py.Ok (Some (x, y))
       /\ (0 <= x < Z.of_nat (Np.shape1 m))%Z
       /\ (0 <= y < Z.of_nat (Np.shape0 m))%Z)
    /\ (MaskEditView.has_pixmap v = false \/ Np.shape0 m = 0
        \/ Np.shape1 m = 0 ->
        MaskEditView.widget_to_image_coords core v p = Py.Ok None).
Proof.
  intros core v p b m Hb Hm Hs.
  destruct (ViewFacts.coords_cases core v p b m Hb Hm Hs)
    as [(Hp & H0 & H1 & Hxy) | (Hnone & E)].
  - split; [intros _; exact Hxy |].
    intros [H | [H | H]]; [congruence | lia | lia].
  - split; [| intros _; exact E].
    intros (Hp & H0 & H1). destruct Hnone as [H | [H | H]];
      [congruence | lia | lia].
Qed.

(** The theorem above at a fresh editor shown in a widget of 384 by 384
    pixels. *)
Lemma widget_positions_map_to_pixels_of_the_mask_witness :
  exists x y,
    MaskEditView.widget_to_image_coords Sample.widget0 SampleView.view0
                                        SampleView.point0
    = Py.Ok (Some (x, y))
    /\ (0 <= x < 2)%Z /\ (0 <= y < 2)%Z.
Proof.
  destruct (widget_positions_map_to_pixels_of_the_mask
              Sample.widget0 SampleView.view0 SampleView.point0
              Sample.image0 Sample.mask0 eq_refl eq_refl eq_refl)
    as [H _].
  apply H. split; [reflexivity |]. split; simpl; lia.
Defined.

(** X17.  [_rect_widget_to_image] answers [None] or a rectangle
    [(x, y, w, h)] that is not empty and lies inside the mask, as
    [cv2.grabCut] needs it; for an editor that holds a mask of the shape of
    its image the call never raises, and the rectangle is the one between
    the pixels under the top-left and the bottom-right corner. *)
Theorem image_rectangles_lie_in_the_mask :
  forall (core : MaskEditWidget.t) (v : MaskEditView.t)
         (rect : option MaskEditView.QRect) (b : Image) (m : Mask),
    MaskEditWidget.base_img core = Some b ->
    MaskEditWidget.mask core = Some m ->
    Np.same_shape b m = true ->
    exists r,
      MaskEditView.rect_widget_to_image core v rect = Py.Ok r
      /\ forall x y w h,
          r = Some (x, y, w, h) ->
          (0 <= x)%Z /\ (0 <= y)%Z /\ (0 < w)%Z /\ (0 < h)%Z
          /\ (x + w <= Z.of_nat (Np.shape1 m))%Z
          /\ (y + h <= Z.of_nat (Np.shape0 m))%Z
          /\ exists q xa ya xb yb,
              rect = Some q
              /\ MaskEditView.widget_to_image_coords
                   core v (MaskEditView.topLeft q) = Py.Ok (Some (xa, ya))
              /\ MaskEditView.widget_to_image_coords
                   core v (MaskEditView.bottomRight q) = Py.Ok (Some (xb, yb))
              /\ x = Z.min xa xb /\ y = Z.min ya yb
              /\ w = Z.abs (xa - xb) /\ h = Z.abs (ya - yb).
Proof.
  intros core v rect b m Hb Hm Hs.
  unfold MaskEditView.rect_widget_to_image.
  destruct rect as [q |];
    [| exists None; split; [reflexivity | intros x y w h H; discriminate H]].
  destruct (ViewFacts.coords_cases core v (MaskEditView.topLeft q) b m
                                   Hb Hm Hs)
    as [(_ & _ & _ & xa & ya & Ea & Hxa & Hya) | (_ & Ea)];
    destruct (ViewFacts.coords_cases core v (MaskEditView.bottomRight q) b m
                                     Hb Hm Hs)
      as [(_ & _ & _ & xb & yb & Eb & Hxb & Hyb) | (_ & Eb)];
    rewrite Ea, Eb; cbn [Py.bind];
    try (exists None; split; [reflexivity | intros x y w h H; discriminate H]).
  rewrite Hm. cbv zeta.
  destruct ((_ >? 0)%Z && (_ >? 0)%Z) eqn:E;
    [| exists None; split; [reflexivity | intros x y w h H; discriminate H]].
  eexists. split; [reflexivity |].
  intros x y w h H. injection H as <- <- <- <-.
  apply andb_true_iff in E. destruct E as [E1 E2].
  rewrite Z.gtb_ltb in E1, E2. apply Z.ltb_lt in E1, E2.
  repeat split; try lia.
  exists q, xa, ya, xb, yb.
  split; [reflexivity |]. split; [exact Ea |]. split; [exact Eb |].
  repeat split; lia.
Qed.

(** The theorem above at a fresh editor and a rectangle dragged over the
    whole widget. *)
Lemma image_rectangles_lie_in_the_mask_witness :
  exists r,
    MaskEditView.rect_widget_to_image Sample.widget0 SampleView.view0
                                      (Some SampleView.rect0)
    = Py.Ok r.
Proof.
  destruct (image_rectangles_lie_in_the_mask
              Sample.widget0 SampleView.view0 (Some SampleView.rect0)
              Sample.image0 Sample.mask0 eq_refl eq_refl eq_refl)
    as (r & H & _).
  exists r. exact H.
Defined.

Module LimitFacts.

Import MaskEditView.

(** The zoom after a wheel event is within the limits, whatever it was. *)
Lemma new_zoom_in_limits (q : Q) :
  ((1 # 10) <= py_max (1 # 10) (py_min 10 q))%Q
  /\ (py_max (1 # 10) (py_min 10 q) <= 10)%Q.
Proof.
  apply ViewFacts.clamp_between. unfold Qle. simpl. lia.
Qed.

(** A number within the limits is left alone by the clamp. *)
Lemma clamp_fixed (q q' : Q) :
  ((1 # 10) <= q)%Q -> (q <= 10)%Q -> (q' == q)%Q ->
  (py_max (1 # 10) (py_min 10 q') == q)%Q.
Proof.
  intros Hlo Hhi E.
  assert (Hmin : (py_min 10 q' == q)%Q).
  { unfold py_min. destruct (Py.Qlt_bool q' 10) eqn:L; [exact E |].
    apply ViewFacts.Qlt_bool_false in L. rewrite E in L.
    apply Qle_antisym; assumption. }
  unfold py_max. destruct (Py.Qlt_bool (1 # 10) (py_min 10 q')) eqn:L;
    [exact Hmin |].
  apply ViewFacts.Qlt_bool_false in L. rewrite Hmin in L.
  apply Qle_antisym; assumption.
Qed.

End LimitFacts.

(** X18.  The brush size and the zoom factor stay within the limits of the
    editor, 1 to 100 and 0.1 to 10: a fresh editor has a brush of 12 and a
    zoom of 1, and [increase_brush_size], [decrease_brush_size],
    [reset_view], [reset_zoom] and [wheelEvent] leave both within the
    limits, also when repainting raises.  A wheel event raises
    [ZeroDivisionError] and changes nothing when the widget has a width or
    height of zero; otherwise it can only fail in repainting, it keeps the
    brush, and with no vertical delta it returns with the zoom and the pan
    as they were.  Increasing and decreasing the brush undo each other away
    from the limits. *)
Theorem zoom_and_brush_stay_within_their_limits :
  (forall w h rendered,
      MaskEditView.in_limits (MaskEditView.init w h rendered))
  /\ forall v : MaskEditView.t,
      MaskEditView.in_limits v ->
      MaskEditView.in_limits (MaskEditView.increase_brush_size v)
      /\ MaskEditView.in_limits (MaskEditView.decrease_brush_size v)
      /\ ((MaskEditView.brush_size v <= 95)%Z ->
          MaskEditView.decrease_brush_size (MaskEditView.increase_brush_size v)
          = v)
      /\ ((6 <= MaskEditView.brush_size v)%Z ->
          MaskEditView.increase_brush_size (MaskEditView.decrease_brush_size v)
          = v)
      /\ (forall r,
             MaskEditView.in_limits
               (MaskEditView.state_of (MaskEditView.reset_view v r))
             /\ MaskEditView.in_limits
                  (MaskEditView.state_of (MaskEditView.reset_zoom v r)))
      /\ (forall pos_x pos_y angle_delta_y r,
             (MaskEditView.width v = 0%Z \/ MaskEditView.height v = 0%Z ->
              MaskEditView.wheelEvent v pos_x pos_y angle_delta_y r
              = MaskEditView.Raised MaskEditView.ZeroDivisionError v)
             /\ (MaskEditView.width v <> 0%Z ->
                 MaskEditView.height v <> 0%Z ->
                 exists v',
                   (MaskEditView.wheelEvent v pos_x pos_y angle_delta_y r
                    = MaskEditView.Done v'
                    \/ (MaskEditView.wheelEvent v pos_x pos_y angle_delta_y r
                        = MaskEditView.Raised MaskEditView.RenderingError v'
                        /\ r = MaskEditView.Raises))
                   /\ MaskEditView.in_limits v'
                   /\ MaskEditView.brush_size v' = MaskEditView.brush_size v
                   /\ (angle_delta_y = 0%Z ->
                       MaskEditView.wheelEvent v pos_x pos_y angle_delta_y r
                       = MaskEditView.Done v'
                       /\ (MaskEditView.zoom_factor v'
                           == MaskEditView.zoom_factor v)%Q
                       /\ MaskEditView.pan_offset v'
                          = MaskEditView.pan_offset v))).
Proof.
  split.
  - intros w h r. unfold MaskEditView.in_limits, MaskEditView.init,
                    MaskEditView.DEFAULT_BRUSH_SIZE. simpl.
    split; [lia |]. split; unfold Qle; simpl; lia.
  - intros v (Hb & Hz1 & Hz2).
    split; [| split; [| split; [| split; [| split]]]].
    + unfold MaskEditView.in_limits. simpl. split; [lia | split; assumption].
    + unfold MaskEditView.in_limits. simpl. split; [lia | split; assumption].
    + intros H. destruct v as [bs z p hp w h].
      unfold MaskEditView.decrease_brush_size, MaskEditView.increase_brush_size,
        MaskEditView.with_brush_size. simpl in *. f_equal. lia.
    + intros H. destruct v as [bs z p hp w h].
      unfold MaskEditView.decrease_brush_size, MaskEditView.increase_brush_size,
        MaskEditView.with_brush_size. simpl in *. f_equal. lia.
    + intros r. split; destruct r; unfold MaskEditView.in_limits; simpl;
        (split; [lia |]; split; unfold Qle; simpl; lia).
    + intros pos_x pos_y delta r. unfold MaskEditView.wheelEvent. split.
      * intros [H | H]; rewrite H; [reflexivity |].
        rewrite orb_true_r. reflexivity.
      * intros Hw Hh.
        destruct (Z.eqb_spec (MaskEditView.width v) 0); [contradiction |].
        destruct (Z.eqb_spec (MaskEditView.height v) 0); [contradiction |].
        cbn [orb]. cbv zeta.
        set (zd := ((15 # 100) * (inject_Z delta / 8 / 15))%Q).
        set (nz := MaskEditView.py_max (1 # 10)
                     (MaskEditView.py_min 10
                        (MaskEditView.zoom_factor v + zd)%Q)).
        destruct (LimitFacts.new_zoom_in_limits
                    (MaskEditView.zoom_factor v + zd)%Q) as [N1 N2].
        fold nz in N1, N2.
        assert (Hzero : delta = 0%Z -> (nz == MaskEditView.zoom_factor v)%Q).
        { intros ->. unfold nz. apply LimitFacts.clamp_fixed; try assumption.
          unfold zd. change (inject_Z 0 / 8 / 15)%Q with (0 # 120)%Q.
          destruct (MaskEditView.zoom_factor v) as [zn zd'].
          unfold Qeq, Qplus, Qmult. simpl. lia. }
        destruct (Qeq_bool (MaskEditView.zoom_factor v) nz) eqn:Eq; cbn [negb].
        -- eexists. split; [left; reflexivity |].
           split; [split; [exact Hb | split; assumption] |].
           split; [reflexivity |].
           intros Hd. split; [reflexivity |].
           split; [exact (Hzero Hd) | reflexivity].
        -- assert (Hnz : delta <> 0%Z).
           { intros Hd. apply Hzero in Hd.
             apply Qeq_sym, Qeq_bool_iff in Hd. congruence. }
           destruct (Qeq_bool (MaskEditView.zoom_factor v) 0) eqn:E0.
           ++ apply Qeq_bool_iff in E0. rewrite E0 in Hz1.
              unfold Qle in Hz1. simpl in Hz1. lia.
           ++ destruct r; cbn [MaskEditView.update_pix].
              ** eexists. split; [left; reflexivity |].
                 split; [split; [exact Hb | split; assumption] |].
                 split; [reflexivity |]. intros Hd. contradiction.
              ** eexists. split; [left; reflexivity |].
                 split; [split; [exact Hb | split; assumption] |].
                 split; [reflexivity |]. intros Hd. contradiction.
              ** eexists. split; [right; split; reflexivity |].
                 split; [split; [exact Hb | split; assumption] |].
                 split; [reflexivity |]. intros Hd. contradiction.
Qed.

(** The theorem above at the view of a fresh editor and one notch of the
    wheel. *)
Lemma zoom_and_brush_stay_within_their_limits_witness :
  MaskEditView.in_limits (MaskEditView.increase_brush_size SampleView.view0)
  /\ MaskEditView.in_limits
       (MaskEditView.state_of
          (MaskEditView.reset_view SampleView.view0 MaskEditView.Rendered)).
Proof.
  destruct zoom_and_brush_stay_within_their_limits as [Hinit Hstep].
  destruct (Hstep SampleView.view0 (Hinit 384%Z 384%Z true))
    as (Hinc & _ & _ & _ & Hreset & _).
  split; [exact Hinc | exact (proj1 (Hreset MaskEditView.Rendered))].
Defined.

(* ===================================================================== *)
(** * Properties of the GrabCut session                                   *)
(* ===================================================================== *)

Module GrabcutFacts.

Import MaskEditWidget MaskEditGrabcut.

(** After a commit the pointer is on the mask that was committed. *)
Lemma commit_newest self (m : Mask) :
  history_idx self < length (history self) ->
  nth_error (history (commit self m)) (history_idx (commit self m)) = Some m.
Proof.
  intros Hp.
  destruct (HistoryFacts.commit_spec self m Hp) as (Hh & Hi & _).
  replace (history_idx (commit self m))
    with (length (history (commit self m)) - 1) by lia.
  rewrite Hh. unfold Py.slice_last. rewrite nth_error_skipn.
  rewrite length_skipn.
  set (l := firstn (history_idx self + 1) (history self) ++ [m]) in *.
  assert (Hlen : length l = history_idx self + 2).
  { unfold l. rewrite length_app, length_firstn. simpl. lia. }
  assert (E : length l - MAX_HISTORY_SIZE
              + (length l - (length l - MAX_HISTORY_SIZE) - 1)
              = length l - 1).
  { unfold MAX_HISTORY_SIZE. lia. }
  rewrite E, Hlen.
  assert (Hf : length (firstn (history_idx self + 1) (history self))
               = history_idx self + 1) by (rewrite length_firstn; lia).
  unfold l. rewrite nth_error_app2 by lia.
  rewrite Hf. replace (history_idx self + 2 - 1 - (history_idx self + 1))
    with 0 by lia.
  reflexivity.
Qed.

(** [set_mode] to [draw] once the session is closed. *)
Lemma set_mode_draw c :
  gc_initialized c = false -> gc_mask c = None -> drawing_rect c = false ->
  mode (set_mode c draw) = draw
  /\ mask (set_mode c draw) = mask c
  /\ history (set_mode c draw) = history c
  /\ history_idx (set_mode c draw) = history_idx c
  /\ base_img (set_mode c draw) = base_img c
  /\ gc_initialized (set_mode c draw) = false
  /\ gc_mask (set_mode c draw) = None
  /\ gc_bgd_model (set_mode c draw) = gc_bgd_model c
  /\ gc_fgd_model (set_mode c draw) = gc_fgd_model c
  /\ drawing_rect (set_mode c draw) = false
  /\ exists evs, events (set_mode c draw) = events c ++ evs
                 /\ forall m, ~ In (mask_edited m) evs.
Proof.
  intros H1 H2 H3. unfold set_mode.
  destruct (mode_eqb draw (mode c)) eqn:E.
  - apply EditorFacts.mode_eqb_eq in E. symmetry in E.
    repeat (split; [first [assumption | reflexivity] |]).
    exists []. split; [symmetry; apply app_nil_r | intros m []].
  - repeat (split; [reflexivity |]).
    exists [grabcut_mode_changed false; show_watershed_buttons false]. split.
    + change ((events c ++ [grabcut_mode_changed false])
              ++ [show_watershed_buttons false]
              = events c ++ [grabcut_mode_changed false;
                             show_watershed_buttons false]).
      rewrite <- app_assoc. reflexivity.
    + intros m [H | [H | []]]; discriminate H.
Qed.

(** The mask made of the labels of a session. *)
Lemma foreground_of_spec (g : Markers) :
  Np.same_shape g (foreground_of g) = true
  /\ Np.all_cells Spec.binary (foreground_of g)
  /\ forall i j,
      Np.cell (foreground_of g) i j = 255%Z
      <-> (Np.cell g i j = GC_FGD \/ Np.cell g i j = GC_PR_FGD).
Proof.
  split; [| split].
  - unfold Np.same_shape, foreground_of, Np.map. simpl.
    rewrite !Nat.eqb_refl. reflexivity.
  - intros i j _ _. unfold foreground_of, Np.map, Spec.binary. simpl.
    destruct (_ || _); [right | left]; reflexivity.
  - intros i j. unfold foreground_of, Np.map. simpl.
    destruct (Z.eqb_spec (Np.cell g i j) GC_FGD) as [E1 | E1];
      destruct (Z.eqb_spec (Np.cell g i j) GC_PR_FGD) as [E2 | E2];
      cbn [orb]; split; intros H; try reflexivity; try discriminate H;
      try (left; assumption); try (right; assumption).
    destruct H; contradiction.
Qed.

(** The state [finish_grabcut] leaves behind for an open session. *)
Lemma finish_open (self : t) (r : MaskEditView.rendering) (g : Markers) :
  gc_initialized (core self) = true -> gc_mask (core self) = Some g ->
  let c1 := commit (core self) (foreground_of g) in
  let c2 := match r with
            | MaskEditView.Raises => c1
            | _ => emit c1 (mask_edited (mask c1))
            end in
  let c3 := with_drawing_rect (with_gc_models_off (with_gc_off c2)) false in
  finish_grabcut self r
  = mk (set_mode c3 draw)
       (MaskEditView.state_of (MaskEditView.update_pix (view self) r))
       None None None.
Proof.
  intros Hi Hg. unfold finish_grabcut. rewrite Hi, Hg.
  destruct r; reflexivity.
Qed.

End GrabcutFacts.

(** X19.  [finish_grabcut] always leaves the editor in draw mode.  With a
    session open it turns the labels of the session into a mask of the same
    shape, 255 where the label is foreground or probable foreground and 0
    elsewhere, stores and commits that mask with the pointer on it and the
    snapshot that was current in front of it, and closes the session: label
    map, models and rectangle are gone.  The new mask is announced by
    [mask_edited], unless repainting raised: then it is committed without
    any announcement.  With no session open, the mask and the history stay
    as they are. *)
Theorem finish_grabcut_commits_the_session_mask :
  forall (self : MaskEditGrabcut.t) (r : MaskEditView.rendering),
    let self1 := MaskEditGrabcut.finish_grabcut self r in
    MaskEditWidget.mode (MaskEditGrabcut.core self1) = MaskEditWidget.draw
    /\ (forall g : Markers,
           MaskEditWidget.gc_initialized (MaskEditGrabcut.core self) = true ->
           MaskEditWidget.gc_mask (MaskEditGrabcut.core self) = Some g ->
           MaskEditWidget.history_idx (MaskEditGrabcut.core self)
           < length (MaskEditWidget.history (MaskEditGrabcut.core self)) ->
           let out := MaskEditGrabcut.foreground_of g in
           let c1 := MaskEditGrabcut.core self1 in
           MaskEditWidget.mask c1 = Some out
           /\ Np.same_shape g out = true
           /\ Np.all_cells Spec.binary out
           /\ (forall i j,
                  Np.cell out i j = 255%Z
                  <-> (Np.cell g i j = 1%Z \/ Np.cell g i j = 3%Z))
           /\ nth_error (MaskEditWidget.history c1)
                        (MaskEditWidget.history_idx c1) = Some out
           /\ 0 < MaskEditWidget.history_idx c1
           /\ nth_error (MaskEditWidget.history c1)
                        (MaskEditWidget.history_idx c1 - 1)
              = nth_error (MaskEditWidget.history (MaskEditGrabcut.core self))
                          (MaskEditWidget.history_idx
                             (MaskEditGrabcut.core self))
           /\ MaskEditWidget.gc_initialized c1 = false
           /\ MaskEditWidget.gc_mask c1 = None
           /\ MaskEditWidget.gc_bgd_model c1 = None
           /\ MaskEditWidget.gc_fgd_model c1 = None
           /\ MaskEditWidget.drawing_rect c1 = false
           /\ MaskEditGrabcut.grabcut_rect self1 = None
           /\ MaskEditGrabcut.rect_start_point self1 = None
           /\ (r <> MaskEditView.Raises ->
               In (MaskEditWidget.mask_edited (Some out))
                  (MaskEditWidget.events c1))
           /\ (r = MaskEditView.Raises ->
               forall m,
                 In (MaskEditWidget.mask_edited m) (MaskEditWidget.events c1) ->
                 In (MaskEditWidget.mask_edited m)
                    (MaskEditWidget.events (MaskEditGrabcut.core self))))
    /\ (MaskEditWidget.gc_initialized (MaskEditGrabcut.core self) = false
        \/ MaskEditWidget.gc_mask (MaskEditGrabcut.core self) = None ->
        MaskEditWidget.mask (MaskEditGrabcut.core self1)
        = MaskEditWidget.mask (MaskEditGrabcut.core self)
        /\ MaskEditWidget.history (MaskEditGrabcut.core self1)
           = MaskEditWidget.history (MaskEditGrabcut.core self)
        /\ MaskEditWidget.history_idx (MaskEditGrabcut.core self1)
           = MaskEditWidget.history_idx (MaskEditGrabcut.core self)
        /\ MaskEditGrabcut.view self1 = MaskEditGrabcut.view self).
Proof.
  intros self r self1.
  assert (Hclosed :
            MaskEditWidget.gc_initialized (MaskEditGrabcut.core self) = false
            \/ MaskEditWidget.gc_mask (MaskEditGrabcut.core self) = None ->
            self1 = MaskEditGrabcut.with_core self
                      (MaskEditWidget.set_mode (MaskEditGrabcut.core self)
                                               MaskEditWidget.draw)).
  { intros H. unfold self1, MaskEditGrabcut.finish_grabcut.
    destruct H as [-> | ->]; [reflexivity |].
    destruct (MaskEditWidget.gc_initialized _); reflexivity. }
  split; [| split].
  - destruct (MaskEditWidget.gc_initialized (MaskEditGrabcut.core self)) eqn:Hi;
      [destruct (MaskEditWidget.gc_mask (MaskEditGrabcut.core self))
         as [g |] eqn:Hg |].
    + unfold self1. rewrite (GrabcutFacts.finish_open self r g Hi Hg).
      apply EditorFacts.set_mode_mode.
    + rewrite (Hclosed (or_intror eq_refl)). apply EditorFacts.set_mode_mode.
    + rewrite (Hclosed (or_introl eq_refl)). apply EditorFacts.set_mode_mode.
  - intros g Hi Hg Hp out c1.
    destruct (GrabcutFacts.foreground_of_spec g) as (S1 & S2 & S3).
    pose proof (GrabcutFacts.finish_open self r g Hi Hg) as E.
    cbv zeta in E. fold self1 in E. fold out in E.
    set (k1 := MaskEditWidget.commit (MaskEditGrabcut.core self) out) in E.
    destruct (HistoryFacts.commit_spec (MaskEditGrabcut.core self) out Hp)
      as (_ & _ & Hmask).
    pose proof (GrabcutFacts.commit_newest (MaskEditGrabcut.core self) out Hp)
      as Hnew.
    destruct (MoveFacts.commit_previous (MaskEditGrabcut.core self) out Hp)
      as [Hpos Hprev].
    fold k1 in Hmask, Hnew, Hpos, Hprev.
    set (k2 := match r with
               | MaskEditView.Raises => k1
               | _ => MaskEditWidget.emit
                        k1 (MaskEditWidget.mask_edited (MaskEditWidget.mask k1))
               end) in E.
    assert (F2 : MaskEditWidget.mask k2 = Some out
                 /\ MaskEditWidget.history k2 = MaskEditWidget.history k1
                 /\ MaskEditWidget.history_idx k2
                    = MaskEditWidget.history_idx k1
                 /\ (r <> MaskEditView.Raises ->
                     In (MaskEditWidget.mask_edited (Some out))
                        (MaskEditWidget.events k2))
                 /\ (r = MaskEditView.Raises ->
                     MaskEditWidget.events k2
                     = MaskEditWidget.events (MaskEditGrabcut.core self))).
    { unfold k2. destruct r.
      - split; [exact Hmask |]. split; [reflexivity |]. split; [reflexivity |].
        split; [| intros Hd; discriminate Hd].
        intros _. change (MaskEditWidget.events (MaskEditWidget.emit ?x ?e))
          with (MaskEditWidget.events x ++ [e]).
        rewrite Hmask. apply in_or_app. right. left. reflexivity.
      - split; [exact Hmask |]. split; [reflexivity |]. split; [reflexivity |].
        split; [| intros Hd; discriminate Hd].
        intros _. change (MaskEditWidget.events (MaskEditWidget.emit ?x ?e))
          with (MaskEditWidget.events x ++ [e]).
        rewrite Hmask. apply in_or_app. right. left. reflexivity.
      - split; [exact Hmask |]. split; [reflexivity |]. split; [reflexivity |].
        split; [intros Hd; contradiction |].
        intros _. unfold k1, MaskEditWidget.commit, MaskEditWidget.push_history.
        change (MaskEditWidget.mask (MaskEditWidget.with_mask ?x ?y)) with y.
        cbv iota beta.
        destruct (MaskEditWidget.MAX_HISTORY_SIZE <? _); reflexivity. }
    clearbody k2. destruct F2 as (F21 & F22 & F23 & F24 & F25).
    set (k3 := MaskEditGrabcut.with_drawing_rect
                 (MaskEditWidget.with_gc_models_off
                    (MaskEditWidget.with_gc_off k2)) false) in E.
    destruct (GrabcutFacts.set_mode_draw k3 eq_refl eq_refl eq_refl)
      as (M1 & M2 & M3 & M4 & M5 & M6 & M7 & M8 & M9 & M10 & evs & M11 & M12).
    assert (Ec : c1 = MaskEditWidget.set_mode k3 MaskEditWidget.draw).
    { unfold c1. rewrite E. reflexivity. }
    rewrite Ec, M2, M3, M4, M6, M7, M8, M9, M10, M11.
    change (MaskEditWidget.mask k3) with (MaskEditWidget.mask k2).
    change (MaskEditWidget.history k3) with (MaskEditWidget.history k2).
    change (MaskEditWidget.history_idx k3)
      with (MaskEditWidget.history_idx k2).
    change (MaskEditWidget.events k3) with (MaskEditWidget.events k2).
    rewrite F21, F22, F23, E.
    split; [reflexivity |]. split; [exact S1 |]. split; [exact S2 |].
    split; [exact S3 |]. split; [exact Hnew |]. split; [exact Hpos |].
    split; [exact Hprev |].
    repeat (split; [reflexivity |]).
    split.
    + intros Hr. apply in_or_app. left. exact (F24 Hr).
    + intros Hr m Hin. apply in_app_or in Hin. destruct Hin as [Hin | Hin].
      * rewrite (F25 Hr) in Hin. exact Hin.
      * exfalso. exact (M12 m Hin).
  - intros H. rewrite (Hclosed H).
    change (MaskEditGrabcut.core (MaskEditGrabcut.with_core ?x ?c)) with c.
    rewrite HistoryFacts.set_mode_mask, HistoryFacts.set_mode_history,
      HistoryFacts.set_mode_history_idx.
    repeat split.
Qed.

(** The theorem above at a session whose label map says probable
    foreground in the first row. *)
Lemma finish_grabcut_commits_the_session_mask_witness :
  MaskEditWidget.mask
    (MaskEditGrabcut.core
       (MaskEditGrabcut.finish_grabcut SampleGrabcut.session
                                       MaskEditView.Rendered))
  = Some (MaskEditGrabcut.foreground_of SampleGrabcut.labels).
Proof.
  destruct (finish_grabcut_commits_the_session_mask
              SampleGrabcut.session MaskEditView.Rendered) as (_ & H & _).
  destruct (H SampleGrabcut.labels eq_refl eq_refl) as [Hm _].
  - simpl. lia.
  - exact Hm.
Defined.

Module SessionFacts.

Import MaskEditWidget MaskEditMore MaskEditGrabcut.

(** [finish_grabcut] keeps the editor consistent when the label map of an
    open session has the shape of the image. *)
Lemma consistent_finish (self : t) (r : MaskEditView.rendering) (b : Image) :
  consistent (core self) -> base_img (core self) = Some b ->
  (forall g, gc_initialized (core self) = true ->
             gc_mask (core self) = Some g -> Np.same_shape b g = true) ->
  consistent (core (finish_grabcut self r)).
Proof.
  intros Hc Hb Hg.
  destruct (gc_initialized (core self)) eqn:Hi;
    [destruct (gc_mask (core self)) as [g |] eqn:Hgm |].
  - rewrite (GrabcutFacts.finish_open self r g Hi Hgm).
    change (core (mk ?c ?v ?a ?b0 ?d)) with c.
    apply ConsistencyFacts.consistent_set_mode.
    destruct (GrabcutFacts.foreground_of_spec g) as (S1 & _).
    assert (Hs : Np.same_shape b (foreground_of g) = true).
    { specialize (Hg g eq_refl eq_refl).
      unfold Np.same_shape in *.
      apply andb_true_iff in Hg, S1. destruct Hg as [G0 G1], S1 as [T0 T1].
      apply Nat.eqb_eq in G0, G1, T0, T1.
      rewrite G0, G1, T0, T1, !Nat.eqb_refl. reflexivity. }
    destruct (ConsistencyFacts.consistent_commit (core self) (foreground_of g) Hc)
      as (Hcc & _).
    { intros b' Hb'. rewrite Hb in Hb'. injection Hb' as <-. exact Hs. }
    revert Hcc. destruct r;
      apply ConsistencyFacts.consistent_ext; ConsistencyFacts.same_fields.
  - unfold finish_grabcut. rewrite Hi, Hgm.
    apply ConsistencyFacts.consistent_set_mode. exact Hc.
  - unfold finish_grabcut. rewrite Hi.
    apply ConsistencyFacts.consistent_set_mode. exact Hc.
Qed.

(** With no session open [finish_grabcut] only goes back to draw mode. *)
Lemma finish_closed (self : t) (r : MaskEditView.rendering) :
  gc_initialized (core self) = false ->
  finish_grabcut self r = with_core self (set_mode (core self) draw).
Proof. intros H. unfold finish_grabcut. rewrite H. reflexivity. Qed.

Lemma set_mode_draw_closed c :
  gc_initialized c = false -> gc_initialized (set_mode c draw) = false.
Proof.
  intros H. unfold set_mode. destruct (mode_eqb draw (mode c));
    [exact H | reflexivity].
Qed.

End SessionFacts.

Module StartFacts.

Import MaskEditWidget MaskEditMore MaskEditGrabcut.

(** [finish_grabcut] with no session open. *)
Lemma closed_outcome (self : t) (r : MaskEditView.rendering) :
  consistent (core self) -> gc_initialized (core self) = false ->
  consistent (core (finish_grabcut self r))
  /\ mode (core (finish_grabcut self r)) = draw
  /\ gc_initialized (core (finish_grabcut self r)) = false
  /\ mask (core (finish_grabcut self r)) = mask (core self)
  /\ history (core (finish_grabcut self r)) = history (core self)
  /\ history_idx (core (finish_grabcut self r)) = history_idx (core self).
Proof.
  intros Hc Hi. rewrite (SessionFacts.finish_closed self r Hi).
  change (core (with_core ?x ?c)) with c.
  split; [apply ConsistencyFacts.consistent_set_mode; exact Hc |].
  split; [apply EditorFacts.set_mode_mode |].
  split; [apply SessionFacts.set_mode_draw_closed; exact Hi |].
  rewrite HistoryFacts.set_mode_mask, HistoryFacts.set_mode_history,
    HistoryFacts.set_mode_history_idx.
  repeat split.
Qed.

(** [finish_grabcut] with a session open on a label map of the shape of
    the image. *)
Lemma open_outcome (self : t) (r : MaskEditView.rendering) (b : Image)
      (g : Markers) :
  consistent (core self) -> base_img (core self) = Some b ->
  gc_initialized (core self) = true -> gc_mask (core self) = Some g ->
  Np.same_shape b g = true ->
  consistent (core (finish_grabcut self r))
  /\ mode (core (finish_grabcut self r)) = draw
  /\ gc_initialized (core (finish_grabcut self r)) = false.
Proof.
  intros Hc Hb Hi Hg Hs.
  split.
  - apply (SessionFacts.consistent_finish self r b Hc Hb).
    intros g' _ Hg'. rewrite Hg in Hg'. injection Hg' as <-. exact Hs.
  - rewrite (GrabcutFacts.finish_open self r g Hi Hg).
    change (core (mk ?c ?v ?a ?b0 ?d)) with c.
    match goal with
    | |- mode (set_mode ?k draw) = _ /\ _ =>
        destruct (GrabcutFacts.set_mode_draw k eq_refl eq_refl eq_refl)
          as (M1 & _ & _ & _ & _ & M6 & _)
    end.
    split; assumption.
Qed.

End StartFacts.

(** X20.  [enter_grabcut_rect_mode] and [_run_grabcut_initial] open a
    GrabCut session or go back to drawing.  Entering the rectangle mode
    keeps a consistent state consistent, closes any session and forgets the
    rectangle.  [_run_grabcut_initial], called in a consistent state with no
    session open, never raises and leaves the state consistent; with no
    rectangle dragged it changes nothing; otherwise the editor ends in
    refine mode with a session open on a label map of the shape of the
    image, or in draw mode with no session open.  Unless repainting raises,
    the mask and its history are not touched.  [cv2.cvtColor] and
    [cv2.grabCut] are only assumed to keep the shape of the arrays they are
    given. *)
Theorem grabcut_opens_a_session_or_goes_back_to_drawing :
  forall (cv2_cvtColor : Image -> Py.result MaskEditGrabcut.Bgr)
         (cv2_grabCut :
            MaskEditGrabcut.Bgr -> Markers -> Z * Z * Z * Z ->
            list Q -> list Q ->
            (Markers * list Q * list Q) * Py.result unit)
         (self : MaskEditGrabcut.t) (r1 r2 : MaskEditView.rendering)
         (b : Image),
    (forall img bgr, cv2_cvtColor img = Py.Ok bgr ->
                     Np.same_shape img bgr = true) ->
    (forall bgr z rect bm fm,
        Np.same_shape z (fst (fst (fst (cv2_grabCut bgr z rect bm fm))))
        = true) ->
    MaskEditMore.consistent (MaskEditGrabcut.core self) ->
    MaskEditWidget.base_img (MaskEditGrabcut.core self) = Some b ->
    (let self0 := MaskEditGrabcut.enter_grabcut_rect_mode self in
     MaskEditMore.consistent (MaskEditGrabcut.core self0)
     /\ MaskEditWidget.mode (MaskEditGrabcut.core self0)
        = MaskEditWidget.grabcut_rect
     /\ MaskEditWidget.gc_initialized (MaskEditGrabcut.core self0) = false
     /\ MaskEditGrabcut.grabcut_rect self0 = None
     /\ MaskEditWidget.mask (MaskEditGrabcut.core self0)
        = MaskEditWidget.mask (MaskEditGrabcut.core self)
     /\ MaskEditWidget.history (MaskEditGrabcut.core self0)
        = MaskEditWidget.history (MaskEditGrabcut.core self))
    /\ (MaskEditWidget.gc_initialized (MaskEditGrabcut.core self) = false ->
    exists self1,
      MaskEditGrabcut.run_grabcut_initial cv2_cvtColor cv2_grabCut self r1 r2
      = Py.Ok self1
      /\ MaskEditMore.consistent (MaskEditGrabcut.core self1)
      /\ (MaskEditGrabcut.grabcut_rect self = None -> self1 = self)
      /\ (MaskEditGrabcut.grabcut_rect self <> None ->
          (MaskEditWidget.mode (MaskEditGrabcut.core self1)
           = MaskEditWidget.grabcut_refine
           /\ MaskEditWidget.gc_initialized (MaskEditGrabcut.core self1) = true
           /\ exists g,
               MaskEditWidget.gc_mask (MaskEditGrabcut.core self1) = Some g
               /\ Np.same_shape b g = true)
          \/ (MaskEditWidget.mode (MaskEditGrabcut.core self1)
              = MaskEditWidget.draw
              /\ MaskEditWidget.gc_initialized (MaskEditGrabcut.core self1)
                 = false))
      /\ (r1 <> MaskEditView.Raises ->
          MaskEditWidget.mask (MaskEditGrabcut.core self1)
          = MaskEditWidget.mask (MaskEditGrabcut.core self)
          /\ MaskEditWidget.history (MaskEditGrabcut.core self1)
             = MaskEditWidget.history (MaskEditGrabcut.core self)
          /\ MaskEditWidget.history_idx (MaskEditGrabcut.core self1)
             = MaskEditWidget.history_idx (MaskEditGrabcut.core self))).
Proof.
  intros cvt grab self r1 r2 b Hcvt Hgrab Hc Hb.
  split.
  { cbv zeta. unfold MaskEditGrabcut.enter_grabcut_rect_mode.
    change (MaskEditGrabcut.core (MaskEditGrabcut.mk ?c ?v ?a ?b0 ?d)) with c.
    split.
    { revert Hc. apply ConsistencyFacts.consistent_other_mode;
        try reflexivity.
      intros Hd. discriminate Hd. }
    repeat split. }
  intros Hi.
  unfold MaskEditGrabcut.run_grabcut_initial.
  destruct (MaskEditGrabcut.grabcut_rect self) as [rect |] eqn:Hrect.
  2:{ exists self. split; [reflexivity |]. split; [exact Hc |].
      split; [reflexivity |].
      split; [intros H; contradiction |]. intros _. repeat split. }
  rewrite Hb.
  pose proof Hc as (b' & m & H1 & H2 & H3 & _).
  rewrite Hb in H1. injection H1 as <-.
  destruct (ViewFacts.rect_returns (MaskEditGrabcut.core self)
                                   (MaskEditGrabcut.view self) (Some rect)
                                   b m Hb H2 H3) as (ir & Er).
  rewrite Er. cbn [Py.bind].
  destruct ir as [img_rect |].
  2:{ eexists. split; [reflexivity |].
      change (MaskEditGrabcut.core (MaskEditGrabcut.with_core ?x ?c)) with c.
      split.
      { revert Hc. apply ConsistencyFacts.consistent_other_mode;
          try reflexivity.
        intros Hd. discriminate Hd. }
      split; [intros Hd; discriminate Hd |].
      split; [intros _; right; split; [reflexivity | exact Hi] |].
      intros _. repeat split. }
  destruct (cvt b) as [bgr | e] eqn:Ec.
  2:{ destruct (StartFacts.closed_outcome self r2 Hc Hi)
        as (C1 & C2 & C3 & C4 & C5 & C6).
      eexists. split; [reflexivity |].
      split; [exact C1 |]. split; [intros Hd; discriminate Hd |].
      split; [intros _; right; split; assumption |].
      intros _. split; [exact C4 | split; assumption]. }
  set (zeros := Np.full (Np.shape0 bgr) (Np.shape1 bgr) 0%Z : Markers).
  pose proof (Hgrab bgr zeros img_rect (repeat 0%Q 65) (repeat 0%Q 65)) as Hz.
  destruct (grab bgr zeros img_rect (repeat 0%Q 65) (repeat 0%Q 65))
    as [[[g bgd] fgd] raised].
  cbn [fst] in Hz.
  assert (Hs : Np.same_shape b g = true).
  { specialize (Hcvt b bgr Ec). unfold Np.same_shape in *.
    apply andb_true_iff in Hcvt, Hz.
    destruct Hcvt as [A0 A1], Hz as [B0 B1].
    apply Nat.eqb_eq in A0, A1, B0, B1. cbn in B0, B1.
    rewrite A0, A1, B0, B1, !Nat.eqb_refl. reflexivity. }
  set (c1 := MaskEditGrabcut.with_gc_arrays (MaskEditGrabcut.core self)
                                            g bgd fgd).
  assert (Hc1 : MaskEditMore.consistent c1).
  { revert Hc. apply ConsistencyFacts.consistent_ext;
      ConsistencyFacts.same_fields. }
  destruct raised as [u | e].
  2:{ destruct (StartFacts.closed_outcome
                  (MaskEditGrabcut.with_core self c1) r2 Hc1 Hi)
        as (C1 & C2 & C3 & C4 & C5 & C6).
      eexists. split; [reflexivity |].
      split; [exact C1 |]. split; [intros Hd; discriminate Hd |].
      split; [intros _; right; split; assumption |].
      intros _. split; [exact C4 | split; assumption]. }
  set (c2 := MaskEditGrabcut.with_gc_initialized c1 true).
  assert (Hc2 : MaskEditMore.consistent c2).
  { revert Hc1. apply ConsistencyFacts.consistent_ext;
      ConsistencyFacts.same_fields. }
  destruct r1.
  - eexists. split; [reflexivity |].
    change (MaskEditGrabcut.core (MaskEditGrabcut.with_core ?x ?c)) with c.
    split; [apply ConsistencyFacts.consistent_set_mode; exact Hc2 |].
    split; [intros Hd; discriminate Hd |].
    split.
    + intros _. left. split; [apply EditorFacts.set_mode_mode |].
      unfold MaskEditWidget.set_mode.
      destruct (MaskEditWidget.mode_eqb _ _);
        (split; [reflexivity | exists g; split; [reflexivity | exact Hs]]).
    + intros _.
      rewrite HistoryFacts.set_mode_mask, HistoryFacts.set_mode_history,
        HistoryFacts.set_mode_history_idx.
      repeat split.
  - eexists. split; [reflexivity |].
    change (MaskEditGrabcut.core (MaskEditGrabcut.with_core ?x ?c)) with c.
    split; [apply ConsistencyFacts.consistent_set_mode; exact Hc2 |].
    split; [intros Hd; discriminate Hd |].
    split.
    + intros _. left. split; [apply EditorFacts.set_mode_mode |].
      unfold MaskEditWidget.set_mode.
      destruct (MaskEditWidget.mode_eqb _ _);
        (split; [reflexivity | exists g; split; [reflexivity | exact Hs]]).
    + intros _.
      rewrite HistoryFacts.set_mode_mask, HistoryFacts.set_mode_history,
        HistoryFacts.set_mode_history_idx.
      repeat split.
  - destruct (StartFacts.open_outcome
                (MaskEditGrabcut.with_view
                   (MaskEditGrabcut.with_core
                      (MaskEditGrabcut.with_core self c1) c2)
                   (MaskEditGrabcut.view self))
                r2 b g Hc2 Hb eq_refl eq_refl Hs)
      as (C1 & C2 & C3).
    eexists. split; [reflexivity |].
    split; [exact C1 |]. split; [intros Hd; discriminate Hd |].
    split; [intros _; right; split; assumption |].
    intros Hd. contradiction.
Qed.

(** The theorem above at a fresh editor on which a rectangle was dragged
    over the whole widget. *)
Lemma grabcut_opens_a_session_or_goes_back_to_drawing_witness :
  exists self1,
    MaskEditGrabcut.run_grabcut_initial
      SampleGrabcut.cv2_cvtColor SampleGrabcut.cv2_grabCut
      SampleGrabcut.dragged MaskEditView.Rendered MaskEditView.Rendered
    = Py.Ok self1
    /\ MaskEditMore.consistent (MaskEditGrabcut.core self1).
Proof.
  destruct (grabcut_opens_a_session_or_goes_back_to_drawing
              SampleGrabcut.cv2_cvtColor SampleGrabcut.cv2_grabCut
              SampleGrabcut.dragged MaskEditView.Rendered MaskEditView.Rendered
              Sample.image0)
    as [_ Hrun].
  - intros img bgr H. injection H as <-.
    unfold Np.same_shape. simpl. rewrite !Nat.eqb_refl. reflexivity.
  - intros bgr z rect bm fm.
    unfold Np.same_shape. simpl. rewrite !Nat.eqb_refl. reflexivity.
  - exists Sample.image0, Sample.mask0.
    split; [reflexivity |]. split; [reflexivity |]. split; [reflexivity |].
    split; [repeat constructor |].
    split; [simpl; lia |].
    split; [unfold MaskEditWidget.MAX_HISTORY_SIZE; simpl; lia |].
    intros Hmd. discriminate Hmd.
  - reflexivity.
  - destruct (Hrun eq_refl) as (s1 & H1 & H2 & _).
    exists s1. split; [exact H1 | exact H2].
Defined.

(* ===================================================================== *)
(** * Properties of the thumbnail selection                               *)
(* ===================================================================== *)

Module ThumbFacts.

Import ThumbListWidget.

Lemma mem_In (i : Z) (s : list Z) : mem i s = true <-> In i s.
Proof.
  unfold mem. rewrite existsb_exists. split.
  - intros (x & Hx & E). apply Z.eqb_eq in E. subst. exact Hx.
  - intros H. exists i. split; [exact H | apply Z.eqb_refl].
Qed.

Lemma set_eqb_spec (a b : list Z) :
  set_eqb a b = true <-> (forall i, In i a <-> In i b).
Proof.
  unfold set_eqb. rewrite andb_true_iff, !forallb_forall. split.
  - intros [H1 H2] i. split; intros H; apply mem_In; auto.
  - intros H. split; intros i Hi; apply mem_In, H; exact Hi.
Qed.

Lemma in_range_spec (self : t) (i : Z) :
  in_range self i = true <-> (0 <= i < Z.of_nat (length (thumbs self)))%Z.
Proof. unfold in_range. rewrite andb_true_iff, Z.leb_le, Z.ltb_lt. tauto. Qed.

Lemma range_In (a b i : Z) : In i (range a b) <-> (a <= i < b)%Z.
Proof.
  unfold range. rewrite in_map_iff. split.
  - intros (k & E & Hk). apply in_seq in Hk. lia.
  - intros H. exists (Z.to_nat (i - a)). split; [lia |].
    apply in_seq. lia.
Qed.

(** [select_frames] selects the given indices that are thumbnails, and
    touches nothing else. *)
Lemma select_frames_spec (self : t) (indices : list Z) :
  thumbs (select_frames self indices) = thumbs self
  /\ current_idx (select_frames self indices) = current_idx self
  /\ forall i, In i (selected_indices (select_frames self indices))
               <-> (In i indices
                    /\ (0 <= i < Z.of_nat (length (thumbs self)))%Z).
Proof.
  unfold select_frames.
  destruct (set_eqb (filter (in_range self) indices) (selected_indices self))
    eqn:E; cbn [negb].
  - split; [reflexivity |]. split; [reflexivity |].
    intros i. rewrite set_eqb_spec in E. rewrite <- E, filter_In.
    rewrite in_range_spec. tauto.
  - split; [reflexivity |]. split; [reflexivity |].
    intros i. cbn [selected_indices emit]. rewrite filter_In, in_range_spec.
    tauto.
Qed.

(** [set_current] moves the current frame to a thumbnail, and touches
    nothing else. *)
Lemma set_current_spec (self : t) (idx : Z) :
  thumbs (set_current self idx) = thumbs self
  /\ selected_indices (set_current self idx) = selected_indices self
  /\ current_idx (set_current self idx)
     = (if in_range self idx then idx else current_idx self).
Proof.
  unfold set_current. destruct (in_range self idx); [| repeat split].
  destruct (negb _); repeat split.
Qed.

Lemma valid_select_frames (self : t) (indices : list Z) :
  valid self -> valid (select_frames self indices).
Proof.
  intros [Hc Hs]. destruct (select_frames_spec self indices) as (E1 & E2 & E3).
  unfold valid. rewrite E1, E2. split; [exact Hc |].
  intros i Hi. apply E3 in Hi. tauto.
Qed.

Lemma valid_set_current (self : t) (idx : Z) :
  valid self -> valid (set_current self idx).
Proof.
  intros [Hc Hs]. destruct (set_current_spec self idx) as (E1 & E2 & E3).
  unfold valid. rewrite E1, E2, E3. split; [| exact Hs].
  destruct (in_range self idx) eqn:E; [| exact Hc].
  right. apply in_range_spec. exact E.
Qed.

Lemma valid_mousePressEvent (self : t) (c : Z) (ctrl shift : bool) :
  valid self -> valid (mousePressEvent self c ctrl shift).
Proof.
  intros H. unfold mousePressEvent.
  destruct (negb (c =? -1)%Z); [| exact H].
  destruct ctrl; [apply valid_select_frames; exact H |].
  destruct (shift && _).
  - apply valid_set_current, valid_select_frames. exact H.
  - apply valid_select_frames, valid_set_current. exact H.
Qed.

Lemma valid_set_thumbs (self : t) (imgs : list Image) :
  valid (set_thumbs self imgs).
Proof.
  unfold set_thumbs. destruct imgs as [| img imgs].
  - split; [left; reflexivity | intros i []].
  - cbn [thumbs clear_thumbs current_idx selected_indices events].
    set (s0 := mk (img :: imgs) (-1) [] (events self)).
    destruct (set_current_spec s0 0) as (E1 & E2 & E3).
    unfold valid.
    cbn [thumbs current_idx selected_indices emit].
    rewrite E1, E3. split.
    + right. cbn. lia.
    + intros i [<- | []]. cbn. lia.
Qed.

End ThumbFacts.

(** X21.  The selection of the thumbnail list only ever holds thumbnails.
    After [__init__], [clear_thumbs] and [set_thumbs] the current frame is
    none (-1) or the index of a thumbnail and every selected index is the
    index of a thumbnail, and [set_current], [select_frames] and
    [mousePressEvent] keep it so, whatever index or set of indices they are
    given; [set_thumbs] with a list that is not empty makes frame 0 the
    current and the only selected one. *)
Theorem thumbnail_selection_holds_thumbnails_only :
  ThumbListWidget.valid ThumbListWidget.init
  /\ forall self : ThumbListWidget.t,
      ThumbListWidget.valid (ThumbListWidget.clear_thumbs self)
      /\ (forall imgs,
             ThumbListWidget.valid (ThumbListWidget.set_thumbs self imgs)
             /\ ThumbListWidget.thumbs (ThumbListWidget.set_thumbs self imgs)
                = imgs
             /\ (imgs <> [] ->
                 ThumbListWidget.current_idx
                   (ThumbListWidget.set_thumbs self imgs) = 0%Z
                 /\ ThumbListWidget.selected_indices
                      (ThumbListWidget.set_thumbs self imgs) = [0%Z]))
      /\ (ThumbListWidget.valid self ->
          (forall idx,
              ThumbListWidget.valid (ThumbListWidget.set_current self idx))
          /\ (forall indices,
                 ThumbListWidget.valid
                   (ThumbListWidget.select_frames self indices))
          /\ (forall clicked_idx ctrl shift,
                 ThumbListWidget.valid
                   (ThumbListWidget.mousePressEvent self clicked_idx
                                                    ctrl shift))).
Proof.
  split; [split; [left; reflexivity | intros i []] |].
  intros self. split; [split; [left; reflexivity | intros i []] |].
  split.
  - intros imgs. split; [apply ThumbFacts.valid_set_thumbs |].
    destruct imgs as [| img imgs].
    + split; [reflexivity |]. intros H. contradiction.
    + unfold ThumbListWidget.set_thumbs.
      cbn [ThumbListWidget.thumbs ThumbListWidget.clear_thumbs
           ThumbListWidget.current_idx ThumbListWidget.selected_indices
           ThumbListWidget.events ThumbListWidget.emit].
      set (s0 := ThumbListWidget.mk (img :: imgs) (-1) []
                                    (ThumbListWidget.events self)).
      destruct (ThumbFacts.set_current_spec s0 0) as (E1 & E2 & E3).
      split; [exact E1 |]. intros _. split; [exact E3 | reflexivity].
  - intros H.
    split; [intros idx; apply ThumbFacts.valid_set_current; exact H |].
    split; [intros ind; apply ThumbFacts.valid_select_frames; exact H |].
    intros c ctrl shift. apply ThumbFacts.valid_mousePressEvent. exact H.
Qed.

Lemma sample_list3_valid : ThumbListWidget.valid SampleThumbs.list3.
Proof. apply ThumbFacts.valid_set_thumbs. Qed.

(** The theorem above at a list of three thumbnails and a click on the
    last one with the Shift key held. *)
Lemma thumbnail_selection_holds_thumbnails_only_witness :
  ThumbListWidget.valid
    (ThumbListWidget.mousePressEvent SampleThumbs.list3 2 false true).
Proof.
  destruct thumbnail_selection_holds_thumbnails_only as [_ H].
  destruct (H SampleThumbs.list3) as (_ & _ & Hv).
  destruct (Hv sample_list3_valid) as (_ & _ & Hclick).
  exact (Hclick 2%Z false true).
Defined.

Module ClickFacts.

Import ThumbListWidget.

(** A click with the Control key held. *)
Lemma ctrl_click (self : t) (c : Z) (shift : bool) :
  c <> (-1)%Z -> (0 <= c < Z.of_nat (length (thumbs self)))%Z ->
  valid self ->
  let self1 := mousePressEvent self c true shift in
  thumbs self1 = thumbs self
  /\ current_idx self1 = current_idx self
  /\ (In c (selected_indices self1) <-> ~ In c (selected_indices self))
  /\ forall i, i <> c ->
               (In i (selected_indices self1) <-> In i (selected_indices self)).
Proof.
  intros Hc Hr [_ Hs] self1. unfold self1, mousePressEvent.
  destruct (Z.eqb_spec c (-1)); [contradiction |]. cbn [negb].
  match goal with
  | |- context [select_frames self ?l] =>
      destruct (ThumbFacts.select_frames_spec self l) as (E1 & E2 & E3)
  end.
  split; [exact E1 |]. split; [exact E2 |].
  destruct (mem c (selected_indices self)) eqn:Em.
  - apply ThumbFacts.mem_In in Em. split.
    + rewrite E3, filter_In. split.
      * intros [[_ H] _]. rewrite Z.eqb_refl in H. discriminate H.
      * intros H. contradiction.
    + intros i Hi. rewrite E3, filter_In. split.
      * intros [[H _] _]. exact H.
      * intros H. split; [split; [exact H |] | apply Hs; exact H].
        destruct (Z.eqb_spec i c); [contradiction | reflexivity].
  - assert (Hn : ~ In c (selected_indices self)).
    { intros H. apply ThumbFacts.mem_In in H. congruence. }
    split.
    + rewrite E3. split; [intros _; exact Hn |].
      intros _. split; [left; reflexivity | exact Hr].
    + intros i Hi. rewrite E3. split.
      * intros [[H | H] _]; [congruence | exact H].
      * intros H. split; [right; exact H | apply Hs; exact H].
Qed.

End ClickFacts.

(** X22.  What a click on a thumbnail selects.  For a click on thumbnail
    [c] of a list with a valid selection: a plain click makes [c] the
    current frame and the only selected one; a click with Control leaves
    the current frame alone and toggles [c] in the selection, so that two
    such clicks restore the selection; a click with Shift while a frame is
    current selects exactly the frames from the current one to [c] and then
    makes [c] the current frame.  A press that hits no thumbnail changes
    nothing. *)
Theorem clicks_select_one_toggle_one_or_select_a_range :
  forall (self : ThumbListWidget.t) (c : Z) (ctrl shift : bool),
    ThumbListWidget.valid self ->
    (ThumbListWidget.mousePressEvent self (-1) ctrl shift = self)
    /\ ((0 <= c < Z.of_nat (length (ThumbListWidget.thumbs self)))%Z ->
        let self1 := ThumbListWidget.mousePressEvent self c ctrl shift in
        (ctrl = false ->
         (shift = false \/ ThumbListWidget.current_idx self = (-1)%Z) ->
         ThumbListWidget.current_idx self1 = c
         /\ forall i, In i (ThumbListWidget.selected_indices self1) <-> i = c)
        /\ (ctrl = false -> shift = true ->
            (0 <= ThumbListWidget.current_idx self)%Z ->
            ThumbListWidget.current_idx self1 = c
            /\ forall i,
                In i (ThumbListWidget.selected_indices self1)
                <-> (Z.min c (ThumbListWidget.current_idx self) <= i
                     <= Z.max c (ThumbListWidget.current_idx self))%Z)
        /\ (ctrl = true ->
            ThumbListWidget.current_idx self1
            = ThumbListWidget.current_idx self
            /\ (In c (ThumbListWidget.selected_indices self1)
                <-> ~ In c (ThumbListWidget.selected_indices self))
            /\ (forall i, i <> c ->
                          (In i (ThumbListWidget.selected_indices self1)
                           <-> In i (ThumbListWidget.selected_indices self)))
            /\ forall i,
                In i (ThumbListWidget.selected_indices
                        (ThumbListWidget.mousePressEvent self1 c ctrl shift))
                <-> In i (ThumbListWidget.selected_indices self))).
Proof.
  intros self c ctrl shift Hv. split; [reflexivity |].
  intros Hr self1.
  assert (Hc : c <> (-1)%Z) by lia.
  destruct Hv as [Hcur Hsel].
  split; [| split].
  - intros -> Hplain. unfold self1, ThumbListWidget.mousePressEvent.
    destruct (Z.eqb_spec c (-1)); [contradiction |]. cbn [negb].
    assert (E : shift && (ThumbListWidget.current_idx self >=? 0)%Z = false).
    { destruct Hplain as [-> | ->]; [reflexivity |].
      apply andb_false_r. }
    rewrite E.
    destruct (ThumbFacts.set_current_spec self c) as (E1 & E2 & E3).
    destruct (ThumbFacts.select_frames_spec
                (ThumbListWidget.set_current self c) [c]) as (F1 & F2 & F3).
    rewrite F2, E3.
    rewrite (proj2 (ThumbFacts.in_range_spec self c) Hr).
    split; [reflexivity |].
    intros i. rewrite F3, E1. split.
    + intros [[H | []] _]. symmetry. exact H.
    + intros ->. split; [left; reflexivity | exact Hr].
  - intros -> -> Hpos. unfold self1, ThumbListWidget.mousePressEvent.
    destruct (Z.eqb_spec c (-1)); [contradiction |]. cbn [negb andb].
    destruct (Z.geb_spec (ThumbListWidget.current_idx self) 0); [| lia].
    set (lo := Z.min c (ThumbListWidget.current_idx self)).
    set (hi := Z.max c (ThumbListWidget.current_idx self)).
    destruct (ThumbFacts.select_frames_spec self (ThumbListWidget.range lo (hi + 1)))
      as (F1 & F2 & F3).
    destruct (ThumbFacts.set_current_spec
                (ThumbListWidget.select_frames
                   self (ThumbListWidget.range lo (hi + 1))) c)
      as (E1 & E2 & E3).
    rewrite E3, E2.
    assert (Hin : ThumbListWidget.in_range
                    (ThumbListWidget.select_frames
                       self (ThumbListWidget.range lo (hi + 1))) c = true).
    { apply ThumbFacts.in_range_spec. rewrite F1. exact Hr. }
    rewrite Hin. split; [reflexivity |].
    intros i. rewrite F3, ThumbFacts.range_In.
    destruct Hcur as [Hcur | Hcur]; [lia |].
    unfold lo, hi. lia.
  - intros ->.
    destruct (ClickFacts.ctrl_click self c shift Hc Hr (conj Hcur Hsel))
      as (T1 & T2 & T3 & T4).
    fold self1 in T1, T2, T3, T4.
    split; [exact T2 |]. split; [exact T3 |]. split; [exact T4 |].
    assert (Hv1 : ThumbListWidget.valid self1).
    { apply ThumbFacts.valid_mousePressEvent. split; assumption. }
    assert (Hr1 : (0 <= c < Z.of_nat (length (ThumbListWidget.thumbs self1)))%Z)
      by (rewrite T1; exact Hr).
    destruct (ClickFacts.ctrl_click self1 c shift Hc Hr1 Hv1)
      as (_ & _ & U3 & U4).
    intros i. destruct (Z.eq_dec i c) as [-> | Hi].
    + rewrite U3, T3. split.
      * intros H.
        destruct (in_dec Z.eq_dec c (ThumbListWidget.selected_indices self));
          [assumption | contradiction].
      * intros H Hn. contradiction.
    + rewrite (U4 i Hi). apply T4. exact Hi.
Qed.

(** The theorem above at a list of three thumbnails and a click on the
    last one with the Shift key held. *)
Lemma clicks_select_one_toggle_one_or_select_a_range_witness :
  ThumbListWidget.current_idx
    (ThumbListWidget.mousePressEvent SampleThumbs.list3 2 false true) = 2%Z.
Proof.
  destruct (clicks_select_one_toggle_one_or_select_a_range
              SampleThumbs.list3 2%Z false true sample_list3_valid)
    as [_ H].
  assert (Hr : (0 <= 2 < Z.of_nat (length (ThumbListWidget.thumbs
                                             SampleThumbs.list3)))%Z)
    by (simpl; lia).
  destruct (H Hr) as (_ & Hshift & _).
  destruct (Hshift eq_refl eq_refl) as [Hcur _].
  - simpl. lia.
  - exact Hcur.
Defined.
